(** * Offline-first task synchronisation: the sync engine of
      [src/services/syncService.ts] over the store of [src/db/database.ts].

    The development embeds the two roles of [SyncService]:
    - the server-side batch reconciler [handleBatchSync] (Last-Write-Wins),
    - the client-side orchestrator [sync] that drains the sync queue,
    together with the [Database] class and the [TaskService] they work
    with.

    Conventions of the embedding.
    - Values have the types the TypeScript declarations give them, and what
      the program itself makes of such values: a key of a [Partial<Task>]
      may be absent or hold [undefined]; a date that went through
      [JSON.stringify] (the [data] column of the sync queue, the body of a
      request) is the text [toISOString()] gives, or [null] where the Date
      was an Invalid Date.  Values of other types under these keys (a
      number as title, text that is no ISO date, ...) are outside the
      embedding.
    - A JavaScript [Date] is its time value: an integer number of
      milliseconds, or NaN for an Invalid Date.
    - The text [toISOString()] gives is represented by the time value it
      denotes ([new Date(text)] gives the time value back), in DATETIME
      columns and in JSON alike.  Where the program compares such texts
      (the SQL comparison and ORDER BY on a DATETIME column), their
      characters, given by [Iso.text], are compared bytewise, as SQLite
      compares text.
    - A table with [id TEXT PRIMARY KEY] is a finite map from the id to the
      remaining columns.
    - An [async] method is a state-and-exception computation over the
      [World]: the database, the wall clock and the requests put on the wire.
    - The messages of TypeErrors are those of V8 (Node.js 16 and later);
      [undefined] is bound to a statement as NULL, as the [sqlite3] driver
      does.
    - [console.*] calls are not modelled. *)

From stdpp Require Import gmap strings list sorting.
From Stdlib Require Import ZArith Lia.

Local Open Scope Z_scope.

(** ** JavaScript values used by the code *)

Module JsDate.

(** A [Date] object: a time value in milliseconds, or an Invalid Date. *)
Inductive t : Type :=
| Valid (ms : Z)
| Invalid.

#[global] Instance eq_dec : EqDecision t.
Proof. solve_decision. Defined.

(** [a >= b] on two Date objects: both are converted to numbers; every
    comparison with NaN is false. *)
Definition geb (a b : t) : bool :=
  match a, b with
  | Valid x, Valid y => y <=? x
  | _, _ => false
  end.

(** [a < b] on two Date objects. *)
Definition ltb (a b : t) : bool :=
  match a, b with
  | Valid x, Valid y => x <? y
  | _, _ => false
  end.

End JsDate.

(** The characters of the text [toISOString()] gives for a time value:
    [YYYY-MM-DDTHH:mm:ss.sssZ] in UTC, the year written with four digits
    from 0000 to 9999 and as a sign and six digits outside. *)
Module Iso.

(** The civil date (year, month, day) of a day number, counted from
    1970-01-01, in the proleptic Gregorian calendar. *)
Definition civil (days : Z) : Z * Z * Z :=
  let z := days + 719468 in
  let era := z / 146097 in
  let doe := z mod 146097 in
  let yoe := (doe - doe / 1460 + doe / 36524 - doe / 146096) / 365 in
  let doy := doe - (365 * yoe + yoe / 4 - yoe / 100) in
  let mp := (5 * doy + 2) / 153 in
  let d := doy - (153 * mp + 2) / 5 + 1 in
  let m := if mp <? 10 then mp + 3 else mp - 9 in
  let y := yoe + era * 400 + (if m <=? 2 then 1 else 0) in
  (y, m, d).

Definition digit (n : Z) : Ascii.ascii := Ascii.ascii_of_N (48 + Z.to_N n).

(** [n] in decimal, on [width] digits. *)
Fixpoint pad (width : nat) (n : Z) : string :=
  match width with
  | O => ""
  | S w => String (digit (n / 10 ^ Z.of_nat w)) (pad w (n mod 10 ^ Z.of_nat w))
  end.

Definition year_text (y : Z) : string :=
  if (0 <=? y) && (y <=? 9999) then pad 4 y
  else (if y <? 0 then "-" else "+") +:+ pad 6 (Z.abs y).

Definition text (ms : Z) : string :=
  let tod := ms mod 86400000 in
  let '(y, m, d) := civil (ms / 86400000) in
  year_text y +:+ "-" +:+ pad 2 m +:+ "-" +:+ pad 2 d +:+ "T" +:+
  pad 2 (tod / 3600000) +:+ ":" +:+ pad 2 (tod / 60000 mod 60) +:+ ":" +:+
  pad 2 (tod / 1000 mod 60) +:+ "." +:+ pad 3 (tod mod 1000) +:+ "Z".

(** The comparisons of SQLite on two such texts (BINARY collation): the
    text of [a] sorts before, or not after, the text of [b]. *)
Definition before (a b : Z) : bool := String.ltb (text a) (text b).

Definition not_after (a b : Z) : bool := String.leb (text a) (text b).

(** The time values whose year is written with four digits: from
    0000-01-01T00:00:00.000Z to 9999-12-31T23:59:59.999Z. *)
Definition four_digit_year (ms : Z) : Prop :=
  -62167219200000 ≤ ms ≤ 253402300799999.

End Iso.

(** The steps of [Iso.civil], named, and the rank of a time value in the
    order of the texts of four-digit years: the date as one number, then
    the time of day. *)
Module IsoOrder.

Definition yoe_of (doe : Z) : Z :=
  (doe - doe / 1460 + doe / 36524 - doe / 146096) / 365.

Definition first_day (yoe : Z) : Z := 365 * yoe + yoe / 4 - yoe / 100.

Definition mp_of (doy : Z) : Z := (5 * doy + 2) / 153.

Definition dom_of (doy : Z) : Z := doy - (153 * mp_of doy + 2) / 5 + 1.

Definition date_rank (days : Z) : Z :=
  let '(y, m, d) := Iso.civil days in (y * 13 + m) * 32 + d.

Definition rank (ms : Z) : Z :=
  date_rank (ms / 86400000) * 86400000 + ms mod 86400000.

End IsoOrder.

(** A thrown error, with its [message]: the errors of JavaScript, of axios
    and of the SQLite driver. *)
Inductive JsError : Type :=
| RangeError (message : string)
| TypeError (message : string)
| AxiosError (message : string)
| SqliteError (message : string).

Definition message (e : JsError) : string :=
  match e with
  | RangeError m | TypeError m | AxiosError m | SqliteError m => m
  end.

(** What an object with optional keys holds under a key: the key is
    absent, or present with the value [undefined], or present with a
    value. *)
Inductive Field (A : Type) : Type :=
| Absent
| Undefined
| Present (a : A).

Arguments Absent {A}.
Arguments Undefined {A}.
Arguments Present {A} a.

(** [object.key]: the value, [None] standing for [undefined]. *)
Definition read {A} (f : Field A) : option A :=
  match f with
  | Present a => Some a
  | Absent | Undefined => None
  end.

(** [{ key: existing, ...object }.key]: a key that is present overrides,
    even when it holds [undefined]. *)
Definition lay {A} (f : Field A) (existing : option A) : option A :=
  match f with
  | Absent => existing
  | Undefined => None
  | Present a => Some a
  end.

(** What is found where a [Date] is declared: a Date object; the text
    [JSON.stringify] writes for a Date, given by the time value it denotes;
    or [null], which [JSON.stringify] writes for an Invalid Date. *)
Inductive DateValue : Type :=
| DateObject (d : JsDate.t)
| IsoText (ms : Z)
| Null.

(** Truthiness: an object is truthy (an Invalid Date included) and so is a
    non-empty string; [null], [undefined], [false] and the empty string are
    falsy. *)
Definition truthy_date (v : option DateValue) : bool :=
  match v with
  | Some (DateObject _) | Some (IsoText _) => true
  | Some Null | None => false
  end.

Definition truthy_bool (v : option bool) : bool := default false v.

Definition truthy_string (v : option string) : bool :=
  match v with
  | Some s => if decide (s = "") then false else true
  | None => false
  end.

(** ** Protocol types ([../types]) *)

Inductive SyncStatus : Type := ss_pending | ss_synced | ss_error.

Inductive Operation : Type := op_create | op_update | op_delete.

Inductive Status : Type := st_success | st_conflict | st_error.

#[global] Instance SyncStatus_eq_dec : EqDecision SyncStatus.
Proof. solve_decision. Defined.
#[global] Instance Operation_eq_dec : EqDecision Operation.
Proof. solve_decision. Defined.
#[global] Instance Status_eq_dec : EqDecision Status.
Proof. solve_decision. Defined.

(** A [Task] as [rowToTask] builds it from a row. *)
Module Task.
Record t : Type := mk {
  id : string;
  title : string;
  description : option string;
  completed : bool;
  created_at : JsDate.t;
  updated_at : JsDate.t;
  is_deleted : bool;
  sync_status : SyncStatus;
  server_id : option string;
  last_synced_at : option JsDate.t;
}.
#[global] Instance eq_dec : EqDecision t.
Proof. solve_decision. Defined.
End Task.

(** [Partial<Task>], as the data of a queue item or the input of the task
    service. *)
Module TaskData.
Record t : Type := mk {
  id : Field string;
  title : Field string;
  description : Field string;
  completed : Field bool;
  created_at : Field DateValue;
  updated_at : Field DateValue;
  is_deleted : Field bool;
  sync_status : Field SyncStatus;
  server_id : Field string;
  last_synced_at : Field DateValue;
}.
(** The object [{}]. *)
Definition empty : t :=
  mk Absent Absent Absent Absent Absent Absent Absent Absent Absent Absent.
End TaskData.

(** An object of static type [Task] as the code builds it before [save]:
    laying a [Partial<Task>] over a task can leave [undefined] under a key,
    or the text of a date where a Date is declared.  [None] stands for
    [undefined]. *)
Module TaskObject.
Record t : Type := mk {
  id : string;
  title : option string;
  description : option string;
  completed : option bool;
  created_at : option DateValue;
  updated_at : DateValue;
  is_deleted : option bool;
  sync_status : SyncStatus;
  server_id : option string;
  last_synced_at : option DateValue;
}.

(** A task read from the store, as such an object. *)
Definition of_task (task : Task.t) : t :=
  {| id := Task.id task;
     title := Some (Task.title task);
     description := Task.description task;
     completed := Some (Task.completed task);
     created_at := Some (DateObject (Task.created_at task));
     updated_at := DateObject (Task.updated_at task);
     is_deleted := Some (Task.is_deleted task);
     sync_status := Task.sync_status task;
     server_id := Task.server_id task;
     last_synced_at := DateObject <$> Task.last_synced_at task |}.
End TaskObject.

(** The JSON text of a [Partial<Task>], key by key: [JSON.stringify] drops
    the keys that hold [undefined] and writes a Date as the text
    [toISOString()] gives, an Invalid Date as [null]. *)
Module Json.
Inductive date : Type :=
| text (ms : Z)
| null.

Record t : Type := mk {
  id : option string;
  title : option string;
  description : option string;
  completed : option bool;
  created_at : option date;
  updated_at : option date;
  is_deleted : option bool;
  sync_status : option SyncStatus;
  server_id : option string;
  last_synced_at : option date;
}.
(** The text [{}]. *)
Definition empty : t := mk None None None None None None None None None None.
End Json.

Definition stringify_date (f : Field DateValue) : option Json.date :=
  match f with
  | Present (DateObject (JsDate.Valid ms)) => Some (Json.text ms)
  | Present (DateObject JsDate.Invalid) => Some Json.null
  | Present (IsoText ms) => Some (Json.text ms)
  | Present Null => Some Json.null
  | Absent | Undefined => None
  end.

(** [JSON.stringify(data)] *)
Definition JSON_stringify (data : TaskData.t) : Json.t :=
  {| Json.id := read (TaskData.id data);
     Json.title := read (TaskData.title data);
     Json.description := read (TaskData.description data);
     Json.completed := read (TaskData.completed data);
     Json.created_at := stringify_date (TaskData.created_at data);
     Json.updated_at := stringify_date (TaskData.updated_at data);
     Json.is_deleted := read (TaskData.is_deleted data);
     Json.sync_status := read (TaskData.sync_status data);
     Json.server_id := read (TaskData.server_id data);
     Json.last_synced_at := stringify_date (TaskData.last_synced_at data) |}.

Definition parse_key {A} (v : option A) : Field A :=
  match v with
  | Some a => Present a
  | None => Absent
  end.

Definition parse_date (v : option Json.date) : Field DateValue :=
  match v with
  | Some (Json.text ms) => Present (IsoText ms)
  | Some Json.null => Present Null
  | None => Absent
  end.

(** [JSON.parse(text)]: a date comes back as text. *)
Definition JSON_parse (j : Json.t) : TaskData.t :=
  {| TaskData.id := parse_key (Json.id j);
     TaskData.title := parse_key (Json.title j);
     TaskData.description := parse_key (Json.description j);
     TaskData.completed := parse_key (Json.completed j);
     TaskData.created_at := parse_date (Json.created_at j);
     TaskData.updated_at := parse_date (Json.updated_at j);
     TaskData.is_deleted := parse_key (Json.is_deleted j);
     TaskData.sync_status := parse_key (Json.sync_status j);
     TaskData.server_id := parse_key (Json.server_id j);
     TaskData.last_synced_at := parse_date (Json.last_synced_at j) |}.

Module SyncQueueItem.
Record t : Type := mk {
  id : string;
  task_id : string;
  operation : Operation;
  data : TaskData.t;
  created_at : JsDate.t;
  retry_count : Z;
  error_message : option string;
}.
End SyncQueueItem.

Module BatchSyncRequest.
Record t : Type := mk {
  items : list SyncQueueItem.t;
  client_timestamp : JsDate.t;
}.
End BatchSyncRequest.

Module ProcessedItem.
Record t : Type := mk {
  client_id : string;
  server_id : string;
  status : Status;
  resolved_data : option Task.t;
  error : option string;
}.
End ProcessedItem.

Module BatchSyncResponse.
Record t : Type := mk {
  processed_items : list ProcessedItem.t;
  server_changes : list Task.t;
  server_timestamp : JsDate.t;
}.
End BatchSyncResponse.

Module SyncError.
Record t : Type := mk {
  task_id : string;
  operation : string;
  error : string;
  timestamp : JsDate.t;
}.
End SyncError.

Module SyncResult.
Record t : Type := mk {
  success : bool;
  synced_items : Z;
  failed_items : Z;
  errors : list SyncError.t;
}.
End SyncResult.

(** ** The database ([src/db/database.ts]) *)

(** A row of table [tasks], without its primary key. *)
Module TaskRow.
Record t : Type := mk {
  title : string;
  description : option string;
  completed : Z;
  created_at : Z;
  updated_at : Z;
  is_deleted : Z;
  sync_status : SyncStatus;
  server_id : option string;
  last_synced_at : option Z;
}.
End TaskRow.

(** A row of table [sync_queue], without its primary key; column [data]
    holds JSON text. *)
Module QueueRow.
Record t : Type := mk {
  task_id : string;
  operation : Operation;
  data : Json.t;
  created_at : Z;
  retry_count : Z;
  error_message : option string;
}.
End QueueRow.

Record Database : Type := mkDatabase {
  tasks : gmap string TaskRow.t;
  sync_queue : gmap string QueueRow.t;
}.

(** The world an [async] method runs in: the database of the service, the
    number of clock reads made so far, and the batch requests posted. *)
Record World : Type := mkWorld {
  db : Database;
  ticks : nat;
  wire : list BatchSyncRequest.t;
}.

(** ** Computations that read and write the world and may throw *)

Definition Outcome (A : Type) : Type := (JsError + A)%type.

Definition M (A : Type) : Type := World → Outcome A * World.

#[global] Instance M_ret : MRet M := λ A a w, (inr a, w).

#[global] Instance M_bind : MBind M := λ A B k m w,
  match m w with
  | (inr a, w') => k a w'
  | (inl e, w') => (inl e, w')
  end.

(** [try { body } catch (error) { handler(error) }] *)
Definition try_catch {A} (body : M A) (handler : JsError → M A) : M A :=
  λ w, match body w with
       | (inr a, w') => (inr a, w')
       | (inl e, w') => handler e w'
       end.

Definition get_db : M Database := λ w, (inr (db w), w).

Definition put_db (d : Database) : M unit :=
  λ w, (inr tt, mkWorld d (ticks w) (wire w)).

#[global] Instance Outcome_ret : MRet Outcome := λ A a, inr a.

#[global] Instance Outcome_bind : MBind Outcome := λ A B k o,
  match o with
  | inr a => k a
  | inl e => inl e
  end.

#[global] Instance Outcome_fmap : FMap Outcome := λ A B f o,
  match o with
  | inr a => inr (f a)
  | inl e => inl e
  end.

Definition lift {A} (o : Outcome A) : M A := λ w, (o, w).

(** [d.toISOString()] on a Date object: throws a RangeError on an Invalid
    Date. *)
Definition toISOString (d : JsDate.t) : Outcome Z :=
  match d with
  | JsDate.Valid ms => inr ms
  | JsDate.Invalid => inl (RangeError "Invalid time value")
  end.

(** [task.key.toISOString()] on what the object holds under [key]: text
    has no such method, and [null] and [undefined] have no properties. *)
Definition call_toISOString (key : string) (v : option DateValue)
    : Outcome Z :=
  match v with
  | Some (DateObject d) => toISOString d
  | Some (IsoText _) =>
      inl (TypeError ("task." +:+ key +:+ ".toISOString is not a function"))
  | Some Null =>
      inl (TypeError "Cannot read properties of null (reading 'toISOString')")
  | None =>
      inl (TypeError
             "Cannot read properties of undefined (reading 'toISOString')")
  end.

Module Db.

(** [rowToTask]: the row found under primary key [id], as a Task. *)
Definition rowToTask (id : string) (row : TaskRow.t) : Task.t :=
  {| Task.id := id;
     Task.title := TaskRow.title row;
     Task.description := TaskRow.description row;
     Task.completed := negb (TaskRow.completed row =? 0);
     Task.created_at := JsDate.Valid (TaskRow.created_at row);
     Task.updated_at := JsDate.Valid (TaskRow.updated_at row);
     Task.is_deleted := negb (TaskRow.is_deleted row =? 0);
     Task.sync_status := TaskRow.sync_status row;
     Task.server_id := TaskRow.server_id row;
     Task.last_synced_at := JsDate.Valid <$> TaskRow.last_synced_at row |}.

(** The row the statement of [save] writes.  The parameter array is
    evaluated first, element by element: [toISOString()] throws on an
    Invalid Date and is no method of anything but a Date.  Then the
    statement runs: a title bound as NULL violates [title TEXT NOT NULL]. *)
Definition save_params (task : TaskObject.t) : Outcome TaskRow.t :=
  created ← call_toISOString "created_at" (TaskObject.created_at task);
  updated ← call_toISOString "updated_at" (Some (TaskObject.updated_at task));
  synced ← (if truthy_date (TaskObject.last_synced_at task)
            then Some <$> call_toISOString "last_synced_at"
                            (TaskObject.last_synced_at task)
            else mret None);
  title ← match TaskObject.title task with
          | Some s => mret s
          | None =>
              inl (SqliteError
                     "SQLITE_CONSTRAINT: NOT NULL constraint failed: tasks.title")
          end;
  mret {| TaskRow.title := title;
          TaskRow.description := TaskObject.description task;
          TaskRow.completed :=
            if truthy_bool (TaskObject.completed task) then 1 else 0;
          TaskRow.created_at := created;
          TaskRow.updated_at := updated;
          TaskRow.is_deleted :=
            if truthy_bool (TaskObject.is_deleted task) then 1 else 0;
          TaskRow.sync_status := TaskObject.sync_status task;
          TaskRow.server_id :=
            if truthy_string (TaskObject.server_id task)
            then TaskObject.server_id task else None;
          TaskRow.last_synced_at := synced |}.

(** [save(task)]: INSERT OR REPLACE INTO tasks, keyed by [task.id]. *)
Definition save (task : TaskObject.t) : M unit :=
  row ← lift (save_params task);
  d ← get_db;
  put_db (mkDatabase (<[TaskObject.id task := row]> (tasks d)) (sync_queue d)).

(** [findById(id)] *)
Definition findById (id : string) : M (option Task.t) :=
  d ← get_db;
  mret (rowToTask id <$> tasks d !! id).

(** [findTasksModifiedSince(timestamp)]:
    SELECT * FROM tasks WHERE updated_at > ?, the parameter being
    [timestamp.toISOString()]: a comparison of texts. *)
Definition findTasksModifiedSince (timestamp : JsDate.t) : M (list Task.t) :=
  since ← lift (toISOString timestamp);
  d ← get_db;
  mret (uncurry rowToTask <$>
          filter (λ kr, Iso.before since (TaskRow.updated_at kr.2) = true)
            (map_to_list (tasks d))).

(** The order of ORDER BY created_at ASC: the order of the texts. *)
Definition created_before (a b : string * QueueRow.t) : Prop :=
  Iso.not_after (QueueRow.created_at a.2) (QueueRow.created_at b.2) = true.

#[global] Instance created_before_dec a b : Decision (created_before a b).
Proof. unfold created_before. apply _. Defined.

Definition rowToItem (kr : string * QueueRow.t) : SyncQueueItem.t :=
  {| SyncQueueItem.id := kr.1;
     SyncQueueItem.task_id := QueueRow.task_id kr.2;
     SyncQueueItem.operation := QueueRow.operation kr.2;
     SyncQueueItem.data := JSON_parse (QueueRow.data kr.2);
     SyncQueueItem.created_at := JsDate.Valid (QueueRow.created_at kr.2);
     SyncQueueItem.retry_count := QueueRow.retry_count kr.2;
     SyncQueueItem.error_message := QueueRow.error_message kr.2 |}.

(** The result set of SELECT * FROM sync_queue ORDER BY created_at ASC,
    mapped to queue items. *)
Definition pending (d : Database) : list SyncQueueItem.t :=
  rowToItem <$> merge_sort created_before (map_to_list (sync_queue d)).

(** [getPendingSyncItems()] *)
Definition getPendingSyncItems : M (list SyncQueueItem.t) :=
  d ← get_db;
  mret (pending d).

(** [removeSyncQueueItem(id)]: DELETE FROM sync_queue WHERE id = ? *)
Definition removeSyncQueueItem (id : string) : M unit :=
  d ← get_db;
  put_db (mkDatabase (tasks d) (delete id (sync_queue d))).

End Db.

(** ** The service ([src/services/syncService.ts]) *)

Module SyncService.

Section WithClock.

(** The wall clock: [clock n] is the time value returned by the [n]-th
    evaluation of [new Date()]. *)
Variable clock : nat → Z.

(** [new Date()] *)
Definition Date_now : M JsDate.t :=
  λ w, (inr (JsDate.Valid (clock (ticks w))),
        mkWorld (db w) (S (ticks w)) (wire w)).

(** [new Date(d)] for a Date [d]: a Date with the same time value. *)
Definition Date_from (d : JsDate.t) : JsDate.t := d.

(** [new Date(v)] for what is found where a Date is declared: the text of a
    date is parsed to the time value it denotes; [null] converts to the
    number 0. *)
Definition new_Date (v : DateValue) : JsDate.t :=
  match v with
  | DateObject d => Date_from d
  | IsoText ms => JsDate.Valid ms
  | Null => JsDate.Valid 0
  end.

(** [x || new Date()]: [x] itself when it is truthy. *)
Definition or_now (x : Field DateValue) : M DateValue :=
  match read x with
  | Some v =>
      if truthy_date (Some v) then mret v
      else now ← Date_now; mret (DateObject now)
  | None => now ← Date_now; mret (DateObject now)
  end.

(** [s || dflt] for a possibly absent string (the empty string is falsy). *)
Definition or_string (s : Field string) (dflt : string) : string :=
  match read s with
  | Some v => if decide (v = "") then dflt else v
  | None => dflt
  end.

(** [b || false] *)
Definition or_false (b : Field bool) : bool := truthy_bool (read b).

(** [{ ...serverTask, ...data, id: serverTask.id, sync_status: 'synced',
       updated_at: clientUpdatedDate }] *)
Definition mergedTask (serverTask : Task.t) (data : TaskData.t)
    (clientUpdatedDate : JsDate.t) : TaskObject.t :=
  {| TaskObject.id := Task.id serverTask;
     TaskObject.title :=
       lay (TaskData.title data) (Some (Task.title serverTask));
     TaskObject.description :=
       lay (TaskData.description data) (Task.description serverTask);
     TaskObject.completed :=
       lay (TaskData.completed data) (Some (Task.completed serverTask));
     TaskObject.created_at :=
       lay (TaskData.created_at data)
         (Some (DateObject (Task.created_at serverTask)));
     TaskObject.updated_at := DateObject clientUpdatedDate;
     TaskObject.is_deleted :=
       lay (TaskData.is_deleted data) (Some (Task.is_deleted serverTask));
     TaskObject.sync_status := ss_synced;
     TaskObject.server_id :=
       lay (TaskData.server_id data) (Task.server_id serverTask);
     TaskObject.last_synced_at :=
       lay (TaskData.last_synced_at data)
         (DateObject <$> Task.last_synced_at serverTask) |}.

(** The body of the [try] block for one item of the batch; the result is
    what the block pushes on [processedItems]. *)
Definition reconcile (item : SyncQueueItem.t) : M (list ProcessedItem.t) :=
  let task_id := SyncQueueItem.task_id item in
  let operation := SyncQueueItem.operation item in
  let data := SyncQueueItem.data item in
  serverTask ← Db.findById task_id;
  match serverTask with
  | None =>
      match operation with
      | op_create =>
          created ← or_now (TaskData.created_at data);
          updated ← or_now (TaskData.updated_at data);
          let newTask :=
            {| TaskObject.id := task_id;
               TaskObject.title :=
                 Some (or_string (TaskData.title data)
                         "New Task (Client Sync)");
               TaskObject.description := read (TaskData.description data);
               TaskObject.completed :=
                 Some (or_false (TaskData.completed data));
               TaskObject.is_deleted :=
                 Some (or_false (TaskData.is_deleted data));
               TaskObject.created_at := Some created;
               TaskObject.updated_at := updated;
               TaskObject.sync_status := ss_synced;
               TaskObject.server_id := Some task_id;
               TaskObject.last_synced_at := None |} in
          Db.save newTask;;
          mret [ProcessedItem.mk task_id task_id st_success None None]
      | _ =>
          mret [ProcessedItem.mk task_id task_id st_success None None]
      end
  | Some serverTask =>
      let clientUpdatedDate :=
        match read (TaskData.updated_at data) with
        | Some v =>
            if truthy_date (Some v) then new_Date v
            else Task.updated_at serverTask
        | None => Task.updated_at serverTask
        end in
      let serverUpdatedDate := Task.updated_at serverTask in
      if JsDate.geb clientUpdatedDate serverUpdatedDate then
        Db.save (mergedTask serverTask data clientUpdatedDate);;
        mret [ProcessedItem.mk task_id (Task.id serverTask) st_success
                None None]
      else if JsDate.ltb clientUpdatedDate serverUpdatedDate then
        mret [ProcessedItem.mk task_id (Task.id serverTask) st_conflict
                (Some serverTask) None]
      else mret []
  end.

(** One iteration of the loop: [try { ... } catch (error) { push error }]. *)
Definition process_item (item : SyncQueueItem.t) : M (list ProcessedItem.t) :=
  let task_id := SyncQueueItem.task_id item in
  try_catch (reconcile item)
    (λ error,
       mret [ProcessedItem.mk task_id task_id st_error None
               (Some (message error))]).

(** [for (const item of request.items) { ... }] over the accumulator
    [processedItems]. *)
Fixpoint process_items (items : list SyncQueueItem.t)
    (processedItems : list ProcessedItem.t) : M (list ProcessedItem.t) :=
  match items with
  | [] => mret processedItems
  | item :: rest =>
      pushed ← process_item item;
      process_items rest (processedItems ++ pushed)
  end.

Definition handleBatchSync (request : BatchSyncRequest.t)
    : M BatchSyncResponse.t :=
  processedItems ← process_items (BatchSyncRequest.items request) [];
  serverChanges ←
    Db.findTasksModifiedSince
      (Date_from (BatchSyncRequest.client_timestamp request));
  server_timestamp ← Date_now;
  mret {| BatchSyncResponse.processed_items := processedItems;
          BatchSyncResponse.server_changes := serverChanges;
          BatchSyncResponse.server_timestamp := server_timestamp |}.

(** [axios.post(url, batchRequest)]: the request goes on the wire; the
    transport either delivers the response body or throws. *)
Definition axios_post
    (transport : BatchSyncRequest.t → Outcome BatchSyncResponse.t)
    (batchRequest : BatchSyncRequest.t) : M BatchSyncResponse.t :=
  λ w, (transport batchRequest,
        mkWorld (db w) (ticks w) (wire w ++ [batchRequest])).

(** [for (const item of batchResponse.processed_items) { ... }] over the
    counters [syncedCount] and [failedCount]. *)
Fixpoint tally (verdicts : list ProcessedItem.t) (syncedCount failedCount : Z)
    : M (Z * Z) :=
  match verdicts with
  | [] => mret (syncedCount, failedCount)
  | item :: rest =>
      match ProcessedItem.status item with
      | st_success | st_conflict =>
          Db.removeSyncQueueItem (ProcessedItem.client_id item);;
          tally rest (syncedCount + 1) failedCount
      | st_error => tally rest syncedCount (failedCount + 1)
      end
  end.

Definition sync (transport : BatchSyncRequest.t → Outcome BatchSyncResponse.t)
    : M SyncResult.t :=
  pendingItems ← Db.getPendingSyncItems;
  let totalPending := Z.of_nat (length pendingItems) in
  if decide (totalPending = 0) then
    mret (SyncResult.mk true 0 0 [])
  else
    client_timestamp ← Date_now;
    let batchRequest := BatchSyncRequest.mk pendingItems client_timestamp in
    try_catch
      (batchResponse ← axios_post transport batchRequest;
       counts ← tally (BatchSyncResponse.processed_items batchResponse) 0 0;
       mret (SyncResult.mk (counts.2 =? 0) counts.1 counts.2 []))
      (λ error,
         timestamp ← Date_now;
         mret (SyncResult.mk false 0 totalPending
                 [SyncError.mk "N/A" "sync" "Network or Server Error"
                    timestamp])).

End WithClock.

End SyncService.

(** ** Statement-level notions *)

(** The incoming timestamp of an item against the existing task: the
    [updated_at] carried by the item's data, as a Date, or else the
    existing one. *)
Definition incoming_timestamp (data : TaskData.t) (existing : Task.t)
    : JsDate.t :=
  match read (TaskData.updated_at data) with
  | Some v =>
      if truthy_date (Some v) then SyncService.new_Date v
      else Task.updated_at existing
  | None => Task.updated_at existing
  end.


(** The world with table [tasks] replaced. *)
Definition with_tasks (w : World) (ts : gmap string TaskRow.t) : World :=
  mkWorld (mkDatabase ts (sync_queue (db w))) (ticks w) (wire w).

(** The verdicts of the reconciler. *)
Definition verdict_success (item : SyncQueueItem.t) : ProcessedItem.t :=
  ProcessedItem.mk (SyncQueueItem.task_id item) (SyncQueueItem.task_id item)
    st_success None None.

Definition verdict_conflict (item : SyncQueueItem.t) (serverTask : Task.t)
    : ProcessedItem.t :=
  ProcessedItem.mk (SyncQueueItem.task_id item) (SyncQueueItem.task_id item)
    st_conflict (Some serverTask) None.

Definition verdict_error (item : SyncQueueItem.t) (msg : string)
    : ProcessedItem.t :=
  ProcessedItem.mk (SyncQueueItem.task_id item) (SyncQueueItem.task_id item)
    st_error None (Some msg).

(** The server copy of the task an item refers to, as [findById] returns
    it in world [w]. *)
Definition server_copy (w : World) (item : SyncQueueItem.t) : option Task.t :=
  Db.rowToTask (SyncQueueItem.task_id item)
    <$> tasks (db w) !! SyncQueueItem.task_id item.

(** A task as it reads back after [save]: a falsy [server_id] is stored as
    NULL. *)
Definition stored_form (t : Task.t) : Task.t :=
  {| Task.id := Task.id t;
     Task.title := Task.title t;
     Task.description := Task.description t;
     Task.completed := Task.completed t;
     Task.created_at := Task.created_at t;
     Task.updated_at := Task.updated_at t;
     Task.is_deleted := Task.is_deleted t;
     Task.sync_status := Task.sync_status t;
     Task.server_id :=
       match Task.server_id t with
       | Some s => if decide (s = "") then None else Some s
       | None => None
       end;
     Task.last_synced_at := Task.last_synced_at t |}.

(** The task [t] is what the object [o] reads back as once saved: the
    object holds a title and Date objects for its dates, an [undefined]
    flag is stored as 0, a falsy [server_id] or [last_synced_at] as NULL. *)
Definition stored_as (o : TaskObject.t) (t : Task.t) : Prop :=
  Task.id t = TaskObject.id o ∧
  TaskObject.title o = Some (Task.title t) ∧
  Task.description t = TaskObject.description o ∧
  Task.completed t = truthy_bool (TaskObject.completed o) ∧
  TaskObject.created_at o = Some (DateObject (Task.created_at t)) ∧
  TaskObject.updated_at o = DateObject (Task.updated_at t) ∧
  Task.is_deleted t = truthy_bool (TaskObject.is_deleted o) ∧
  Task.sync_status t = TaskObject.sync_status o ∧
  Task.server_id t =
    (if truthy_string (TaskObject.server_id o) then TaskObject.server_id o
     else None) ∧
  match TaskObject.last_synced_at o with
  | Some (DateObject d) => Task.last_synced_at t = Some d
  | Some (IsoText _) => False
  | Some Null | None => Task.last_synced_at t = None
  end.



(** The submitted data can be laid over a stored task and saved: it does
    not put [undefined] in place of the title, what it puts in place of
    [created_at] is a valid Date object, and what it puts in place of
    [last_synced_at] is a valid Date object or is falsy.  (The text of a
    date, which is what a date is after [JSON.stringify], is neither.) *)
Definition persistable (data : TaskData.t) : Prop :=
  TaskData.title data ≠ Undefined ∧
  match TaskData.created_at data with
  | Absent | Present (DateObject (JsDate.Valid _)) => True
  | _ => False
  end ∧
  match TaskData.last_synced_at data with
  | Present (DateObject JsDate.Invalid) | Present (IsoText _) => False
  | _ => True
  end.

(** What a create may hold under a date key for [save] not to throw: a
    valid Date object, or a falsy value, in place of which the clock is
    read.  (The text of a date is neither.) *)
Definition date_or_nothing (v : Field DateValue) : Prop :=
  match read v with
  | Some (DateObject JsDate.Invalid) | Some (IsoText _) => False
  | _ => True
  end.

(** The Date a create stores for such a key: the Date object, or the
    reading [now] of the clock. *)
Definition date_or_now (v : Field DateValue) (now : Z) : JsDate.t :=
  match read v with
  | Some (DateObject d) => d
  | _ => JsDate.Valid now
  end.

(** [t] is a task of the Task Store [d]: looking its id up gives [t]. *)
Definition stored (d : Database) (t : Task.t) : Prop :=
  Db.rowToTask (Task.id t) <$> tasks d !! Task.id t = Some t.

(** C7 as the specification words it: [server_changes] holds exactly the
    tasks stored once the items are processed whose [updated_at] is after
    the client timestamp. *)
Definition server_changes_as_stated : Prop :=
  ∀ (clock : nat → Z) (request : BatchSyncRequest.t) (T : Z) (w : World),
    BatchSyncRequest.client_timestamp request = JsDate.Valid T →
    ∃ resp w',
      SyncService.handleBatchSync clock request w = (inr resp, w') ∧
      ∀ t, t ∈ BatchSyncResponse.server_changes resp ↔
           stored (db w') t ∧
           JsDate.ltb (JsDate.Valid T) (Task.updated_at t) = true.

(** A queue item as it comes out of the queue: [getPendingSyncItems]
    parses its data from JSON. *)
Definition through_JSON (item : SyncQueueItem.t) : SyncQueueItem.t :=
  {| SyncQueueItem.id := SyncQueueItem.id item;
     SyncQueueItem.task_id := SyncQueueItem.task_id item;
     SyncQueueItem.operation := SyncQueueItem.operation item;
     SyncQueueItem.data := JSON_parse (JSON_stringify (SyncQueueItem.data item));
     SyncQueueItem.created_at := SyncQueueItem.created_at item;
     SyncQueueItem.retry_count := SyncQueueItem.retry_count item;
     SyncQueueItem.error_message := SyncQueueItem.error_message item |}.

(** The batch request [sync] builds in world [w]. *)
Definition sync_request (clock : nat → Z) (w : World) : BatchSyncRequest.t :=
  BatchSyncRequest.mk (Db.pending (db w)) (JsDate.Valid (clock (ticks w))).

(** A verdict that resolves its item: success or conflict. *)
Definition resolved (v : ProcessedItem.t) : Prop :=
  ProcessedItem.status v ≠ st_error.

#[global] Instance resolved_dec v : Decision (resolved v).
Proof. unfold resolved. apply _. Defined.

Definition failed (v : ProcessedItem.t) : Prop :=
  ProcessedItem.status v = st_error.

#[global] Instance failed_dec v : Decision (failed v).
Proof. unfold failed. apply _. Defined.

(** The queue after the ids in [ks] are removed one after the other. *)
Definition remove_all (ks : list string) (q : gmap string QueueRow.t)
    : gmap string QueueRow.t :=
  foldl (λ q k, delete k q) q ks.

(** The world with table [sync_queue] replaced. *)
Definition with_queue (w : World) (q : gmap string QueueRow.t) : World :=
  mkWorld (mkDatabase (tasks (db w)) q) (ticks w) (wire w).

(** ** A small scenario: one task on the server, a few queued mutations *)

Module Scenario.

Definition clock (n : nat) : Z := 5000 + Z.of_nat n.

(** The server holds task [t1], created at 1000 and last updated at 2000. *)
Definition milk : TaskRow.t :=
  TaskRow.mk "Buy milk" None 0 1000 2000 0 ss_pending None None.

Definition server : World :=
  mkWorld (mkDatabase {[ "t1" := milk ]} ∅) 0%nat [].

Definition queued (id task_id : string) (operation : Operation)
    (data : TaskData.t) : SyncQueueItem.t :=
  SyncQueueItem.mk id task_id operation data (JsDate.Valid 1500) 0 None.

(** [{ title: 'Buy oat milk', updated_at: d }], [d] a Date object. *)
Definition retitle (d : JsDate.t) : TaskData.t :=
  TaskData.mk Absent (Present "Buy oat milk") Absent Absent Absent
    (Present (DateObject d)) Absent Absent Absent Absent.

(** An update made after the server copy was last written. *)
Definition newer : SyncQueueItem.t :=
  queued "q1" "t1" op_update (retitle (JsDate.Valid 3000)).

(** An update made before the server copy was last written. *)
Definition older : SyncQueueItem.t :=
  queued "q2" "t1" op_update (retitle (JsDate.Valid 1500)).

(** A delete of a task the server never received. *)
Definition orphan : SyncQueueItem.t :=
  queued "q3" "t9" op_delete
    (TaskData.mk Absent Absent Absent Absent Absent Absent (Present true)
       Absent Absent Absent).


(** An update whose data carries an Invalid Date as [updated_at]. *)
Definition bad_updated : SyncQueueItem.t :=
  queued "q5" "t1" op_update (retitle JsDate.Invalid).

(** An update as it comes out of JSON: [created_at], the time 1000, and
    [updated_at], the time 3000, are text. *)
Definition wired : SyncQueueItem.t :=
  queued "q6" "t1" op_update
    (TaskData.mk Absent (Present "Buy oat milk") Absent Absent
       (Present (IsoText 1000)) (Present (IsoText 3000)) Absent Absent
       Absent Absent).

(** An update dated 10000-01-01T00:00:00.000Z, the first instant whose
    year takes more than four digits. *)
Definition far : SyncQueueItem.t :=
  queued "q7" "t1" op_update (retitle (JsDate.Valid 253402300800000)).

(** The server once [newer] has been accepted. *)
Definition oat_milk : TaskRow.t :=
  TaskRow.mk "Buy oat milk" None 0 1000 3000 0 ss_synced None None.


(** A client with two queued mutations. *)
Definition row (task_id : string) (created_at : Z) : QueueRow.t :=
  QueueRow.mk task_id op_update Json.empty created_at 0 None.

Definition client : World :=
  mkWorld (mkDatabase ∅ {[ "q1" := row "t1" 10; "q2" := row "t2" 20 ]})
    0%nat [].

(** A transport that never gets an answer. *)
Definition offline (_ : BatchSyncRequest.t) : Outcome BatchSyncResponse.t :=
  inl (AxiosError "Network Error").

(** A transport whose answer accepts [q1] and reports an error for [q2];
    the server timestamp of the answer is 700. *)
Definition answered (_ : BatchSyncRequest.t) : Outcome BatchSyncResponse.t :=
  inr (BatchSyncResponse.mk
         [ProcessedItem.mk "q1" "t1" st_success None None;
          ProcessedItem.mk "q2" "t2" st_error None (Some "boom")]
         [] (JsDate.Valid 700)).

(** A transport whose answer accepts every item; the server timestamp of
    the answer is 700. *)
Definition accepted (_ : BatchSyncRequest.t) : Outcome BatchSyncResponse.t :=
  inr (BatchSyncResponse.mk
         [ProcessedItem.mk "q1" "t1" st_success None None;
          ProcessedItem.mk "q2" "t2" st_success None None]
         [] (JsDate.Valid 700)).

(** The client after a first sync answered by [accepted], with one more
    mutation queued since. *)
Definition client_later : World :=
  mkWorld (mkDatabase ∅ {[ "q3" := row "t1" 30 ]}) 1%nat
    [BatchSyncRequest.mk
       [Db.rowToItem ("q1", row "t1" 10); Db.rowToItem ("q2", row "t2" 20)]
       (JsDate.Valid 5000)].

(** A client whose queue holds the update [newer], under the queue id
    [q1]: column [data] holds its JSON text. *)
Definition outbox : World :=
  mkWorld
    (mkDatabase ∅
       {[ "q1" := QueueRow.mk "t1" op_update
                    (JSON_stringify (retitle (JsDate.Valid 3000)))
                    1500 0 None ]})
    0%nat [].

(** The transport that hands the request to the reconciler, run on
    [server]. *)
Definition to_server (request : BatchSyncRequest.t)
    : Outcome BatchSyncResponse.t :=
  (SyncService.handleBatchSync clock request server).1.

End Scenario.
(** ** The rest of the database and the task service *)

(** The text of a [sync_status] in column [sync_status]. *)
Definition sync_status_text (s : SyncStatus) : string :=
  match s with
  | ss_pending => "pending"
  | ss_synced => "synced"
  | ss_error => "error"
  end.

(** The filter object of [find]: [is_deleted] and [$or], each possibly
    absent; a condition of [$or] is an object, given by its own keys and
    their values. *)
Module Filter.
Record t : Type := mk {
  is_deleted : option bool;
  or : option (list (list (string * string)));
}.
End Filter.

Module DbQuery.

(** The SQL fragment a condition of [$or] turns into: ['sync_status = ?']
    with its parameter when [sync_status] is its only key, the empty
    string, which is filtered out, otherwise. *)
Definition usable (cond : list (string * string)) : option string :=
  match cond with
  | [(key, value)] => if decide (key = "sync_status") then Some value else None
  | _ => None
  end.

(** The WHERE clause [find] builds:
    1=1 [AND is_deleted = ?] [AND (sync_status = ? OR ...)]. *)
Definition selects (filter : option Filter.t) (row : TaskRow.t) : bool :=
  match filter with
  | None => true
  | Some f =>
      match Filter.is_deleted f with
      | Some b => TaskRow.is_deleted row =? (if b then 1 else 0)
      | None => true
      end
      &&
      match Filter.or f with
      | Some conds =>
          match omap usable conds with
          | [] => true
          | orConditions =>
              bool_decide
                (sync_status_text (TaskRow.sync_status row) ∈ orConditions)
          end
      | None => true
      end
  end.

(** [find(filter)] *)
Definition find (filter : option Filter.t) : M (list Task.t) :=
  d ← get_db;
  mret (uncurry Db.rowToTask <$>
          base.filter (λ kr, selects filter kr.2 = true)
            (map_to_list (tasks d))).

End DbQuery.

(** The environment of the task service: the world, and the number of
    uuids drawn so far. *)
Record Env : Type := mkEnv {
  world : World;
  drawn : nat;
}.

Definition Async (A : Type) : Type := Env → (JsError + A) * Env.

#[global] Instance Async_ret : MRet Async := λ A a env, (inr a, env).

#[global] Instance Async_bind : MBind Async := λ A B k m env,
  match m env with
  | (inr a, env') => k a env'
  | (inl e, env') => (inl e, env')
  end.

(** A computation over the world, run in the environment. *)
Definition run {A} (m : M A) : Async A :=
  λ env,
    match m (world env) with
    | (inr a, w) => (inr a, mkEnv w (drawn env))
    | (inl e, w) => (inl e, mkEnv w (drawn env))
    end.

(** The driver rejects the statement. *)
Definition reject {A} (e : JsError) : Async A := λ env, (inl e, env).

(** The object literal of [createTask], seen as the [Partial<Task>] it is
    queued as: it has no keys [server_id] and [last_synced_at], and its key
    [description] may hold [undefined]. *)
Definition task_as_data (task : Task.t) : TaskData.t :=
  {| TaskData.id := Present (Task.id task);
     TaskData.title := Present (Task.title task);
     TaskData.description :=
       match Task.description task with
       | Some s => Present s
       | None => Undefined
       end;
     TaskData.completed := Present (Task.completed task);
     TaskData.created_at := Present (DateObject (Task.created_at task));
     TaskData.updated_at := Present (DateObject (Task.updated_at task));
     TaskData.is_deleted := Present (Task.is_deleted task);
     TaskData.sync_status := Present (Task.sync_status task);
     TaskData.server_id := Absent;
     TaskData.last_synced_at := Absent |}.

(** [{ is_deleted: true }] *)
Definition deletion : TaskData.t :=
  TaskData.mk Absent Absent Absent Absent Absent Absent (Present true)
    Absent Absent Absent.

Module TaskService.

Section WithOracles.

Variable clock : nat → Z.

(** The uuid generator: [uuid n] is the value of the [n]-th call of
    [uuidv4()]. *)
Variable uuid : nat → string.

Definition uuidv4 : Async string :=
  λ env, (inr (uuid (drawn env)), mkEnv (world env) (S (drawn env))).

(** [Database.addToSyncQueue(item)]: INSERT INTO sync_queue; column [data]
    is given [JSON.stringify(item.data)].  The statement is rejected when
    the id is taken. *)
Definition addToSyncQueue (item : SyncQueueItem.t) : Async unit :=
  id ← (if decide (SyncQueueItem.id item = "") then uuidv4
        else mret (SyncQueueItem.id item));
  let data := JSON_stringify (SyncQueueItem.data item) in
  created ← run (lift (toISOString (SyncQueueItem.created_at item)));
  d ← run get_db;
  match sync_queue d !! id with
  | Some _ =>
      reject (SqliteError
        "SQLITE_CONSTRAINT: UNIQUE constraint failed: sync_queue.id")
  | None =>
      run (put_db (mkDatabase (tasks d)
        (<[id :=
            {| QueueRow.task_id := SyncQueueItem.task_id item;
               QueueRow.operation := SyncQueueItem.operation item;
               QueueRow.data := data;
               QueueRow.created_at := created;
               QueueRow.retry_count := SyncQueueItem.retry_count item;
               QueueRow.error_message :=
                 match SyncQueueItem.error_message item with
                 | Some s => if decide (s = "") then None else Some s
                 | None => None
                 end |}]> (sync_queue d))))
  end.

(** [createAndQueueSyncItem(taskId, operation, data)], which is also the
    body of [SyncService.addToSyncQueue(taskId, operation, data)]. *)
Definition createAndQueueSyncItem (taskId : string) (operation : Operation)
    (data : TaskData.t) : Async unit :=
  id ← uuidv4;
  created_at ← run (SyncService.Date_now clock);
  addToSyncQueue
    {| SyncQueueItem.id := id;
       SyncQueueItem.task_id := taskId;
       SyncQueueItem.operation := operation;
       SyncQueueItem.data := data;
       SyncQueueItem.created_at := created_at;
       SyncQueueItem.retry_count := 0;
       SyncQueueItem.error_message := None |}.

Definition createTask (taskData : TaskData.t) : Async Task.t :=
  newId ← uuidv4;
  now ← run (SyncService.Date_now clock);
  let newTask :=
    {| Task.id := newId;
       Task.title := SyncService.or_string (TaskData.title taskData) "New Task";
       Task.description := read (TaskData.description taskData);
       Task.completed := SyncService.or_false (TaskData.completed taskData);
       Task.is_deleted := false;
       Task.created_at := now;
       Task.updated_at := now;
       Task.sync_status := ss_pending;
       Task.server_id := None;
       Task.last_synced_at := None |} in
  run (Db.save (TaskObject.of_task newTask));;
  createAndQueueSyncItem newId op_create (task_as_data newTask);;
  mret newTask.

(** [{ ...task, ...updates, updated_at: new Date(), sync_status: 'pending',
       id: task.id, created_at: task.created_at }] *)
Definition updatedTask (task : Task.t) (updates : TaskData.t) (now : JsDate.t)
    : TaskObject.t :=
  {| TaskObject.id := Task.id task;
     TaskObject.title := lay (TaskData.title updates) (Some (Task.title task));
     TaskObject.description :=
       lay (TaskData.description updates) (Task.description task);
     TaskObject.completed :=
       lay (TaskData.completed updates) (Some (Task.completed task));
     TaskObject.created_at := Some (DateObject (Task.created_at task));
     TaskObject.updated_at := DateObject now;
     TaskObject.is_deleted :=
       lay (TaskData.is_deleted updates) (Some (Task.is_deleted task));
     TaskObject.sync_status := ss_pending;
     TaskObject.server_id :=
       lay (TaskData.server_id updates) (Task.server_id task);
     TaskObject.last_synced_at :=
       lay (TaskData.last_synced_at updates)
         (DateObject <$> Task.last_synced_at task) |}.

Definition updateTask (id : string) (updates : TaskData.t)
    : Async (option TaskObject.t) :=
  task ← run (Db.findById id);
  match task with
  | None => mret None
  | Some task =>
      if Task.is_deleted task then mret None
      else
        now ← run (SyncService.Date_now clock);
        run (Db.save (updatedTask task updates now));;
        createAndQueueSyncItem id op_update updates;;
        mret (Some (updatedTask task updates now))
  end.

(** [task.is_deleted = true; task.updated_at = new Date();
     task.sync_status = 'pending'] *)
Definition deletedTask (task : Task.t) (now : JsDate.t) : Task.t :=
  {| Task.id := Task.id task;
     Task.title := Task.title task;
     Task.description := Task.description task;
     Task.completed := Task.completed task;
     Task.created_at := Task.created_at task;
     Task.updated_at := now;
     Task.is_deleted := true;
     Task.sync_status := ss_pending;
     Task.server_id := Task.server_id task;
     Task.last_synced_at := Task.last_synced_at task |}.

Definition deleteTask (id : string) : Async bool :=
  task ← run (Db.findById id);
  match task with
  | None => mret false
  | Some task =>
      if Task.is_deleted task then mret false
      else
        now ← run (SyncService.Date_now clock);
        run (Db.save (TaskObject.of_task (deletedTask task now)));;
        createAndQueueSyncItem id op_delete deletion;;
        mret true
  end.

End WithOracles.

(** [getTask(id)] *)
Definition getTask (id : string) : M (option Task.t) :=
  task ← Db.findById id;
  match task with
  | None => mret None
  | Some task => if Task.is_deleted task then mret None else mret (Some task)
  end.

(** [getAllTasks()]: [find({ is_deleted: false })] *)
Definition getAllTasks : M (list Task.t) :=
  DbQuery.find (Some (Filter.mk (Some false) None)).

(** [getTasksNeedingSync()]:
    [find({ $or: [{ sync_status: 'pending' }, { sync_status: 'error' }] })] *)
Definition getTasksNeedingSync : M (list Task.t) :=
  DbQuery.find
    (Some (Filter.mk None
             (Some [[("sync_status", "pending")];
                    [("sync_status", "error")]]))).

End TaskService.

(** What one run of the [try] block may write: nothing but the row of the
    item's task, and that row only as a synced row whose [updated_at] is
    not before the one it replaces. *)
Definition writes_at_most (item : SyncQueueItem.t) (w w' : World) : Prop :=
  sync_queue (db w') = sync_queue (db w) ∧
  wire w' = wire w ∧
  (ticks w ≤ ticks w')%nat ∧
  (tasks (db w') = tasks (db w) ∨
   ∃ row',
     tasks (db w') = <[SyncQueueItem.task_id item := row']> (tasks (db w)) ∧
     TaskRow.sync_status row' = ss_synced ∧
     ∀ row, tasks (db w) !! SyncQueueItem.task_id item = Some row →
            TaskRow.updated_at row ≤ TaskRow.updated_at row').

(** The task [createTask] builds from its input, the uuid drawn and the
    reading of the clock. *)
Definition newTask (taskData : TaskData.t) (newId : string) (now : Z)
    : Task.t :=
  {| Task.id := newId;
     Task.title := SyncService.or_string (TaskData.title taskData) "New Task";
     Task.description := read (TaskData.description taskData);
     Task.completed := SyncService.or_false (TaskData.completed taskData);
     Task.is_deleted := false;
     Task.created_at := JsDate.Valid now;
     Task.updated_at := JsDate.Valid now;
     Task.sync_status := ss_pending;
     Task.server_id := None;
     Task.last_synced_at := None |}.

(** The updates can be laid over a stored task and saved, as for
    [persistable]; [updateTask] keeps the [created_at] of the task. *)
Definition storable (updates : TaskData.t) : Prop :=
  TaskData.title updates ≠ Undefined ∧
  match TaskData.last_synced_at updates with
  | Present (DateObject JsDate.Invalid) | Present (IsoText _) => False
  | _ => True
  end.

(** ** A second scenario: the task service at work on one store *)

Module Desk.

(** Distinct, non-empty identifiers, standing for the uuids drawn. *)
Fixpoint uuid (n : nat) : string :=
  match n with
  | O => "u"
  | S n => String.append "x" (uuid n)
  end.

(** The task service over the store of [Scenario.server], no uuid drawn
    yet. *)
Definition desk : Env := mkEnv Scenario.server 0.

(** The same store with a queue row already under the uuid drawn next. *)
Definition crowded : Env :=
  mkEnv (with_queue Scenario.server {[ uuid 0 := Scenario.row "t1" 10 ]}) 0.

(** [{ title: 'Buy oat milk', completed: true }], no timestamp. *)
Definition ticked : TaskData.t :=
  TaskData.mk Absent (Present "Buy oat milk") Absent (Present true) Absent
    Absent Absent Absent Absent Absent.

(** An update of [t1] that carries no [updated_at]. *)
Definition undated : SyncQueueItem.t :=
  Scenario.queued "q6" "t1" op_update ticked.

(** The data of [Scenario.newer] queued as a delete. *)
Definition mislabelled : SyncQueueItem.t :=
  Scenario.queued "q7" "t1" op_delete
    (Scenario.retitle (JsDate.Valid 3000)).

(** A create of a task the server does not hold, made by a direct call:
    its [updated_at] is a Date object. *)
Definition fresh : SyncQueueItem.t :=
  Scenario.queued "q8" "t9" op_create
    (Scenario.retitle (JsDate.Valid 3000)).

(** The delete [deleteTask] queues for [t1]. *)
Definition removal : SyncQueueItem.t :=
  Scenario.queued "q9" "t1" op_delete deletion.

(** A batch of three items, and a batch whose [client_timestamp] is an
    Invalid Date. *)
Definition batch : BatchSyncRequest.t :=
  BatchSyncRequest.mk [Scenario.newer; Scenario.older; Scenario.orphan]
    (JsDate.Valid 0).

Definition undated_batch : BatchSyncRequest.t :=
  BatchSyncRequest.mk [Scenario.newer] JsDate.Invalid.

Definition orphan_batch : BatchSyncRequest.t :=
  BatchSyncRequest.mk [Scenario.orphan] (JsDate.Valid 0).

(** A task whose [updated_at] is an Invalid Date. *)
Definition timeless : Task.t :=
  Task.mk "t2" "Call home" None false (JsDate.Valid 1000) JsDate.Invalid
    false ss_pending None None.

(** Conditions of [$or] that [find] cannot use: another key, no key, two
    keys. *)
Definition conds : list (list (string * string)) :=
  [[("title", "Buy milk")]; [];
   [("sync_status", "pending"); ("title", "Buy milk")]].

End Desk.

(** ** The order of the texts of dates *)

Lemma civil_eq days :
  Iso.civil days =
    let z := days + 719468 in
    let yoe := IsoOrder.yoe_of (z mod 146097) in
    let doy := z mod 146097 - IsoOrder.first_day yoe in
    let mp := IsoOrder.mp_of doy in
    let m := if mp <? 10 then mp + 3 else mp - 9 in
    (yoe + z / 146097 * 400 + (if m <=? 2 then 1 else 0), m, IsoOrder.dom_of doy).
Proof. reflexivity. Qed.

Lemma yoe_bounds doe : 0 ≤ doe ≤ 146096 →
  0 ≤ IsoOrder.yoe_of doe ≤ 399 ∧ 0 ≤ doe - IsoOrder.first_day (IsoOrder.yoe_of doe) ≤ 365.
Proof. unfold IsoOrder.yoe_of, IsoOrder.first_day. intros. Z.to_euclidean_division_equations. lia. Qed.

Lemma yoe_mono a b : 0 ≤ a → a ≤ b → b ≤ 146096 → IsoOrder.yoe_of a ≤ IsoOrder.yoe_of b.
Proof. unfold IsoOrder.yoe_of. intros. Z.to_euclidean_division_equations. lia. Qed.

Lemma mp_bounds doy : 0 ≤ doy ≤ 365 →
  0 ≤ IsoOrder.mp_of doy ≤ 11 ∧ 1 ≤ IsoOrder.dom_of doy ≤ 31.
Proof. unfold IsoOrder.dom_of, IsoOrder.mp_of. intros. Z.to_euclidean_division_equations. lia. Qed.

Lemma mp_mono a b : a ≤ b → IsoOrder.mp_of a ≤ IsoOrder.mp_of b.
Proof. unfold IsoOrder.mp_of. intros. Z.to_euclidean_division_equations. lia. Qed.

Lemma dom_mono a b : a < b → IsoOrder.mp_of a = IsoOrder.mp_of b → IsoOrder.dom_of a < IsoOrder.dom_of b.
Proof. unfold IsoOrder.dom_of. intros ? ->. lia. Qed.

Lemma civil_bounds days :
  1 ≤ (Iso.civil days).1.2 ≤ 12 ∧ 1 ≤ (Iso.civil days).2 ≤ 31.
Proof.
  rewrite civil_eq. cbv zeta. cbn [fst snd].
  pose proof (Z.mod_pos_bound (days + 719468) 146097 eq_refl) as Hdoe.
  destruct (yoe_bounds ((days + 719468) mod 146097)) as [_ Hdoy]; [lia |].
  destruct (mp_bounds _ Hdoy) as [Hmp Hd].
  split; [| exact Hd].
  destruct (_ <? 10) eqn:E; lia.
Qed.

Lemma civil_mono a b : a < b → IsoOrder.date_rank a < IsoOrder.date_rank b.
Proof.
  intros Hab. unfold IsoOrder.date_rank. rewrite !civil_eq. cbv zeta.
  pose proof (Z.mod_pos_bound (a + 719468) 146097 eq_refl) as Hda.
  pose proof (Z.mod_pos_bound (b + 719468) 146097 eq_refl) as Hdb.
  pose proof (Z.div_mod (a + 719468) 146097 ltac:(lia)) as Hza.
  pose proof (Z.div_mod (b + 719468) 146097 ltac:(lia)) as Hzb.
  set (ea := (a + 719468) / 146097) in *.
  set (eb := (b + 719468) / 146097) in *.
  set (da := (a + 719468) mod 146097) in *.
  set (db := (b + 719468) mod 146097) in *.
  destruct (yoe_bounds da) as [Hya Hoa]; [lia |].
  destruct (yoe_bounds db) as [Hyb Hob]; [lia |].
  destruct (mp_bounds _ Hoa) as [Hma Hdoma].
  destruct (mp_bounds _ Hob) as [Hmb Hdomb].
  assert (Hlex :
    400 * ea + IsoOrder.yoe_of da < 400 * eb + IsoOrder.yoe_of db ∨
    (400 * ea + IsoOrder.yoe_of da = 400 * eb + IsoOrder.yoe_of db ∧
     (IsoOrder.mp_of (da - IsoOrder.first_day (IsoOrder.yoe_of da)) < IsoOrder.mp_of (db - IsoOrder.first_day (IsoOrder.yoe_of db)) ∨
      (IsoOrder.mp_of (da - IsoOrder.first_day (IsoOrder.yoe_of da)) = IsoOrder.mp_of (db - IsoOrder.first_day (IsoOrder.yoe_of db)) ∧
       IsoOrder.dom_of (da - IsoOrder.first_day (IsoOrder.yoe_of da)) < IsoOrder.dom_of (db - IsoOrder.first_day (IsoOrder.yoe_of db)))))).
  { destruct (Z.lt_trichotomy ea eb) as [He | [He | He]]; [left; lia | | lia].
    assert (Hd : da < db) by lia.
    pose proof (yoe_mono da db ltac:(lia) ltac:(lia) ltac:(lia)) as Hy.
    destruct (Z.eq_dec (IsoOrder.yoe_of da) (IsoOrder.yoe_of db)) as [Heq | Hne];
      [| left; lia].
    right. split; [lia |]. rewrite Heq.
    assert (Ho : da - IsoOrder.first_day (IsoOrder.yoe_of db) < db - IsoOrder.first_day (IsoOrder.yoe_of db)) by lia.
    pose proof (mp_mono _ _ (Z.lt_le_incl _ _ Ho)) as Hm.
    destruct (Z.eq_dec (IsoOrder.mp_of (da - IsoOrder.first_day (IsoOrder.yoe_of db)))
                       (IsoOrder.mp_of (db - IsoOrder.first_day (IsoOrder.yoe_of db)))) as [Hmeq | Hmne];
      [right; split; [exact Hmeq | apply dom_mono; assumption] | left; lia]. }
  clearbody ea eb da db.
  generalize dependent (IsoOrder.dom_of (da - IsoOrder.first_day (IsoOrder.yoe_of da))).
  generalize dependent (IsoOrder.dom_of (db - IsoOrder.first_day (IsoOrder.yoe_of db))).
  generalize dependent (IsoOrder.mp_of (da - IsoOrder.first_day (IsoOrder.yoe_of da))).
  generalize dependent (IsoOrder.mp_of (db - IsoOrder.first_day (IsoOrder.yoe_of db))).
  generalize dependent (IsoOrder.yoe_of da). generalize dependent (IsoOrder.yoe_of db).
  intros.
  repeat match goal with
         | |- context [if ?c then _ else _] => destruct c eqn:?
         end; lia.
Qed.

Lemma year_range ms :
  -62167219200000 ≤ ms ≤ 253402300799999 →
  0 ≤ (Iso.civil (ms / 86400000)).1.1 ≤ 9999.
Proof.
  intros Hms.
  assert (Hdays : -719528 ≤ ms / 86400000 ≤ 2932896)
    by (Z.to_euclidean_division_equations; lia).
  pose proof (civil_bounds (ms / 86400000)) as Hb.
  assert (Hlo : IsoOrder.date_rank (-719528) ≤ IsoOrder.date_rank (ms / 86400000)).
  { destruct (Z.eq_dec (-719528) (ms / 86400000)) as [<- | Hne]; [lia |].
    apply Z.lt_le_incl, civil_mono. lia. }
  assert (Hhi : IsoOrder.date_rank (ms / 86400000) ≤ IsoOrder.date_rank 2932896).
  { destruct (Z.eq_dec (ms / 86400000) 2932896) as [-> | Hne]; [lia |].
    apply Z.lt_le_incl, civil_mono. lia. }
  change (IsoOrder.date_rank (-719528)) with 33 in Hlo.
  change (IsoOrder.date_rank 2932896) with 4159999 in Hhi.
  unfold IsoOrder.date_rank in Hlo, Hhi.
  destruct (Iso.civil (ms / 86400000)) as [[y m] d]. cbn [fst snd] in *. lia.
Qed.

Lemma compare_digit a b :
  0 ≤ a ≤ 9 → 0 ≤ b ≤ 9 →
  Ascii.compare (Iso.digit a) (Iso.digit b) = (a ?= b).
Proof.
  intros Ha Hb. unfold Ascii.compare, Iso.digit.
  rewrite !Ascii.N_ascii_embedding by lia.
  rewrite <- (N2Z.inj_compare (48 + Z.to_N a) (48 + Z.to_N b)).
  rewrite !N2Z.inj_add, !Z2N.id by lia.
  apply Z.add_compare_mono_l.
Qed.

Lemma compare_pad w : ∀ n m s t,
  0 ≤ n < 10 ^ Z.of_nat w → 0 ≤ m < 10 ^ Z.of_nat w →
  String.compare (Iso.pad w n +:+ s) (Iso.pad w m +:+ t) =
    match n ?= m with Eq => String.compare s t | c => c end.
Proof.
  induction w as [| w IH]; intros n m s t Hn Hm.
  - change (10 ^ Z.of_nat 0) with 1 in *.
    assert (n = 0) as -> by lia. assert (m = 0) as -> by lia. reflexivity.
  - rewrite Nat2Z.inj_succ, Z.pow_succ_r in Hn, Hm by lia.
    assert (Hp : 0 < 10 ^ Z.of_nat w) by (apply Z.pow_pos_nonneg; lia).
    cbn [Iso.pad].
    pose proof (Z.div_mod n (10 ^ Z.of_nat w) ltac:(lia)) as Hdn.
    pose proof (Z.div_mod m (10 ^ Z.of_nat w) ltac:(lia)) as Hdm.
    pose proof (Z.mod_pos_bound n _ Hp) as Hrn.
    pose proof (Z.mod_pos_bound m _ Hp) as Hrm.
    set (p := 10 ^ Z.of_nat w) in *.
    assert (Hqn : 0 ≤ n / p ≤ 9) by (split; [apply Z.div_pos; lia | apply Z.lt_succ_r, Z.div_lt_upper_bound; lia]).
    assert (Hqm : 0 ≤ m / p ≤ 9) by (split; [apply Z.div_pos; lia | apply Z.lt_succ_r, Z.div_lt_upper_bound; lia]).
    change (String.compare (String ?c ?x +:+ s) (String ?d ?y +:+ t))
      with (match Ascii.compare c d with
            | Eq => String.compare (x +:+ s) (y +:+ t)
            | Lt => Lt
            | Gt => Gt
            end).
    rewrite compare_digit by assumption.
    rewrite (IH _ _ s t Hrn Hrm).
    destruct (Z.compare_spec (n / p) (m / p)) as [Heq | Hlt | Hgt].
    + assert (Hc : (n ?= m) = (n mod p ?= m mod p)).
      { destruct (Z.compare_spec (n mod p) (m mod p));
          [apply Z.compare_eq_iff | apply Z.compare_lt_iff
          | apply Z.compare_gt_iff]; nia. }
      rewrite Hc. reflexivity.
    + assert (n < m) as ->%Z.compare_lt_iff by nia. reflexivity.
    + assert (m < n) as ->%Z.compare_gt_iff by nia. reflexivity.
Qed.

Lemma compare_sep c s t :
  String.compare (String c "" +:+ s) (String c "" +:+ t) = String.compare s t.
Proof.
  change (String.compare (String c "" +:+ s) (String c "" +:+ t))
    with (match Ascii.compare c c with
          | Eq => String.compare s t
          | Lt => Lt
          | Gt => Gt
          end).
  unfold Ascii.compare. rewrite N.compare_refl. reflexivity.
Qed.

Lemma rank_mono a b : a < b → IsoOrder.rank a < IsoOrder.rank b.
Proof.
  intros Hab. unfold IsoOrder.rank.
  pose proof (Z.mod_pos_bound a 86400000 eq_refl).
  pose proof (Z.mod_pos_bound b 86400000 eq_refl).
  pose proof (Z.div_mod a 86400000 ltac:(lia)).
  pose proof (Z.div_mod b 86400000 ltac:(lia)).
  destruct (Z.lt_trichotomy (a / 86400000) (b / 86400000)) as [Hd | [Hd | Hd]].
  - pose proof (civil_mono _ _ Hd). lia.
  - rewrite Hd in *. lia.
  - lia.
Qed.

Lemma rank_compare a b : (IsoOrder.rank a ?= IsoOrder.rank b) = (a ?= b).
Proof.
  destruct (Z.compare_spec a b) as [-> | H | H].
  - apply Z.compare_refl.
  - apply Z.compare_lt_iff, rank_mono, H.
  - apply Z.compare_gt_iff, rank_mono, H.
Qed.

Lemma text_compare a b :
  Iso.four_digit_year a → Iso.four_digit_year b →
  String.compare (Iso.text a) (Iso.text b) = (a ?= b).
Proof.
  intros Ha Hb. rewrite <- rank_compare. unfold IsoOrder.rank, IsoOrder.date_rank, Iso.text.
  pose proof (year_range a Ha) as Hya. pose proof (year_range b Hb) as Hyb.
  pose proof (civil_bounds (a / 86400000)) as [Hma Hda].
  pose proof (civil_bounds (b / 86400000)) as [Hmb Hdb].
  pose proof (Z.mod_pos_bound a 86400000 eq_refl) as Hta.
  pose proof (Z.mod_pos_bound b 86400000 eq_refl) as Htb.
  destruct (Iso.civil (a / 86400000)) as [[ya ma] da].
  destruct (Iso.civil (b / 86400000)) as [[yb mb] db].
  cbn [fst snd] in *.
  set (ta := a mod 86400000) in *. set (tb := b mod 86400000) in *.
  clearbody ta tb.
  unfold Iso.year_text.
  replace ((0 <=? ya) && (ya <=? 9999)) with true by (symmetry; apply andb_true_iff; lia).
  replace ((0 <=? yb) && (yb <=? 9999)) with true by (symmetry; apply andb_true_iff; lia).
  assert (Hfa : ta = ta / 3600000 * 3600000 + ta / 60000 mod 60 * 60000 +
                     ta / 1000 mod 60 * 1000 + ta mod 1000)
    by (Z.to_euclidean_division_equations; lia).
  assert (Hfb : tb = tb / 3600000 * 3600000 + tb / 60000 mod 60 * 60000 +
                     tb / 1000 mod 60 * 1000 + tb mod 1000)
    by (Z.to_euclidean_division_equations; lia).
  assert (0 ≤ ta / 3600000 < 24 ∧ 0 ≤ ta / 60000 mod 60 < 60 ∧
          0 ≤ ta / 1000 mod 60 < 60 ∧ 0 ≤ ta mod 1000 < 1000)
    as (Hha & Hmia & Hsa & Hmsa)
    by (Z.to_euclidean_division_equations; lia).
  assert (0 ≤ tb / 3600000 < 24 ∧ 0 ≤ tb / 60000 mod 60 < 60 ∧
          0 ≤ tb / 1000 mod 60 < 60 ∧ 0 ≤ tb mod 1000 < 1000)
    as (Hhb & Hmib & Hsb & Hmsb)
    by (Z.to_euclidean_division_equations; lia).
  set (ha := ta / 3600000) in *. set (hb := tb / 3600000) in *.
  set (mia := ta / 60000 mod 60) in *. set (mib := tb / 60000 mod 60) in *.
  set (sa := ta / 1000 mod 60) in *. set (sb := tb / 1000 mod 60) in *.
  set (msa := ta mod 1000) in *. set (msb := tb mod 1000) in *.
  clearbody ha hb mia mib sa sb msa msb.
  rewrite compare_pad by (change (10 ^ Z.of_nat 4) with 10000; lia).
  rewrite !compare_sep.
  rewrite compare_pad by (change (10 ^ Z.of_nat 2) with 100; lia).
  rewrite !compare_sep.
  rewrite compare_pad by (change (10 ^ Z.of_nat 2) with 100; lia).
  rewrite !compare_sep.
  rewrite compare_pad by (change (10 ^ Z.of_nat 2) with 100; lia).
  rewrite !compare_sep.
  rewrite compare_pad by (change (10 ^ Z.of_nat 2) with 100; lia).
  rewrite !compare_sep.
  rewrite compare_pad by (change (10 ^ Z.of_nat 2) with 100; lia).
  rewrite !compare_sep.
  rewrite compare_pad by (change (10 ^ Z.of_nat 3) with 1000; lia).
  change (String.compare "Z" "Z") with Eq.
  symmetry.
  destruct (Z.compare_spec ya yb);
    [| apply Z.compare_lt_iff; lia | apply Z.compare_gt_iff; lia].
  destruct (Z.compare_spec ma mb);
    [| apply Z.compare_lt_iff; lia | apply Z.compare_gt_iff; lia].
  destruct (Z.compare_spec da db);
    [| apply Z.compare_lt_iff; lia | apply Z.compare_gt_iff; lia].
  destruct (Z.compare_spec ha hb);
    [| apply Z.compare_lt_iff; lia | apply Z.compare_gt_iff; lia].
  destruct (Z.compare_spec mia mib);
    [| apply Z.compare_lt_iff; lia | apply Z.compare_gt_iff; lia].
  destruct (Z.compare_spec sa sb);
    [| apply Z.compare_lt_iff; lia | apply Z.compare_gt_iff; lia].
  destruct (Z.compare_spec msa msb);
    [| apply Z.compare_lt_iff; lia | apply Z.compare_gt_iff; lia].
  apply Z.compare_eq_iff. lia.
Qed.

Lemma text_leb_trans a : ∀ b c,
  String.leb a b = true → String.leb b c = true → String.leb a c = true.
Proof.
  unfold String.leb.
  induction a as [| x a IH]; intros [| y b] [| z c]; cbn [String.compare];
    try (intros; reflexivity || discriminate).
  unfold Ascii.compare.
  destruct (N.compare_spec (Ascii.N_of_ascii x) (Ascii.N_of_ascii y)) as [Hxy | Hxy | Hxy];
    destruct (N.compare_spec (Ascii.N_of_ascii y) (Ascii.N_of_ascii z)) as [Hyz | Hyz | Hyz];
    try discriminate; intros Hab Hbc.
  - rewrite Hxy, Hyz, N.compare_refl. exact (IH _ _ Hab Hbc).
  - rewrite Hxy. apply N.compare_lt_iff in Hyz. rewrite Hyz. reflexivity.
  - rewrite <- Hyz. apply N.compare_lt_iff in Hxy. rewrite Hxy. reflexivity.
  - assert (H : (Ascii.N_of_ascii x < Ascii.N_of_ascii z)%N) by lia.
    apply N.compare_lt_iff in H. rewrite H. reflexivity.
Qed.

Lemma text_ltb_leb a b : String.ltb a b = negb (String.leb b a).
Proof.
  unfold String.ltb, String.leb. rewrite (String.compare_antisym a b).
  destruct (String.compare b a); reflexivity.
Qed.

(** ** Running the computations *)

Ltac run :=
  unfold mbind, mret, M_bind, M_ret, Outcome_bind, Outcome_ret, Outcome_fmap,
    fmap, lift, get_db, put_db, try_catch; simpl.

Lemma findById_run id w :
  Db.findById id w = (inr (Db.rowToTask id <$> tasks (db w) !! id), w).
Proof. reflexivity. Qed.

Lemma save_run_ok task row w :
  Db.save_params task = inr row →
  Db.save task w =
    (inr tt, with_tasks w (<[TaskObject.id task := row]> (tasks (db w)))).
Proof. intros H. unfold Db.save. run. rewrite H. reflexivity. Qed.

Lemma save_run_throws task e w :
  Db.save_params task = inl e → Db.save task w = (inl e, w).
Proof. intros H. unfold Db.save. run. rewrite H. reflexivity. Qed.


Lemma geb_valid a b : JsDate.geb a b = true → ∃ ms, a = JsDate.Valid ms.
Proof. destruct a as [x|], b as [y|]; simpl; try discriminate; eauto. Qed.

(** [clientUpdatedDate] of the source is the incoming timestamp. *)
Lemma clientUpdatedDate_incoming data existing :
  match read (TaskData.updated_at data) with
  | Some v =>
      if truthy_date (Some v) then SyncService.new_Date v
      else Task.updated_at existing
  | None => Task.updated_at existing
  end = incoming_timestamp data existing.
Proof. reflexivity. Qed.

Lemma server_copy_id w item t :
  server_copy w item = Some t → Task.id t = SyncQueueItem.task_id item.
Proof.
  unfold server_copy.
  destruct (tasks (db w) !! SyncQueueItem.task_id item); simpl; [|discriminate].
  intros [= <-]. reflexivity.
Qed.

(** Every date of a task read from the store is a valid date. *)
Lemma server_copy_dates w item t :
  server_copy w item = Some t →
  (∃ c, Task.created_at t = JsDate.Valid c) ∧
  (∃ u, Task.updated_at t = JsDate.Valid u) ∧
  Task.last_synced_at t ≠ Some JsDate.Invalid.
Proof.
  unfold server_copy.
  destruct (tasks (db w) !! SyncQueueItem.task_id item) as [row|];
    simpl; [|discriminate].
  intros [= <-]. simpl. repeat split; eauto.
  destruct (TaskRow.last_synced_at row); discriminate.
Qed.

(** [save] writes a task whose dates are valid, and does not throw. *)
Lemma save_params_valid t c u :
  Task.created_at t = JsDate.Valid c →
  Task.updated_at t = JsDate.Valid u →
  Task.last_synced_at t ≠ Some JsDate.Invalid →
  ∃ row, Db.save_params (TaskObject.of_task t) = inr row.
Proof.
  intros Hc Hu Hs. unfold Db.save_params, TaskObject.of_task.
  cbn [TaskObject.created_at TaskObject.updated_at TaskObject.last_synced_at
       TaskObject.title].
  rewrite Hc, Hu. run.
  destruct (Task.last_synced_at t) as [[l|]|]; simpl; eauto.
  congruence.
Qed.

(** Reading a saved row back gives what the object is stored as. *)
Lemma save_params_stored_as o row :
  Db.save_params o = inr row → stored_as o (Db.rowToTask (TaskObject.id o) row).
Proof.
  unfold Db.save_params. run.
  destruct (TaskObject.created_at o) as [[[c|]|?|]|] eqn:Hc; simpl;
    try discriminate.
  destruct (TaskObject.updated_at o) as [[u|]|?|] eqn:Hu; simpl;
    try discriminate.
  destruct (TaskObject.last_synced_at o) as [[[l|]|?|]|] eqn:Hs; simpl;
    try discriminate;
    (destruct (TaskObject.title o) as [title|] eqn:Ht; simpl;
       [|discriminate]);
    intros [= <-]; unfold stored_as, Db.rowToTask; simpl;
    rewrite ?Hc, ?Hu, ?Hs, ?Ht;
    destruct (TaskObject.completed o) as [[]|],
             (TaskObject.is_deleted o) as [[]|];
    repeat split; reflexivity.
Qed.

(** What an object is stored as is determined by the object. *)
Lemma stored_as_inj o t t' : stored_as o t → stored_as o t' → t = t'.
Proof.
  destruct t, t'. unfold stored_as. simpl.
  intros (-> & Ht & -> & -> & Hc & Hu & -> & -> & -> & Hs)
         (-> & Ht' & -> & -> & Hc' & Hu' & -> & -> & -> & Hs').
  rewrite Ht in Ht'. rewrite Hc in Hc'. rewrite Hu in Hu'.
  injection Ht' as <-. injection Hc' as <-. injection Hu' as <-.
  f_equal.
  destruct (TaskObject.last_synced_at o) as [[?|?|]|]; try contradiction;
    congruence.
Qed.

(** A task read from the store is stored as its stored form. *)
Lemma stored_as_of_task t : stored_as (TaskObject.of_task t) (stored_form t).
Proof.
  unfold stored_as, stored_form, TaskObject.of_task, truthy_string. simpl.
  repeat split; try reflexivity.
  - destruct (Task.server_id t) as [s|]; [|reflexivity].
    destruct (decide (s = "")); reflexivity.
  - destruct (Task.last_synced_at t); reflexivity.
Qed.

(** Reading a saved row back gives the task in its stored form. *)
Lemma rowToTask_save_params t row :
  Db.save_params (TaskObject.of_task t) = inr row →
  Db.rowToTask (Task.id t) row = stored_form t.
Proof.
  intros Hrow. apply (stored_as_inj (TaskObject.of_task t)).
  - apply (save_params_stored_as _ _ Hrow).
  - apply stored_as_of_task.
Qed.

(** The result set of [findTasksModifiedSince]: the stored tasks whose
    [updated_at] is strictly after the timestamp, each once. *)
Lemma elem_of_modified_since T d t :
  t ∈ uncurry Db.rowToTask <$>
        filter (λ kr, Iso.before T (TaskRow.updated_at kr.2) = true)
          (map_to_list (tasks d)) ↔
  stored d t ∧
  ∃ u, Task.updated_at t = JsDate.Valid u ∧ Iso.before T u = true.
Proof.
  unfold stored. rewrite list_elem_of_fmap. split.
  - intros ([k row] & -> & Hin).
    apply list_elem_of_filter in Hin as [Hlt Hin].
    apply elem_of_map_to_list in Hin. simpl in *. rewrite Hin. simpl.
    split; [reflexivity | eauto].
  - intros [Hstored (u & Hu & Hlt)].
    destruct (tasks d !! Task.id t) as [row|] eqn:Hrow; [|discriminate].
    simpl in Hstored. injection Hstored as Ht.
    exists (Task.id t, row). split; [symmetry; exact Ht |].
    apply list_elem_of_filter. split.
    + rewrite <- Ht in Hu. simpl in *. injection Hu as ->. exact Hlt.
    + apply elem_of_map_to_list, Hrow.
Qed.

(** For years written with four digits, the texts of two dates compare as
    their time values. *)
Lemma before_ltb a b :
  Iso.four_digit_year a → Iso.four_digit_year b →
  Iso.before a b = (a <? b).
Proof.
  intros Ha Hb. unfold Iso.before, String.ltb.
  rewrite (text_compare _ _ Ha Hb). unfold Z.ltb. reflexivity.
Qed.

Lemma not_after_leb a b :
  Iso.four_digit_year a → Iso.four_digit_year b →
  Iso.not_after a b = (a <=? b).
Proof.
  intros Ha Hb. unfold Iso.not_after, String.leb.
  rewrite (text_compare _ _ Ha Hb). unfold Z.leb. reflexivity.
Qed.

Lemma NoDup_modified_since T d :
  NoDup (uncurry Db.rowToTask <$>
           filter (λ kr, Iso.before T (TaskRow.updated_at kr.2) = true)
             (map_to_list (tasks d))).
Proof.
  apply NoDup_fmap_2_strong.
  - intros [k1 r1] [k2 r2] [_ H1]%list_elem_of_filter
      [_ H2]%list_elem_of_filter Heq.
    apply elem_of_map_to_list in H1, H2.
    assert (k1 = k2) as -> by (apply (f_equal Task.id) in Heq; exact Heq).
    rewrite H1 in H2. congruence.
  - apply NoDup_filter, NoDup_map_to_list.
Qed.

(** [x || new Date()] does not throw, and at most reads the clock. *)
Lemma or_now_world clock x w d w' :
  SyncService.or_now clock x w = (d, w') →
  db w' = db w ∧ wire w' = wire w ∧ (ticks w ≤ ticks w')%nat ∧
  ∃ v, d = inr v.
Proof.
  unfold SyncService.or_now.
  destruct x as [| |[]]; simpl; intros [= <- <-]; simpl;
    repeat split; eauto; lia.
Qed.

Section Reconciler.

Variable clock : nat → Z.

#[local] Abbreviation process_item := (SyncService.process_item clock).
#[local] Abbreviation process_items := (SyncService.process_items clock).
#[local] Abbreviation reconcile := (SyncService.reconcile clock).
#[local] Abbreviation handleBatchSync := (SyncService.handleBatchSync clock).

(** An iteration of the loop never throws: the [catch] turns every error
    into a verdict. *)
Lemma process_item_total item w :
  ∃ pushed w', process_item item w = (inr pushed, w').
Proof.
  unfold SyncService.process_item, try_catch.
  destruct (reconcile item w) as [[e|pushed] w']; eauto.
Qed.

Lemma process_items_cons item rest acc w pushed w1 :
  process_item item w = (inr pushed, w1) →
  process_items (item :: rest) acc w = process_items rest (acc ++ pushed) w1.
Proof. intros H. simpl. unfold mbind, M_bind. rewrite H. reflexivity. Qed.


(** The loop only appends to the accumulator, and never throws. *)
Lemma process_items_total items acc w :
  ∃ vs w', process_items items acc w = (inr (acc ++ vs), w') ∧
           process_items items [] w = (inr vs, w').
Proof.
  revert acc w. induction items as [|item rest IH]; intros acc w.
  - exists [], w. rewrite app_nil_r. split; reflexivity.
  - destruct (process_item_total item w) as (pushed & w1 & Hp).
    rewrite !(process_items_cons _ _ _ _ _ _ Hp).
    destruct (IH pushed w1) as (vs & w' & H1 & H2).
    destruct (IH (acc ++ pushed) w1) as (vs' & w'' & H3 & H4).
    rewrite H2 in H4. injection H4 as <- <-.
    exists (pushed ++ vs), w'. rewrite H3, app_assoc. simpl in H1.
    split; [reflexivity | exact H1].
Qed.




(** The merged task of a persistable item is saved without an error. *)
Lemma merged_row item w existing :
  server_copy w item = Some existing →
  JsDate.geb (incoming_timestamp (SyncQueueItem.data item) existing)
             (Task.updated_at existing) = true →
  persistable (SyncQueueItem.data item) →
  ∃ row,
    Db.save_params
      (SyncService.mergedTask existing (SyncQueueItem.data item)
         (incoming_timestamp (SyncQueueItem.data item) existing)) = inr row.
Proof.
  intros Hpresent Hge (Htitle & Hcreated & Hsynced).
  destruct (server_copy_dates _ _ _ Hpresent) as ((c & Hc) & _ & Hs).
  destruct (geb_valid _ _ Hge) as (u & Hu).
  unfold Db.save_params, SyncService.mergedTask.
  cbn [TaskObject.created_at TaskObject.updated_at TaskObject.last_synced_at
       TaskObject.title].
  rewrite Hu, Hc.
  destruct (TaskData.title (SyncQueueItem.data item)); [| congruence |];
    destruct (TaskData.created_at (SyncQueueItem.data item))
      as [| |[[]| |]]; try contradiction;
    destruct (TaskData.last_synced_at (SyncQueueItem.data item))
      as [| |[[]| |]]; try contradiction;
    try (destruct (Task.last_synced_at existing) as [[]|]; [| congruence |]);
    simpl; eauto.
Qed.




(** Every verdict an iteration pushes carries the [task_id] of the item as
    [client_id]; an iteration pushes at most one verdict. *)
Lemma process_item_pushes item w pushed w' :
  process_item item w = (inr pushed, w') →
  Forall (λ v, ProcessedItem.client_id v = SyncQueueItem.task_id item) pushed ∧
  (length pushed ≤ 1)%nat.
Proof.
  unfold SyncService.process_item, try_catch.
  destruct (reconcile item w) as [[e|vs] w1] eqn:Hbody.
  - intros [= <- _]. split; [repeat constructor | simpl; lia].
  - intros [= <- _]. revert Hbody. unfold SyncService.reconcile.
    unfold mbind at 1, M_bind. rewrite findById_run.
    destruct (Db.rowToTask _ <$> _) as [serverTask|]; cbv beta zeta iota.
    + destruct (JsDate.geb _ _).
      * unfold mbind, M_bind. destruct (Db.save _ w) as [[?|[]] ?];
          [discriminate |].
        intros [= <- _]. split; [repeat constructor | simpl; lia].
      * destruct (JsDate.ltb _ _); intros [= <- _];
          (split; [repeat constructor | simpl; lia]).
    + destruct (SyncQueueItem.operation item);
        [| intros [= <- _]; (split; [repeat constructor | simpl; lia]) ..].
      unfold mbind, M_bind.
      destruct (SyncService.or_now clock _ w) as [[?|created] wa];
        [discriminate |].
      destruct (SyncService.or_now clock _ wa) as [[?|updated] wb];
        [discriminate |].
      destruct (Db.save _ wb) as [[?|[]] ?]; [discriminate |].
      intros [= <- _]. split; [repeat constructor | simpl; lia].
Qed.

(** C7, amended.  For a request whose client timestamp [T] is a date of a
    year written with four digits, [handleBatchSync] answers, and
    [server_changes] holds, each once, only tasks that are in the Task
    Store once every item of the batch has been processed; a task whose
    [updated_at] is a date of a year written with four digits is among
    them exactly when it is in the Task Store then, the tasks written by
    this very call included, and its [updated_at] is strictly greater than
    [T]. *)
Theorem server_changes_exact request T w :
  BatchSyncRequest.client_timestamp request = JsDate.Valid T →
  Iso.four_digit_year T →
  ∃ resp vs w1,
    process_items (BatchSyncRequest.items request) [] w = (inr vs, w1) ∧
    handleBatchSync request w =
      (inr resp, mkWorld (db w1) (S (ticks w1)) (wire w1)) ∧
    BatchSyncResponse.processed_items resp = vs ∧
    NoDup (BatchSyncResponse.server_changes resp) ∧
    (∀ t, t ∈ BatchSyncResponse.server_changes resp → stored (db w1) t) ∧
    ∀ t u,
      Task.updated_at t = JsDate.Valid u → Iso.four_digit_year u →
      (t ∈ BatchSyncResponse.server_changes resp ↔
       stored (db w1) t ∧
       JsDate.ltb (JsDate.Valid T) (Task.updated_at t) = true).
Proof.
  intros HT HTyear.
  destruct (process_items_total (BatchSyncRequest.items request) [] w)
    as (vs & w1 & _ & Hloop).
  eexists _, vs, w1. split; [exact Hloop |]. split.
  - unfold SyncService.handleBatchSync.
    unfold mbind at 1, M_bind. rewrite Hloop.
    unfold SyncService.Date_from. rewrite HT. reflexivity.
  - simpl. split; [reflexivity |].
    split; [apply NoDup_modified_since |]. split.
    + intros t [Hstored _]%elem_of_modified_since. exact Hstored.
    + intros t u Hu Huyear. rewrite elem_of_modified_since, Hu. simpl.
      rewrite <- (before_ltb _ _ HTyear Huyear). split.
      * intros [Hstored (u' & [= <-] & Hlt)]. auto.
      * intros [Hstored Hlt]. eauto.
Qed.

End Reconciler.

(** ** The orchestrator *)

Lemma lookup_remove_all ks (q : gmap string QueueRow.t) k :
  remove_all ks q !! k = if decide (k ∈ ks) then None else q !! k.
Proof.
  unfold remove_all. revert q.
  induction ks as [|k' ks IH]; intros q; cbn [foldl].
  - destruct (decide (k ∈ [])) as [Hin|_]; [|reflexivity].
    destruct (not_elem_of_nil _ Hin).
  - rewrite IH.
    destruct (decide (k ∈ ks)) as [Hin|Hnin];
      destruct (decide (k ∈ k' :: ks)) as [Hin'|Hnin']; try reflexivity.
    + destruct Hnin'. apply elem_of_cons. right. exact Hin.
    + apply elem_of_cons in Hin' as [->|Hin']; [|contradiction].
      apply lookup_delete_eq.
    + apply lookup_delete_ne. intros ->. apply Hnin', elem_of_cons.
      left. reflexivity.
Qed.

(** The queue items are the rows of the queue, each once. *)
Lemma pending_ids d :
  SyncQueueItem.id <$> Db.pending d ≡ₚ (map_to_list (sync_queue d)).*1.
Proof.
  unfold Db.pending. rewrite <- list_fmap_compose.
  apply fmap_Permutation, merge_sort_Permutation.
Qed.

Lemma NoDup_pending_ids d : NoDup (SyncQueueItem.id <$> Db.pending d).
Proof. rewrite pending_ids. apply NoDup_fst_map_to_list. Qed.

Lemma elem_of_pending d item :
  item ∈ Db.pending d ↔
  ∃ row, sync_queue d !! SyncQueueItem.id item = Some row ∧
         item = Db.rowToItem (SyncQueueItem.id item, row).
Proof.
  unfold Db.pending. rewrite list_elem_of_fmap. split.
  - intros ([k row] & -> & Hin). rewrite merge_sort_Permutation in Hin.
    apply elem_of_map_to_list in Hin. exists row. split; [exact Hin | reflexivity].
  - intros (row & Hrow & Hitem). exists (SyncQueueItem.id item, row).
    split; [exact Hitem |]. rewrite merge_sort_Permutation.
    apply elem_of_map_to_list, Hrow.
Qed.

Lemma pending_length d :
  length (Db.pending d) = size (sync_queue d).
Proof.
  unfold Db.pending. rewrite length_fmap, merge_sort_Permutation.
  apply length_map_to_list.
Qed.

Section Orchestrator.

Variable clock : nat → Z.

#[local] Abbreviation sync := (SyncService.sync clock).
#[local] Abbreviation tally := SyncService.tally.

(** The loop over the verdicts removes the queue rows named by the
    resolving verdicts and counts: it writes nothing else. *)
Lemma tally_run verdicts syncedCount failedCount w :
  tally verdicts syncedCount failedCount w =
    (inr (syncedCount + Z.of_nat (length (filter resolved verdicts)),
          failedCount + Z.of_nat (length (filter failed verdicts))),
     with_queue w
       (remove_all (ProcessedItem.client_id <$> filter resolved verdicts)
          (sync_queue (db w)))).
Proof.
  revert syncedCount failedCount w.
  induction verdicts as [|v rest IH]; intros s f w.
  - simpl. rewrite !Z.add_0_r. destruct w as [[] ? ?]. reflexivity.
  - assert (Hcases :
      (resolved v ∧ ¬ failed v) ∨ (¬ resolved v ∧ failed v)).
    { unfold resolved, failed.
      destruct (ProcessedItem.status v); [left | left | right];
        split; congruence. }
    destruct Hcases as [[Hres Hnf]|[Hnres Hf]].
    + rewrite (filter_cons_True resolved), (filter_cons_False failed)
        by assumption.
      assert (Hstep : tally (v :: rest) s f w =
        tally rest (s + 1) f
          (with_queue w (delete (ProcessedItem.client_id v)
                           (sync_queue (db w))))).
      { simpl. unfold resolved in Hres.
        destruct (ProcessedItem.status v); [reflexivity .. | congruence]. }
      rewrite Hstep, IH. f_equal.
      f_equal. f_equal. rewrite length_cons, Nat2Z.inj_succ. lia.
    + rewrite (filter_cons_False resolved), (filter_cons_True failed)
        by assumption.
      assert (Hstep : tally (v :: rest) s f w = tally rest s (f + 1) w).
      { simpl. unfold failed in Hf. rewrite Hf. reflexivity. }
      rewrite Hstep, IH. f_equal.
      f_equal. f_equal. rewrite length_cons, Nat2Z.inj_succ. lia.
Qed.

Lemma sync_run_idle transport w :
  Db.pending (db w) = [] →
  sync transport w = (inr (SyncResult.mk true 0 0 []), w).
Proof.
  intros Hidle. unfold SyncService.sync, Db.getPendingSyncItems. run.
  rewrite Hidle. reflexivity.
Qed.

Lemma pending_count_nonzero d :
  Db.pending d ≠ [] → Z.of_nat (length (Db.pending d)) ≠ 0.
Proof. destruct (Db.pending d); [congruence | simpl; lia]. Qed.

Lemma sync_run_response transport w resp :
  Db.pending (db w) ≠ [] →
  transport (sync_request clock w) = inr resp →
  sync transport w =
    (inr (SyncResult.mk
            (Z.of_nat (length (filter failed
               (BatchSyncResponse.processed_items resp))) =? 0)
            (Z.of_nat (length (filter resolved
               (BatchSyncResponse.processed_items resp))))
            (Z.of_nat (length (filter failed
               (BatchSyncResponse.processed_items resp))))
            []),
     mkWorld
       (mkDatabase (tasks (db w))
          (remove_all
             (ProcessedItem.client_id <$>
                filter resolved (BatchSyncResponse.processed_items resp))
             (sync_queue (db w))))
       (S (ticks w)) (wire w ++ [sync_request clock w])).
Proof.
  intros Hpending Hresp.
  unfold SyncService.sync, Db.getPendingSyncItems. run.
  rewrite decide_False by (apply pending_count_nonzero, Hpending).
  unfold SyncService.axios_post, mbind, M_bind. simpl.
  fold (sync_request clock w). rewrite Hresp.
  rewrite tally_run. reflexivity.
Qed.

Lemma sync_run_failure transport w e :
  Db.pending (db w) ≠ [] →
  transport (sync_request clock w) = inl e →
  sync transport w =
    (inr (SyncResult.mk false 0 (Z.of_nat (length (Db.pending (db w))))
            [SyncError.mk "N/A" "sync" "Network or Server Error"
               (JsDate.Valid (clock (S (ticks w))))]),
     mkWorld (db w) (S (S (ticks w))) (wire w ++ [sync_request clock w])).
Proof.
  intros Hpending Hfail.
  unfold SyncService.sync, Db.getPendingSyncItems. run.
  rewrite decide_False by (apply pending_count_nonzero, Hpending).
  unfold SyncService.axios_post, mbind, M_bind. simpl.
  fold (sync_request clock w). rewrite Hfail. reflexivity.
Qed.

(** With a non-empty queue, [sync] posts exactly one request: the pending
    items with the reading of the clock at the call as [client_timestamp]. *)
Lemma sync_posts_request transport w :
  Db.pending (db w) ≠ [] →
  wire (sync transport w).2 = wire w ++ [sync_request clock w] ∧
  BatchSyncRequest.client_timestamp (sync_request clock w) =
    JsDate.Valid (clock (ticks w)).
Proof.
  intros Hpending. split; [|reflexivity].
  destruct (transport (sync_request clock w)) as [e|resp] eqn:Hpost.
  - rewrite (sync_run_failure _ _ _ Hpending Hpost). reflexivity.
  - rewrite (sync_run_response _ _ _ Hpending Hpost). reflexivity.
Qed.

(** C4. If the batch POST throws, [sync] removes no queue item and leaves
    the database as it was (a following [getPendingSyncItems()] returns the
    same items); the result has [success = false] and [failed_items] the
    number of items that were sent. *)
Theorem sync_transport_failure_keeps_queue transport w e :
  Db.pending (db w) ≠ [] →
  transport (sync_request clock w) = inl e →
  ∃ res w',
    sync transport w = (inr res, w') ∧
    wire w' = wire w ++ [sync_request clock w] ∧
    db w' = db w ∧
    Db.getPendingSyncItems w' = (inr (Db.pending (db w)), w') ∧
    SyncResult.success res = false ∧
    SyncResult.failed_items res =
      Z.of_nat (length (BatchSyncRequest.items (sync_request clock w))).
Proof.
  intros Hpending Hfail.
  eexists _, _. split; [apply (sync_run_failure _ _ _ Hpending Hfail) |].
  repeat split; reflexivity.
Qed.

(** What [sync] prunes.  After a [sync] that receives a response, the queue
    rows removed are exactly those whose id a success or conflict verdict
    carries as [client_id]; every other row stays as it was and no row is
    added.  So when the response holds one verdict per pending item, in
    the order of the request and under the id of the queue item, exactly
    the items whose verdict is success or conflict are removed, and every
    item whose verdict is error remains. *)
Lemma sync_removes_rows_named_by_resolved transport w resp :
  transport (sync_request clock w) = inr resp →
  ∃ res w',
    sync transport w = (inr res, w') ∧
    (∀ k, sync_queue (db w') !! k =
          if decide (k ∈ ProcessedItem.client_id <$>
                       filter resolved (BatchSyncResponse.processed_items resp))
          then None
          else sync_queue (db w) !! k) ∧
    (ProcessedItem.client_id <$> BatchSyncResponse.processed_items resp =
       SyncQueueItem.id <$> Db.pending (db w) →
     ∀ i item v,
       Db.pending (db w) !! i = Some item →
       BatchSyncResponse.processed_items resp !! i = Some v →
       is_Some (sync_queue (db w) !! SyncQueueItem.id item) ∧
       sync_queue (db w') !! SyncQueueItem.id item =
         if decide (ProcessedItem.status v = st_error)
         then sync_queue (db w) !! SyncQueueItem.id item
         else None).
Proof.
  intros Hresp.
  assert (Hkeyed : ∀ q' : gmap string QueueRow.t,
    (∀ k, q' !! k =
          if decide (k ∈ ProcessedItem.client_id <$>
                       filter resolved (BatchSyncResponse.processed_items resp))
          then None
          else sync_queue (db w) !! k) →
    ProcessedItem.client_id <$> BatchSyncResponse.processed_items resp =
      SyncQueueItem.id <$> Db.pending (db w) →
    ∀ i item v,
      Db.pending (db w) !! i = Some item →
      BatchSyncResponse.processed_items resp !! i = Some v →
      is_Some (sync_queue (db w) !! SyncQueueItem.id item) ∧
      q' !! SyncQueueItem.id item =
        if decide (ProcessedItem.status v = st_error)
        then sync_queue (db w) !! SyncQueueItem.id item
        else None).
  { intros q' Hq' Hids i item v Hitem Hv. split.
    { assert (Hin : item ∈ Db.pending (db w))
        by (apply list_elem_of_lookup; eauto).
      apply elem_of_pending in Hin as (row & Hrow & _). eauto. }
    assert (Hcid : ProcessedItem.client_id v = SyncQueueItem.id item).
    { assert (H1 : (ProcessedItem.client_id <$>
                      BatchSyncResponse.processed_items resp) !! i =
                   Some (ProcessedItem.client_id v))
        by (rewrite list_lookup_fmap, Hv; reflexivity).
      rewrite Hids, list_lookup_fmap, Hitem in H1. simpl in H1. congruence. }
    rewrite Hq'.
    destruct (decide (ProcessedItem.status v = st_error)) as [Herr|Hok].
    + rewrite decide_False; [reflexivity |].
      intros (v' & Hcid' & Hin')%list_elem_of_fmap.
      apply list_elem_of_filter in Hin' as [Hres' Hin'].
      apply list_elem_of_lookup in Hin' as [j Hj].
      assert (Hidj : (SyncQueueItem.id <$> Db.pending (db w)) !! j =
                     Some (SyncQueueItem.id item)).
      { rewrite <- Hids, list_lookup_fmap, Hj. simpl. congruence. }
      assert (Hidi : (SyncQueueItem.id <$> Db.pending (db w)) !! i =
                     Some (SyncQueueItem.id item))
        by (rewrite list_lookup_fmap, Hitem; reflexivity).
      pose proof (NoDup_lookup _ _ _ _ (NoDup_pending_ids (db w)) Hidi Hidj)
        as ->.
      rewrite Hv in Hj. injection Hj as <-. apply Hres', Herr.
    + rewrite decide_True; [reflexivity |].
      apply list_elem_of_fmap. exists v. split; [congruence |].
      apply list_elem_of_filter. split; [exact Hok |].
      apply list_elem_of_lookup. eauto. }
  destruct (decide (Db.pending (db w) = [])) as [Hidle|Hpending].
  - eexists _, _. split; [apply sync_run_idle, Hidle |].
    assert (Hempty : ∀ k, sync_queue (db w) !! k = None).
    { intros k. assert (Hsize : size (sync_queue (db w)) = 0%nat)
        by (rewrite <- pending_length, Hidle; reflexivity).
      apply map_size_empty_iff in Hsize. rewrite Hsize. apply lookup_empty. }
    assert (Hq : ∀ k, sync_queue (db w) !! k =
          if decide (k ∈ ProcessedItem.client_id <$>
                       filter resolved (BatchSyncResponse.processed_items resp))
          then None
          else sync_queue (db w) !! k).
    { intros k. rewrite Hempty. destruct (decide _); reflexivity. }
    split; [exact Hq | apply Hkeyed, Hq].
  - eexists _, _. split; [apply (sync_run_response _ _ _ Hpending Hresp) |].
    cbn [db sync_queue].
    split; [intros k; apply lookup_remove_all |].
    apply Hkeyed. intros k. apply lookup_remove_all.
Qed.

(** C10. A queue item whose verdict is error, no success or conflict
    verdict of the response being addressed to its row, is left as it is by
    [sync]: its row is still in the queue, equal to what it was, retry
    count and error message included; the error is counted in
    [failed_items], and no error record is kept. *)
Theorem sync_error_verdict_frame transport w resp k row v :
  transport (sync_request clock w) = inr resp →
  sync_queue (db w) !! k = Some row →
  v ∈ BatchSyncResponse.processed_items resp →
  ProcessedItem.status v = st_error →
  Forall (λ v', ProcessedItem.client_id v' = k →
                ProcessedItem.status v' = st_error)
    (BatchSyncResponse.processed_items resp) →
  ∃ res w',
    sync transport w = (inr res, w') ∧
    sync_queue (db w') !! k = Some row ∧
    Db.rowToItem (k, row) ∈ Db.pending (db w') ∧
    tasks (db w') = tasks (db w) ∧
    SyncResult.failed_items res =
      Z.of_nat (length (filter failed
                          (BatchSyncResponse.processed_items resp))) ∧
    0 < SyncResult.failed_items res ∧
    SyncResult.errors res = [].
Proof.
  intros Hresp Hrow Hv Herr Honly.
  assert (Hpending : Db.pending (db w) ≠ []).
  { assert (Hin : Db.rowToItem (k, row) ∈ Db.pending (db w))
      by (apply elem_of_pending; simpl; eauto).
    intros Hnil. rewrite Hnil in Hin. destruct (not_elem_of_nil _ Hin). }
  eexists _, _. split; [apply (sync_run_response _ _ _ Hpending Hresp) |].
  simpl.
  assert (Hkept :
    remove_all
      (ProcessedItem.client_id <$>
         filter resolved (BatchSyncResponse.processed_items resp))
      (sync_queue (db w)) !! k = Some row).
  { rewrite lookup_remove_all, decide_False; [exact Hrow |].
    intros (v' & Hcid' & Hin')%list_elem_of_fmap.
    apply list_elem_of_filter in Hin' as [Hres' Hin'].
    rewrite Forall_forall in Honly.
    apply Hres', (Honly v' Hin'). congruence. }
  split; [exact Hkept |].
  split; [apply elem_of_pending; simpl; eauto |].
  split; [reflexivity |]. split; [reflexivity |]. split; [|reflexivity].
  assert (Hin : v ∈ filter failed (BatchSyncResponse.processed_items resp))
    by (apply list_elem_of_filter; split; assumption).
  destruct (filter failed _); [destruct (not_elem_of_nil _ Hin) | simpl; lia].
Qed.

End Orchestrator.

(** ** The scenario, run *)

Import Scenario.






Lemma server_changes_exact_witness :
  ∃ resp vs w1,
    SyncService.process_items clock [newer; orphan] [] server = (inr vs, w1) ∧
    SyncService.handleBatchSync clock
      (BatchSyncRequest.mk [newer; orphan] (JsDate.Valid 2500)) server =
      (inr resp, mkWorld (db w1) (S (ticks w1)) (wire w1)) ∧
    BatchSyncResponse.processed_items resp = vs ∧
    NoDup (BatchSyncResponse.server_changes resp) ∧
    (∀ t, t ∈ BatchSyncResponse.server_changes resp → stored (db w1) t) ∧
    ∀ t u,
      Task.updated_at t = JsDate.Valid u → Iso.four_digit_year u →
      (t ∈ BatchSyncResponse.server_changes resp ↔
       stored (db w1) t ∧
       JsDate.ltb (JsDate.Valid 2500) (Task.updated_at t) = true).
Proof.
  apply (server_changes_exact clock
           (BatchSyncRequest.mk [newer; orphan] (JsDate.Valid 2500)) 2500
           server).
  - reflexivity.
  - unfold Iso.four_digit_year. lia.
Defined.

(** C7 as stated does not hold: the store compares the texts of the
    dates.  The update [far] is dated 10000-01-01, whose text begins with
    [+]; once it is accepted the task is in the store with an [updated_at]
    after the client timestamp 0, whose text begins with [1], and it is
    not among the server changes. *)
Lemma server_changes_as_stated_fails : ¬ server_changes_as_stated.
Proof.
  intros Hclaim.
  destruct (Hclaim clock (BatchSyncRequest.mk [far] (JsDate.Valid 0)) 0
              server eq_refl) as (resp & w' & Hrun & Hiff).
  vm_compute in Hrun. injection Hrun as <- <-.
  destruct (Hiff (Db.rowToTask "t1"
                    (TaskRow.mk "Buy oat milk" None 0 1000 253402300800000 0
                       ss_synced None None))) as [_ Hin].
  assert (Hlisted :
    Db.rowToTask "t1"
      (TaskRow.mk "Buy oat milk" None 0 1000 253402300800000 0 ss_synced
         None None) ∈ BatchSyncResponse.server_changes
      (BatchSyncResponse.mk [ProcessedItem.mk "t1" "t1" st_success None None]
         [] (JsDate.Valid 5000)))
    by (apply Hin; split; vm_compute; reflexivity).
  inversion Hlisted.
Qed.

(** The write accepted for [newer] is echoed back: with client timestamp
    2500 the task, last updated at 2000 before the call, is among the
    server changes in the form the call stored. *)
Example server_changes_echo_own_write :
  ∃ resp w',
    SyncService.handleBatchSync clock
      (BatchSyncRequest.mk [newer; orphan] (JsDate.Valid 2500)) server =
      (inr resp, w') ∧
    BatchSyncResponse.server_changes resp = [Db.rowToTask "t1" oat_milk].
Proof. eexists _, _. split; reflexivity. Qed.

Lemma sync_transport_failure_keeps_queue_witness :
  ∃ res w',
    SyncService.sync clock offline client = (inr res, w') ∧
    wire w' = wire client ++ [sync_request clock client] ∧
    db w' = db client ∧
    Db.getPendingSyncItems w' = (inr (Db.pending (db client)), w') ∧
    SyncResult.success res = false ∧
    SyncResult.failed_items res =
      Z.of_nat (length (BatchSyncRequest.items (sync_request clock client))).
Proof.
  apply (sync_transport_failure_keeps_queue clock offline client
           (AxiosError "Network Error")).
  - vm_compute. discriminate.
  - reflexivity.
Defined.

(** [sync] on an answer keyed by the ids of the queue items. *)
Example sync_prunes_keyed_answer :
  ∃ res w',
    SyncService.sync clock answered client = (inr res, w') ∧
    (∀ k, sync_queue (db w') !! k =
          if decide (k ∈ ProcessedItem.client_id <$>
                       filter resolved
                         [ProcessedItem.mk "q1" "t1" st_success None None;
                          ProcessedItem.mk "q2" "t2" st_error None
                            (Some "boom")])
          then None
          else sync_queue (db client) !! k) ∧
    (ProcessedItem.client_id <$>
       [ProcessedItem.mk "q1" "t1" st_success None None;
        ProcessedItem.mk "q2" "t2" st_error None (Some "boom")] =
       SyncQueueItem.id <$> Db.pending (db client) →
     ∀ i item v,
       Db.pending (db client) !! i = Some item →
       [ProcessedItem.mk "q1" "t1" st_success None None;
        ProcessedItem.mk "q2" "t2" st_error None (Some "boom")] !! i =
         Some v →
       is_Some (sync_queue (db client) !! SyncQueueItem.id item) ∧
       sync_queue (db w') !! SyncQueueItem.id item =
         if decide (ProcessedItem.status v = st_error)
         then sync_queue (db client) !! SyncQueueItem.id item
         else None).
Proof.
  apply (sync_removes_rows_named_by_resolved clock answered client
           (BatchSyncResponse.mk
              [ProcessedItem.mk "q1" "t1" st_success None None;
               ProcessedItem.mk "q2" "t2" st_error None (Some "boom")]
              [] (JsDate.Valid 700))).
  reflexivity.
Qed.

(** The answer of [answered] is keyed by the ids of the pending items. *)
Example answered_is_keyed_by_item_id :
  ProcessedItem.client_id <$>
    [ProcessedItem.mk "q1" "t1" st_success None None;
     ProcessedItem.mk "q2" "t2" st_error None (Some "boom")] =
  SyncQueueItem.id <$> Db.pending (db client).
Proof. vm_compute. reflexivity. Qed.

Lemma sync_error_verdict_frame_witness :
  ∃ res w',
    SyncService.sync clock answered client = (inr res, w') ∧
    sync_queue (db w') !! "q2" = Some (row "t2" 20) ∧
    Db.rowToItem ("q2", row "t2" 20) ∈ Db.pending (db w') ∧
    tasks (db w') = tasks (db client) ∧
    SyncResult.failed_items res =
      Z.of_nat (length (filter failed
        [ProcessedItem.mk "q1" "t1" st_success None None;
         ProcessedItem.mk "q2" "t2" st_error None (Some "boom")])) ∧
    0 < SyncResult.failed_items res ∧
    SyncResult.errors res = [].
Proof.
  apply (sync_error_verdict_frame clock answered client
           (BatchSyncResponse.mk
              [ProcessedItem.mk "q1" "t1" st_success None None;
               ProcessedItem.mk "q2" "t2" st_error None (Some "boom")]
              [] (JsDate.Valid 700))
           "q2" (row "t2" 20)
           (ProcessedItem.mk "q2" "t2" st_error None (Some "boom"))).
  - reflexivity.
  - reflexivity.
  - apply list_elem_of_further, list_elem_of_here.
  - reflexivity.
  - apply (bool_decide_unpack _). vm_compute. exact I.
Defined.

(** C5 at a batch of two items for task [t1], queued under the ids [q1] and
    [q5]: the response holds a single verdict, and its [client_id] is the
    task id [t1], the id of no queue item.  The item [bad_updated], whose
    Invalid Date compares neither [>=] nor [<] with the server's, gets no
    verdict at all. *)
Theorem verdicts_carry_task_id_not_queue_id :
  SyncQueueItem.id <$> [newer; bad_updated] = ["q1"; "q5"] ∧
  BatchSyncResponse.processed_items <$>
    (SyncService.handleBatchSync clock
       (BatchSyncRequest.mk [newer; bad_updated] (JsDate.Valid 0)) server).1 =
    inr [ProcessedItem.mk "t1" "t1" st_success None None].
Proof. split; vm_compute; reflexivity. Qed.

(** C3 at a client that runs [sync] against the reconciler: the update
    queued under the id [q1], which comes out of the queue with its date
    as text, gets the verdict success, which carries the task id [t1];
    [sync] counts it as synced and deletes the queue row with id [t1], of
    which there is none, so that the accepted item stays in the queue. *)
Theorem accepted_item_stays_queued :
  Db.pending (db outbox) = [through_JSON newer] ∧
  BatchSyncResponse.processed_items <$>
    to_server (sync_request clock outbox) =
    inr [ProcessedItem.mk "t1" "t1" st_success None None] ∧
  (SyncService.sync clock to_server outbox).1 =
    inr (SyncResult.mk true 1 0 []) ∧
  sync_queue (db (SyncService.sync clock to_server outbox).2) =
    sync_queue (db outbox).
Proof. repeat split; vm_compute; reflexivity. Qed.

(** C8 at two successive calls: the first sync is answered with server
    timestamp 700 and succeeds; the next one, with one more mutation
    queued, sends the reading of the clock at the time of the call as
    [client_timestamp], as the first did, and not 700, whatever the
    transport answers. *)
Theorem sync_sends_current_time :
  BatchSyncResponse.server_timestamp <$> accepted (sync_request clock client) =
    inr (JsDate.Valid 700) ∧
  SyncService.sync clock accepted client =
    (inr (SyncResult.mk true 2 0 []), with_queue client_later ∅) ∧
  ∀ transport,
    BatchSyncRequest.client_timestamp <$>
      wire (SyncService.sync clock transport client_later).2 =
      [JsDate.Valid 5000; JsDate.Valid 5001].
Proof.
  split; [reflexivity |]. split; [vm_compute; reflexivity |].
  intros transport.
  destruct (sync_posts_request clock transport client_later) as [-> _].
  - vm_compute. discriminate.
  - reflexivity.
Qed.

(** ** More on the reconciler *)

(** The row [save] writes, column by column. *)
Lemma save_params_inv o row :
  Db.save_params o = inr row ↔
  call_toISOString "created_at" (TaskObject.created_at o) =
    inr (TaskRow.created_at row) ∧
  call_toISOString "updated_at" (Some (TaskObject.updated_at o)) =
    inr (TaskRow.updated_at row) ∧
  (if truthy_date (TaskObject.last_synced_at o)
   then Some <$> call_toISOString "last_synced_at"
                   (TaskObject.last_synced_at o)
   else inr None) = inr (TaskRow.last_synced_at row) ∧
  TaskObject.title o = Some (TaskRow.title row) ∧
  TaskRow.description row = TaskObject.description o ∧
  TaskRow.completed row =
    (if truthy_bool (TaskObject.completed o) then 1 else 0) ∧
  TaskRow.is_deleted row =
    (if truthy_bool (TaskObject.is_deleted o) then 1 else 0) ∧
  TaskRow.sync_status row = TaskObject.sync_status o ∧
  TaskRow.server_id row =
    (if truthy_string (TaskObject.server_id o) then TaskObject.server_id o
     else None).
Proof.
  unfold Db.save_params.
  unfold mbind, mret, Outcome_bind, Outcome_ret.
  destruct (call_toISOString "created_at" _) as [e|c];
    [split; [discriminate | intros (H & _); discriminate] |].
  destruct (call_toISOString "updated_at" _) as [e|u];
    [split; [discriminate | intros (_ & H & _); discriminate] |].
  destruct (if truthy_date _ then _ else _) as [e|l];
    [split; [discriminate | intros (_ & _ & H & _); discriminate] |].
  destruct (TaskObject.title o) as [title|];
    [| split; [discriminate | intros (_ & _ & _ & H & _); discriminate]].
  destruct row. cbn. split.
  - intros [= <- <- <- <- <- <- <- <- <-]. repeat split; reflexivity.
  - intros ([= <-] & [= <-] & [= <-] & [= <-] & -> & -> & -> & -> & ->).
    reflexivity.
Qed.

Lemma save_params_fields task row :
  Db.save_params task = inr row →
  TaskObject.updated_at task =
    DateObject (JsDate.Valid (TaskRow.updated_at row)) ∧
  TaskObject.created_at task =
    Some (DateObject (JsDate.Valid (TaskRow.created_at row))) ∧
  TaskRow.sync_status row = TaskObject.sync_status task.
Proof.
  intros (Hc & Hu & _ & _ & _ & _ & _ & Hs & _)%save_params_inv.
  split; [| split; [| exact Hs]].
  - destruct (TaskObject.updated_at task) as [[u|]| |]; try discriminate.
    injection Hu as <-. reflexivity.
  - destruct (TaskObject.created_at task) as [[[c|]| |]|]; try discriminate.
    injection Hc as <-. reflexivity.
Qed.

Section ReconcilerWrites.

Variable clock : nat → Z.

#[local] Abbreviation process_item := (SyncService.process_item clock).
#[local] Abbreviation process_items := (SyncService.process_items clock).
#[local] Abbreviation reconcile := (SyncService.reconcile clock).
#[local] Abbreviation handleBatchSync := (SyncService.handleBatchSync clock).

Lemma save_writes item task w out w' :
  TaskObject.id task = SyncQueueItem.task_id item →
  TaskObject.sync_status task = ss_synced →
  (∀ row u, tasks (db w) !! SyncQueueItem.task_id item = Some row →
            TaskObject.updated_at task = DateObject (JsDate.Valid u) →
            TaskRow.updated_at row ≤ u) →
  Db.save task w = (out, w') →
  writes_at_most item w w'.
Proof.
  intros Hid Hst Hup.
  destruct (Db.save_params task) as [e|row] eqn:Hrow.
  - rewrite (save_run_throws _ _ _ Hrow). intros [= _ <-].
    repeat split; auto.
  - rewrite (save_run_ok _ _ _ Hrow). intros [= _ <-].
    destruct (save_params_fields _ _ Hrow) as (Hu & _ & Hs).
    repeat split; simpl; auto. right. exists row.
    rewrite Hid. split; [reflexivity |]. split; [congruence |].
    intros row0 Hrow0. eapply Hup; eauto.
Qed.

Lemma writes_at_most_ticks item w w0 w' :
  db w0 = db w → wire w0 = wire w → (ticks w ≤ ticks w0)%nat →
  writes_at_most item w0 w' → writes_at_most item w w'.
Proof.
  intros Hdb Hwire Hticks (Hq & Hw & Ht & Htasks).
  rewrite Hdb in Hq, Htasks. rewrite Hwire in Hw.
  repeat split; auto; lia.
Qed.

Lemma reconcile_writes item w out w' :
  reconcile item w = (out, w') → writes_at_most item w w'.
Proof.
  unfold SyncService.reconcile.
  unfold mbind at 1, M_bind. rewrite findById_run.
  destruct (tasks (db w) !! SyncQueueItem.task_id item) as [row|] eqn:Hrow;
    cbn [fmap option_fmap option_map]; cbv beta zeta iota.
  - destruct (JsDate.geb _ _) eqn:Hge.
    + unfold mbind, M_bind.
      match goal with |- context [Db.save ?t w] =>
        destruct (Db.save t w) as [o ws] eqn:Hsave;
        assert (Hw : writes_at_most item w ws) end.
      { eapply save_writes; [| | | exact Hsave]; try reflexivity.
        intros row0 u Hrow0 Hu. rewrite Hrow in Hrow0.
        injection Hrow0 as <-.
        match type of Hge with JsDate.geb ?x _ = true =>
          assert (Hx : x = JsDate.Valid u)
            by (change (DateObject x = DateObject (JsDate.Valid u)) in Hu;
                congruence);
          rewrite Hx in Hge end.
        simpl in Hge. apply Z.leb_le, Hge. }
      destruct o as [e|[]]; intros [= _ <-]; exact Hw.
    + destruct (JsDate.ltb _ _); intros [= _ <-]; repeat split; auto.
  - destruct (SyncQueueItem.operation item);
      [| intros [= _ <-]; repeat split; auto ..].
    unfold mbind, M_bind.
    destruct (SyncService.or_now clock _ w) as [oa wa] eqn:Ha.
    destruct (or_now_world _ _ _ _ _ Ha) as (Hda & Hwa & Hta & created & ->).
    destruct (SyncService.or_now clock _ wa) as [ob wb] eqn:Hb.
    destruct (or_now_world _ _ _ _ _ Hb) as (Hdb & Hwb & Htb & updated & ->).
    match goal with |- context [Db.save ?t wb] =>
      destruct (Db.save t wb) as [o ws] eqn:Hsave;
      assert (Hw : writes_at_most item wb ws) end.
    { eapply save_writes; [| | | exact Hsave]; try reflexivity.
      intros row0 u Hrow0. rewrite Hdb, Hda, Hrow in Hrow0. discriminate. }
    assert (Hw' : writes_at_most item w ws).
    { eapply writes_at_most_ticks; [| | | exact Hw]; try congruence. lia. }
    destruct o as [e|[]]; intros [= _ <-]; exact Hw'.
Qed.

Lemma process_item_writes item w out w' :
  process_item item w = (out, w') → writes_at_most item w w'.
Proof.
  unfold SyncService.process_item, try_catch.
  destruct (reconcile item w) as [[e|vs] w1] eqn:Hbody;
    intros [= _ <-]; eapply reconcile_writes; exact Hbody.
Qed.

(** The loop writes what its iterations write. *)
Lemma process_items_writes items acc w out w' :
  process_items items acc w = (out, w') →
  sync_queue (db w') = sync_queue (db w) ∧
  wire w' = wire w ∧
  (ticks w ≤ ticks w')%nat ∧
  (∀ id row, tasks (db w) !! id = Some row →
     ∃ row', tasks (db w') !! id = Some row' ∧
             TaskRow.updated_at row ≤ TaskRow.updated_at row') ∧
  (∀ id, id ∉ SyncQueueItem.task_id <$> items →
     tasks (db w') !! id = tasks (db w) !! id) ∧
  (∀ id row', tasks (db w') !! id = Some row' →
     tasks (db w) !! id = Some row' ∨ TaskRow.sync_status row' = ss_synced).
Proof.
  revert acc w. induction items as [|item rest IH]; intros acc w.
  - simpl. intros [= _ <-]. repeat split; eauto. intros id row ->.
    eexists. split; [reflexivity | lia].
  - destruct (process_item_total clock item w) as (pushed & w1 & Hp).
    rewrite (process_items_cons _ _ _ _ _ _ _ Hp). intros Hrest.
    destruct (IH _ _ Hrest) as (Hq & Hw & Ht & Hkeep & Hframe & Hsynced).
    destruct (process_item_writes _ _ _ _ Hp) as (Hq1 & Hw1 & Ht1 & Htasks).
    split; [congruence |]. split; [congruence |]. split; [lia |].
    assert (Hstep : ∀ id,
      tasks (db w1) !! id = tasks (db w) !! id ∨
      (id = SyncQueueItem.task_id item ∧
       ∃ row', tasks (db w1) !! id = Some row' ∧
               TaskRow.sync_status row' = ss_synced ∧
               ∀ row, tasks (db w) !! id = Some row →
                      TaskRow.updated_at row ≤ TaskRow.updated_at row')).
    { intros id. destruct Htasks as [->|(row' & -> & Hs & Hu)]; [auto |].
      destruct (decide (id = SyncQueueItem.task_id item)) as [->|Hne].
      - right. split; [reflexivity |]. exists row'.
        rewrite lookup_insert_eq. auto.
      - left. apply lookup_insert_ne. congruence. }
    split; [|split].
    + intros id row Hrow.
      destruct (Hstep id) as [Heq|(_ & row1 & Hrow1 & _ & Hu)].
      * rewrite <- Heq in Hrow. exact (Hkeep _ _ Hrow).
      * destruct (Hkeep _ _ Hrow1) as (row' & Hrow' & Hle).
        exists row'. split; [exact Hrow' |]. specialize (Hu _ Hrow). lia.
    + intros id Hid. rewrite fmap_cons in Hid.
      apply not_elem_of_cons in Hid as [Hne Hid].
      rewrite (Hframe _ Hid).
      destruct (Hstep id) as [Heq|(Heq & _)]; [exact Heq | contradiction].
    + intros id row' Hrow'.
      destruct (Hsynced _ _ Hrow') as [Hrow1|Hs]; [|auto].
      destruct (Hstep id) as [Heq|(_ & row1 & Hrow1' & Hs & _)].
      * left. congruence.
      * right. congruence.
Qed.

(** The world [handleBatchSync] leaves, whether it answers or throws: the
    one its loop leaves, but for the clock. *)
Lemma handleBatchSync_world request w :
  ∃ vs w1,
    process_items (BatchSyncRequest.items request) [] w = (inr vs, w1) ∧
    db (handleBatchSync request w).2 = db w1 ∧
    wire (handleBatchSync request w).2 = wire w1.
Proof.
  destruct (process_items_total clock (BatchSyncRequest.items request) [] w)
    as (vs & w1 & _ & Hloop).
  exists vs, w1. split; [exact Hloop |].
  assert (Hrun : ∀ out w',
    handleBatchSync request w = (out, w') → db w' = db w1 ∧ wire w' = wire w1).
  { intros out w'. unfold SyncService.handleBatchSync.
    unfold mbind at 1, M_bind. rewrite Hloop.
    unfold SyncService.Date_from.
    destruct (BatchSyncRequest.client_timestamp request);
      intros [= _ <-]; split; reflexivity. }
  apply (Hrun (handleBatchSync request w).1), surjective_pairing.
Qed.

(** X1.  A batch, whether [handleBatchSync] answers it or throws, removes
    no task from the Task Store and never moves the
    [updated_at] of a stored task backwards. *)
Theorem reconciler_keeps_tasks_and_time request w id row :
  tasks (db w) !! id = Some row →
  ∃ row',
    tasks (db (handleBatchSync request w).2) !! id = Some row' ∧
    TaskRow.updated_at row ≤ TaskRow.updated_at row'.
Proof.
  intros Hrow.
  destruct (handleBatchSync_world request w) as (vs & w1 & Hloop & -> & _).
  destruct (process_items_writes _ _ _ _ _ Hloop) as (_ & _ & _ & Hkeep & _).
  exact (Hkeep _ _ Hrow).
Qed.

(** X2.  The frame of the reconciler: a batch leaves the sync queue and the
    wire alone, and every task that no item of the batch names by [task_id] is
    as it was. *)
Theorem reconciler_writes_named_tasks_only request w :
  sync_queue (db (handleBatchSync request w).2) = sync_queue (db w) ∧
  wire (handleBatchSync request w).2 = wire w ∧
  ∀ id, id ∉ SyncQueueItem.task_id <$> BatchSyncRequest.items request →
        tasks (db (handleBatchSync request w).2) !! id = tasks (db w) !! id.
Proof.
  destruct (handleBatchSync_world request w) as (vs & w1 & Hloop & -> & ->).
  destruct (process_items_writes _ _ _ _ _ Hloop)
    as (Hq & Hw & _ & _ & Hframe & _).
  auto.
Qed.

End ReconcilerWrites.

Lemma not_geb_ltb x y :
  JsDate.geb (JsDate.Valid x) (JsDate.Valid y) = false →
  JsDate.ltb (JsDate.Valid x) (JsDate.Valid y) = true.
Proof. simpl. intros H%Z.leb_gt. apply Z.ltb_lt, H. Qed.

Lemma incoming_valid w item existing :
  server_copy w item = Some existing →
  TaskData.updated_at (SyncQueueItem.data item) ≠
    Present (DateObject JsDate.Invalid) →
  ∃ c u,
    incoming_timestamp (SyncQueueItem.data item) existing = JsDate.Valid c ∧
    Task.updated_at existing = JsDate.Valid u.
Proof.
  intros Hpresent Hvalid.
  destruct (server_copy_dates _ _ _ Hpresent) as (_ & (u & Hu) & _).
  unfold incoming_timestamp.
  destruct (TaskData.updated_at (SyncQueueItem.data item))
    as [| |[[c|]|c|]]; simpl; eauto; congruence.
Qed.

Section ReconcilerItems.

Variable clock : nat → Z.

#[local] Abbreviation process_item := (SyncService.process_item clock).
#[local] Abbreviation process_items := (SyncService.process_items clock).
#[local] Abbreviation reconcile := (SyncService.reconcile clock).
#[local] Abbreviation handleBatchSync := (SyncService.handleBatchSync clock).

(** The [try] block for an item whose task is present. *)
Lemma reconcile_present item w existing :
  server_copy w item = Some existing →
  reconcile item w =
    if JsDate.geb (incoming_timestamp (SyncQueueItem.data item) existing)
                  (Task.updated_at existing)
    then
      match Db.save (SyncService.mergedTask existing (SyncQueueItem.data item)
               (incoming_timestamp (SyncQueueItem.data item) existing)) w with
      | (inr _, w') => (inr [verdict_success item], w')
      | (inl e, w') => (inl e, w')
      end
    else if JsDate.ltb (incoming_timestamp (SyncQueueItem.data item) existing)
                       (Task.updated_at existing)
    then (inr [verdict_conflict item existing], w)
    else (inr [], w).
Proof.
  intros Hpresent. unfold SyncService.reconcile.
  unfold mbind at 1, M_bind. rewrite findById_run.
  fold (server_copy w item). rewrite Hpresent.
  cbv beta zeta iota. rewrite clientUpdatedDate_incoming.
  rewrite (server_copy_id _ _ _ Hpresent).
  destruct (JsDate.geb _ _); [|destruct (JsDate.ltb _ _); reflexivity].
  unfold mbind, M_bind. destruct (Db.save _ w) as [[e|[]] w']; reflexivity.
Qed.

Lemma process_item_accepts item w existing row :
  server_copy w item = Some existing →
  JsDate.geb (incoming_timestamp (SyncQueueItem.data item) existing)
             (Task.updated_at existing) = true →
  Db.save_params
    (SyncService.mergedTask existing (SyncQueueItem.data item)
       (incoming_timestamp (SyncQueueItem.data item) existing)) = inr row →
  process_item item w =
    (inr [verdict_success item],
     with_tasks w (<[SyncQueueItem.task_id item := row]> (tasks (db w)))).
Proof.
  intros Hpresent Hge Hrow.
  unfold SyncService.process_item, try_catch.
  rewrite (reconcile_present _ _ _ Hpresent), Hge.
  rewrite (save_run_ok _ _ _ Hrow). simpl.
  rewrite (server_copy_id _ _ _ Hpresent). reflexivity.
Qed.

(** Merging the same data over what a first merge stored writes the same
    row again. *)
Lemma save_params_again existing data incoming row :
  Db.save_params (SyncService.mergedTask existing data incoming) = inr row →
  Db.save_params
    (SyncService.mergedTask (Db.rowToTask (Task.id existing) row) data
       incoming) = inr row.
Proof.
  rewrite !save_params_inv. unfold SyncService.mergedTask, Db.rowToTask.
  cbn [TaskObject.created_at TaskObject.updated_at TaskObject.last_synced_at
       TaskObject.title TaskObject.description TaskObject.completed
       TaskObject.is_deleted TaskObject.sync_status TaskObject.server_id
       Task.title Task.description Task.completed Task.created_at
       Task.is_deleted Task.server_id Task.last_synced_at].
  intros (Hc & Hu & Hl & Ht & Hd & Hcomp & Hdel & Hs & Hsid).
  split; [| split; [exact Hu |]; split; [| split; [| split; [| split;
    [| split; [| split; [exact Hs |]]]]]]].
  - destruct (TaskData.created_at data); [reflexivity | exact Hc ..].
  - destruct (TaskData.last_synced_at data); [| exact Hl ..].
    cbn [lay] in *.
    destruct (Task.last_synced_at existing) as [[l|]|]; simpl in Hl;
      try discriminate; injection Hl as <-; reflexivity.
  - destruct (TaskData.title data); [reflexivity | exact Ht ..].
  - destruct (TaskData.description data); [reflexivity | exact Hd ..].
  - destruct (TaskData.completed data); [| exact Hcomp ..].
    cbn [lay truthy_bool default] in *. rewrite Hcomp.
    destruct (Task.completed existing); reflexivity.
  - destruct (TaskData.is_deleted data); [| exact Hdel ..].
    cbn [lay truthy_bool default] in *. rewrite Hdel.
    destruct (Task.is_deleted existing); reflexivity.
  - destruct (TaskData.server_id data); [| exact Hsid ..].
    cbn [lay] in *. rewrite Hsid.
    destruct (Task.server_id existing) as [sid|]; [| reflexivity].
    unfold truthy_string.
    destruct (decide (sid = "")) as [->|Hne]; [reflexivity |].
    rewrite decide_False by exact Hne. reflexivity.
Qed.

(** X3.  Idempotence of an accepted update: submitting the item again,
    against the Task Store its acceptance left, is accepted again and writes
    nothing new. *)
Theorem accepted_update_is_idempotent item w existing :
  server_copy w item = Some existing →
  JsDate.geb (incoming_timestamp (SyncQueueItem.data item) existing)
             (Task.updated_at existing) = true →
  persistable (SyncQueueItem.data item) →
  ∃ w',
    process_item item w = (inr [verdict_success item], w') ∧
    process_item item w' = (inr [verdict_success item], w').
Proof.
  intros Hpresent Hge Hpers.
  destruct (merged_row _ _ _ Hpresent Hge Hpers) as (row & Hrow).
  pose proof (process_item_accepts _ _ _ _ Hpresent Hge Hrow) as Hfirst.
  set (w' := with_tasks w
               (<[SyncQueueItem.task_id item := row]> (tasks (db w)))) in *.
  exists w'. split; [exact Hfirst |].
  set (again := Db.rowToTask (SyncQueueItem.task_id item) row).
  assert (Hpresent' : server_copy w' item = Some again).
  { unfold server_copy, w', with_tasks. cbn [db tasks].
    rewrite lookup_insert_eq. reflexivity. }
  destruct (save_params_fields _ _ Hrow) as (Hu & _ & _).
  cbn [SyncService.mergedTask TaskObject.updated_at] in Hu.
  injection Hu as Hu.
  assert (Hincoming :
    incoming_timestamp (SyncQueueItem.data item) again =
    incoming_timestamp (SyncQueueItem.data item) existing).
  { unfold incoming_timestamp in *.
    destruct (read (TaskData.updated_at (SyncQueueItem.data item))) as [v|];
      [destruct (truthy_date (Some v)); [reflexivity |] |];
      simpl; congruence. }
  assert (Hge' :
    JsDate.geb (incoming_timestamp (SyncQueueItem.data item) again)
               (Task.updated_at again) = true).
  { rewrite Hincoming, Hu. simpl. apply Z.leb_refl. }
  assert (Hrow' :
    Db.save_params
      (SyncService.mergedTask again (SyncQueueItem.data item)
         (incoming_timestamp (SyncQueueItem.data item) again)) = inr row).
  { rewrite Hincoming. unfold again.
    rewrite <- (server_copy_id _ _ _ Hpresent).
    apply save_params_again, Hrow. }
  rewrite (process_item_accepts _ _ _ _ Hpresent' Hge' Hrow').
  f_equal. unfold w', with_tasks. cbn [db tasks sync_queue ticks wire].
  rewrite insert_insert_eq. reflexivity.
Qed.

(** X4.  An item whose data carries no [updated_at], or a falsy one (such
    as the delete the task service queues), and can be saved once laid over
    a task, never meets a conflict: its incoming timestamp is the stored
    one, so it is accepted, and the [updated_at] of the stored task stays
    what it was. *)
Theorem update_without_timestamp_always_wins item w existing :
  server_copy w item = Some existing →
  truthy_date (read (TaskData.updated_at (SyncQueueItem.data item))) = false →
  persistable (SyncQueueItem.data item) →
  ∃ w' stored_task,
    process_item item w = (inr [verdict_success item], w') ∧
    server_copy w' item = Some stored_task ∧
    Task.updated_at stored_task = Task.updated_at existing ∧
    Task.sync_status stored_task = ss_synced.
Proof.
  intros Hpresent Hfalsy Hpers.
  destruct (server_copy_dates _ _ _ Hpresent) as (_ & (u & Hu) & _).
  assert (Hincoming :
    incoming_timestamp (SyncQueueItem.data item) existing =
    Task.updated_at existing).
  { unfold incoming_timestamp.
    destruct (read (TaskData.updated_at (SyncQueueItem.data item))) as [v|];
      [rewrite Hfalsy |]; reflexivity. }
  assert (Hge :
    JsDate.geb (incoming_timestamp (SyncQueueItem.data item) existing)
               (Task.updated_at existing) = true)
    by (rewrite Hincoming, Hu; simpl; apply Z.leb_refl).
  destruct (merged_row _ _ _ Hpresent Hge Hpers) as (row & Hrow).
  eexists _, (Db.rowToTask (SyncQueueItem.task_id item) row).
  split; [apply (process_item_accepts _ _ _ _ Hpresent Hge Hrow) |].
  split.
  { unfold server_copy, with_tasks. cbn [db tasks].
    rewrite lookup_insert_eq. reflexivity. }
  destruct (save_params_fields _ _ Hrow) as (Hu' & _ & Hs).
  cbn [SyncService.mergedTask TaskObject.updated_at TaskObject.sync_status]
    in Hu', Hs.
  injection Hu' as Hu'. simpl. split; [congruence | exact Hs].
Qed.

(** X5.  For a task that is present, what the iteration does is decided by
    the item's [task_id] and [data] alone: the operation plays no part (a
    delete is applied only through [data.is_deleted]), nor does the queue
    id of the item. *)
Theorem present_task_ignores_operation item item' w :
  is_Some (tasks (db w) !! SyncQueueItem.task_id item) →
  SyncQueueItem.task_id item' = SyncQueueItem.task_id item →
  SyncQueueItem.data item' = SyncQueueItem.data item →
  process_item item' w = process_item item w.
Proof.
  intros [row Hrow] Htid Hdata.
  assert (Hpresent : server_copy w item =
                     Some (Db.rowToTask (SyncQueueItem.task_id item) row))
    by (unfold server_copy; rewrite Hrow; reflexivity).
  assert (Hpresent' : server_copy w item' =
                      Some (Db.rowToTask (SyncQueueItem.task_id item) row))
    by (unfold server_copy; rewrite Htid, Hrow; reflexivity).
  unfold SyncService.process_item, try_catch.
  rewrite (reconcile_present _ _ _ Hpresent),
          (reconcile_present _ _ _ Hpresent').
  unfold verdict_success, verdict_conflict. rewrite Htid, Hdata.
  reflexivity.
Qed.

(** With a valid [updated_at] or none in its data, an item gets exactly one
    verdict, under its [task_id]. *)
Lemma process_item_one_verdict item w :
  TaskData.updated_at (SyncQueueItem.data item) ≠
    Present (DateObject JsDate.Invalid) →
  ∃ v w',
    process_item item w = (inr [v], w') ∧
    ProcessedItem.client_id v = SyncQueueItem.task_id item ∧
    ProcessedItem.server_id v = SyncQueueItem.task_id item.
Proof.
  intros Hvalid. unfold SyncService.process_item, try_catch.
  destruct (server_copy w item) as [existing|] eqn:Hcopy.
  - rewrite (reconcile_present _ _ _ Hcopy).
    destruct (incoming_valid _ _ _ Hcopy Hvalid) as (c & u & -> & ->).
    destruct (JsDate.geb _ _) eqn:Hge.
    + destruct (Db.save _ w) as [[e|[]] w']; eexists _, _;
        (split; [reflexivity | split; reflexivity]).
    + rewrite (not_geb_ltb _ _ Hge). eexists _, _.
      split; [reflexivity | split; reflexivity].
  - unfold SyncService.reconcile.
    unfold mbind at 1, M_bind. rewrite findById_run.
    fold (server_copy w item). rewrite Hcopy. cbv beta zeta iota.
    destruct (SyncQueueItem.operation item);
      [| eexists _, _; (split; [reflexivity | split; reflexivity]) ..].
    unfold mbind, M_bind.
    destruct (SyncService.or_now clock _ w) as [oa wa] eqn:Ha.
    destruct (or_now_world _ _ _ _ _ Ha) as (_ & _ & _ & created & ->).
    destruct (SyncService.or_now clock _ wa) as [ob wb] eqn:Hb.
    destruct (or_now_world _ _ _ _ _ Hb) as (_ & _ & _ & updated & ->).
    destruct (Db.save _ wb) as [[e|[]] w']; eexists _, _;
      (split; [reflexivity | split; reflexivity]).
Qed.

Lemma process_items_one_verdict_each items w :
  Forall (λ item, TaskData.updated_at (SyncQueueItem.data item) ≠
                  Present (DateObject JsDate.Invalid)) items →
  ∃ vs w',
    process_items items [] w = (inr vs, w') ∧
    ProcessedItem.client_id <$> vs = SyncQueueItem.task_id <$> items ∧
    ProcessedItem.server_id <$> vs = SyncQueueItem.task_id <$> items.
Proof.
  intros Hvalid. revert w.
  induction Hvalid as [|item rest Hitem _ IH]; intros w.
  - exists [], w. repeat split; reflexivity.
  - destruct (process_item_one_verdict item w Hitem)
      as (v & w1 & Hp & Hcid & Hsid).
    destruct (IH w1) as (vs & w' & Hrest & Hcids & Hsids).
    destruct (process_items_total clock rest ([] ++ [v]) w1)
      as (vs' & w'' & Hacc & Hrest').
    rewrite Hrest in Hrest'. injection Hrest' as <- <-.
    exists (v :: vs), w'. split.
    + rewrite (process_items_cons _ _ _ _ _ _ _ Hp). exact Hacc.
    + rewrite !fmap_cons, Hcid, Hsid, Hcids, Hsids. split; reflexivity.
Qed.

(** [handleBatchSync] on a request with a valid client timestamp. *)
Lemma handleBatchSync_answers request T w vs w1 :
  BatchSyncRequest.client_timestamp request = JsDate.Valid T →
  process_items (BatchSyncRequest.items request) [] w = (inr vs, w1) →
  ∃ changes,
    handleBatchSync request w =
      (inr (BatchSyncResponse.mk vs changes (JsDate.Valid (clock (ticks w1)))),
       mkWorld (db w1) (S (ticks w1)) (wire w1)).
Proof.
  intros HT Hloop. eexists. unfold SyncService.handleBatchSync.
  unfold mbind at 1, M_bind. rewrite Hloop.
  unfold SyncService.Date_from. rewrite HT. reflexivity.
Qed.

(** X6.  The verdicts of a batch.  When the client timestamp is valid and no
    item carries an Invalid Date as [updated_at], the response holds
    exactly one verdict per item, in the order of the items, and each
    verdict carries the item's [task_id] both as [client_id] and as
    [server_id]. *)
Theorem one_verdict_per_item_under_task_id request T w :
  BatchSyncRequest.client_timestamp request = JsDate.Valid T →
  Forall (λ item, TaskData.updated_at (SyncQueueItem.data item) ≠
                  Present (DateObject JsDate.Invalid))
    (BatchSyncRequest.items request) →
  ∃ resp w',
    handleBatchSync request w = (inr resp, w') ∧
    ProcessedItem.client_id <$> BatchSyncResponse.processed_items resp =
      SyncQueueItem.task_id <$> BatchSyncRequest.items request ∧
    ProcessedItem.server_id <$> BatchSyncResponse.processed_items resp =
      SyncQueueItem.task_id <$> BatchSyncRequest.items request.
Proof.
  intros HT Hvalid.
  destruct (process_items_one_verdict_each _ w Hvalid)
    as (vs & w1 & Hloop & Hcids & Hsids).
  destruct (handleBatchSync_answers _ _ _ _ _ HT Hloop) as (changes & Hrun).
  eexists _, _. split; [exact Hrun |]. simpl. auto.
Qed.

(** X7.  A request whose client timestamp is an Invalid Date: the items are
    processed, and what they wrote stays written, before the query for the
    server changes throws; the call answers nothing. *)
Theorem invalid_client_timestamp_throws_after_writes request w :
  BatchSyncRequest.client_timestamp request = JsDate.Invalid →
  ∃ vs w1,
    process_items (BatchSyncRequest.items request) [] w = (inr vs, w1) ∧
    handleBatchSync request w = (inl (RangeError "Invalid time value"), w1).
Proof.
  intros HT.
  destruct (process_items_total clock (BatchSyncRequest.items request) [] w)
    as (vs & w1 & _ & Hloop).
  exists vs, w1. split; [exact Hloop |].
  unfold SyncService.handleBatchSync.
  unfold mbind at 1, M_bind. rewrite Hloop.
  unfold SyncService.Date_from. rewrite HT. reflexivity.
Qed.

(** X8.  Create on absent.  A create for a task the store does not hold,
    whose data holds under [created_at] and [updated_at] a valid Date
    object or a falsy value, stores a new task under the [task_id]: synced,
    with [server_id] the [task_id], the title defaulted when absent or
    empty, the flags defaulted to false, and each timestamp the data lacks
    read off the clock; the [id], [server_id], [sync_status] and
    [last_synced_at] of the data are not used.  No other task is touched,
    and the verdict is success. *)
Theorem create_on_absent_persists item w :
  tasks (db w) !! SyncQueueItem.task_id item = None →
  SyncQueueItem.operation item = op_create →
  date_or_nothing (TaskData.created_at (SyncQueueItem.data item)) →
  date_or_nothing (TaskData.updated_at (SyncQueueItem.data item)) →
  ∃ w',
    process_item item w = (inr [verdict_success item], w') ∧
    server_copy w' item =
      Some (stored_form
        {| Task.id := SyncQueueItem.task_id item;
           Task.title :=
             SyncService.or_string (TaskData.title (SyncQueueItem.data item))
               "New Task (Client Sync)";
           Task.description :=
             read (TaskData.description (SyncQueueItem.data item));
           Task.completed :=
             SyncService.or_false
               (TaskData.completed (SyncQueueItem.data item));
           Task.created_at :=
             date_or_now (TaskData.created_at (SyncQueueItem.data item))
               (clock (ticks w));
           Task.updated_at :=
             date_or_now (TaskData.updated_at (SyncQueueItem.data item))
               (clock (if truthy_date
                            (read (TaskData.created_at
                                     (SyncQueueItem.data item)))
                       then ticks w else S (ticks w)));
           Task.is_deleted :=
             SyncService.or_false
               (TaskData.is_deleted (SyncQueueItem.data item));
           Task.sync_status := ss_synced;
           Task.server_id := Some (SyncQueueItem.task_id item);
           Task.last_synced_at := None |}) ∧
    (∀ id, id ≠ SyncQueueItem.task_id item →
           tasks (db w') !! id = tasks (db w) !! id) ∧
    sync_queue (db w') = sync_queue (db w).
Proof.
  intros Habsent Hop Hcreated Hupdated.
  unfold SyncService.process_item, try_catch, SyncService.reconcile.
  unfold mbind at 1, M_bind. rewrite findById_run, Habsent, Hop.
  cbn [fmap option_fmap option_map]. cbv beta zeta iota.
  unfold date_or_nothing, date_or_now in *.
  destruct (TaskData.created_at (SyncQueueItem.data item))
    as [| |[[c|]|c|]]; try contradiction;
    (destruct (TaskData.updated_at (SyncQueueItem.data item))
       as [| |[[u|]|u|]]; try contradiction);
    (eexists; split; [reflexivity |]; split;
     [ unfold server_copy; cbn [db tasks]; rewrite lookup_insert_eq;
       cbn [fmap option_fmap option_map]; f_equal;
       unfold Db.rowToTask, stored_form, truthy_string; simpl;
       destruct (SyncService.or_false
                   (TaskData.completed (SyncQueueItem.data item))),
         (SyncService.or_false
            (TaskData.is_deleted (SyncQueueItem.data item))),
         (decide (SyncQueueItem.task_id item = ""));
       reflexivity
     | split; [intros id Hne; cbn [db tasks];
               apply lookup_insert_ne; intros Heq; apply Hne;
               symmetry; exact Heq
              | reflexivity]]).
Qed.


End ReconcilerItems.

(** ** More on the orchestrator *)

Lemma pending_nil d : Db.pending d = [] ↔ sync_queue d = ∅.
Proof.
  rewrite <- map_size_empty_iff, <- pending_length.
  destruct (Db.pending d); simpl; split; congruence.
Qed.

Lemma filter_resolved_failed_length (vs : list ProcessedItem.t) :
  (length (filter resolved vs) + length (filter failed vs))%nat = length vs.
Proof.
  induction vs as [|v vs IH]; [reflexivity |].
  destruct (decide (failed v)) as [Hf|Hnf].
  - rewrite (filter_cons_True failed), (filter_cons_False resolved);
      [simpl; lia | unfold resolved, failed in *; tauto | exact Hf].
  - rewrite (filter_cons_False failed), (filter_cons_True resolved);
      [simpl; lia | exact Hnf | exact Hnf].
Qed.

Section OrchestratorMore.

Variable clock : nat → Z.

#[local] Abbreviation sync := (SyncService.sync clock).

(** X9.  [sync] posts a request when, and only when, the queue holds a row:
    on an empty queue it returns the empty success without reading the clock,
    posting or writing; otherwise it posts the pending items, once. *)
Theorem sync_posts_only_when_pending transport w :
  (sync_queue (db w) = ∅ →
   sync transport w = (inr (SyncResult.mk true 0 0 []), w)) ∧
  (sync_queue (db w) ≠ ∅ →
   wire (sync transport w).2 = wire w ++ [sync_request clock w] ∧
   BatchSyncRequest.items (sync_request clock w) ≠ []).
Proof.
  split.
  - intros Hempty. apply sync_run_idle, pending_nil, Hempty.
  - intros Hrows.
    assert (Hpending : Db.pending (db w) ≠ [])
      by (rewrite pending_nil; exact Hrows).
    split; [apply sync_posts_request, Hpending | exact Hpending].
Qed.

(** X10.  The tallies of [sync] are tallies of verdicts: [synced_items]
    counts the success and conflict verdicts of the response and [failed_items]
    its error verdicts, whether or not a verdict names a row of the queue;
    [success] tells that no verdict is an error, and no error record is
    returned. *)
Theorem sync_tallies_verdicts transport w resp :
  sync_queue (db w) ≠ ∅ →
  transport (sync_request clock w) = inr resp →
  ∃ res w',
    sync transport w = (inr res, w') ∧
    SyncResult.synced_items res =
      Z.of_nat (length (filter resolved
                          (BatchSyncResponse.processed_items resp))) ∧
    SyncResult.synced_items res + SyncResult.failed_items res =
      Z.of_nat (length (BatchSyncResponse.processed_items resp)) ∧
    (SyncResult.success res = true ↔
     Forall resolved (BatchSyncResponse.processed_items resp)) ∧
    SyncResult.errors res = [].
Proof.
  intros Hrows Hresp.
  assert (Hpending : Db.pending (db w) ≠ [])
    by (rewrite pending_nil; exact Hrows).
  eexists _, _. split; [apply (sync_run_response _ _ _ _ Hpending Hresp) |].
  cbn [SyncResult.synced_items SyncResult.failed_items SyncResult.success
       SyncResult.errors].
  split; [reflexivity |]. split.
  { rewrite <- Nat2Z.inj_add, filter_resolved_failed_length. reflexivity. }
  split; [|reflexivity].
  rewrite Z.eqb_eq. split.
  - intros Hzero. apply Forall_forall. intros v Hv Hfail.
    assert (Hin : v ∈ filter failed (BatchSyncResponse.processed_items resp))
      by (apply list_elem_of_filter; split; assumption).
    destruct (filter failed _); [destruct (not_elem_of_nil _ Hin) |].
    simpl in Hzero. lia.
  - intros Hall.
    destruct (filter failed (BatchSyncResponse.processed_items resp))
      as [|v l] eqn:Hl; [reflexivity |].
    assert (Hin : v ∈ filter failed (BatchSyncResponse.processed_items resp))
      by (rewrite Hl; apply list_elem_of_here).
    apply list_elem_of_filter in Hin as [Hf Hin].
    rewrite Forall_forall in Hall. destruct (Hall _ Hin Hf).
Qed.

(** X11.  The frame of [sync]: whatever the transport does, the tasks table
    is left as it was, and a row of the queue after the call is a row of the
    queue before it, unaltered. *)
Theorem sync_writes_queue_removals_only transport w :
  tasks (db (sync transport w).2) = tasks (db w) ∧
  ∀ k row, sync_queue (db (sync transport w).2) !! k = Some row →
           sync_queue (db w) !! k = Some row.
Proof.
  destruct (decide (Db.pending (db w) = [])) as [Hidle|Hpending].
  { rewrite (sync_run_idle _ _ _ Hidle). auto. }
  destruct (transport (sync_request clock w)) as [e|resp] eqn:Hpost.
  - rewrite (sync_run_failure _ _ _ _ Hpending Hpost). auto.
  - rewrite (sync_run_response _ _ _ _ Hpending Hpost). cbn [snd db tasks].
    split; [reflexivity |]. intros k row. cbn [sync_queue].
    rewrite lookup_remove_all. destruct (decide _); [discriminate | auto].
Qed.

(** X12.  Retry after a transport failure: the call after a failed one posts
    the very same items again, with a later reading of the clock. *)
Theorem failed_batch_is_posted_again transport transport' w e :
  sync_queue (db w) ≠ ∅ →
  transport (sync_request clock w) = inl e →
  wire (sync transport' (sync transport w).2).2 =
    wire w ++
    [sync_request clock w;
     BatchSyncRequest.mk (Db.pending (db w))
       (JsDate.Valid (clock (S (S (ticks w)))))].
Proof.
  intros Hrows Hfail.
  assert (Hpending : Db.pending (db w) ≠ [])
    by (rewrite pending_nil; exact Hrows).
  rewrite (sync_run_failure _ _ _ _ Hpending Hfail). cbn [snd].
  destruct (sync_posts_request clock transport'
              (mkWorld (db w) (S (S (ticks w)))
                 (wire w ++ [sync_request clock w]))) as [-> _].
  - exact Hpending.
  - cbn [wire]. rewrite <- app_assoc. reflexivity.
Qed.

End OrchestratorMore.

(** ** More on the database *)

#[global] Instance created_before_trans : Transitive Db.created_before.
Proof.
  unfold Db.created_before, Iso.not_after. intros a b c.
  apply text_leb_trans.
Qed.

#[global] Instance created_before_total : Total Db.created_before.
Proof.
  unfold Db.created_before, Iso.not_after. intros a b.
  apply String.leb_total.
Qed.

Lemma StronglySorted_lookup_lt {A} (R : relation A) (l : list A) i j a b :
  StronglySorted R l → (i < j)%nat →
  l !! i = Some a → l !! j = Some b → R a b.
Proof.
  intros Hsorted. revert i j.
  induction Hsorted as [|x l Hl IH Hx]; intros i j Hij Hi Hj;
    [discriminate |].
  destruct j as [|j]; [lia |]. simpl in Hj.
  destruct i as [|i]; simpl in Hi.
  - injection Hi as <-. rewrite Forall_forall in Hx. apply Hx.
    apply list_elem_of_lookup. eauto.
  - apply (IH i j); [lia | assumption ..].
Qed.

(** X13.  The round trip of [save] and [findById]: a task whose dates are
    valid is written, replacing whatever row its id had, and reads back field for
    field, but for a falsy [server_id], which reads back absent; the other
    tasks and the sync queue are as they were. *)
Theorem save_then_findById task w c u :
  Task.created_at task = JsDate.Valid c →
  Task.updated_at task = JsDate.Valid u →
  Task.last_synced_at task ≠ Some JsDate.Invalid →
  ∃ w',
    Db.save (TaskObject.of_task task) w = (inr tt, w') ∧
    Db.findById (Task.id task) w' = (inr (Some (stored_form task)), w') ∧
    (∀ id, id ≠ Task.id task → tasks (db w') !! id = tasks (db w) !! id) ∧
    sync_queue (db w') = sync_queue (db w).
Proof.
  intros Hc Hu Hs.
  destruct (save_params_valid _ _ _ Hc Hu Hs) as (row & Hrow).
  eexists. split; [apply (save_run_ok _ _ _ Hrow) |].
  split; [|split; [|reflexivity]].
  - rewrite findById_run. unfold with_tasks. cbn [db tasks].
    rewrite lookup_insert_eq. cbn [fmap option_fmap option_map].
    rewrite (rowToTask_save_params _ _ Hrow). reflexivity.
  - intros id Hne. unfold with_tasks. cbn [db tasks].
    apply lookup_insert_ne. intros Heq. apply Hne. symmetry. exact Heq.
Qed.

(** X14.  [save] on a task with an Invalid Date among its dates throws a
    RangeError and writes nothing. *)
Theorem save_invalid_date_throws task w :
  Task.created_at task = JsDate.Invalid ∨
  Task.updated_at task = JsDate.Invalid ∨
  Task.last_synced_at task = Some JsDate.Invalid →
  Db.save (TaskObject.of_task task) w =
    (inl (RangeError "Invalid time value"), w).
Proof.
  intros Hbad. apply save_run_throws.
  unfold Db.save_params, TaskObject.of_task.
  cbn [TaskObject.created_at TaskObject.updated_at TaskObject.last_synced_at
       TaskObject.title].
  destruct Hbad as [->|[->| ->]].
  - reflexivity.
  - destruct (Task.created_at task); reflexivity.
  - destruct (Task.created_at task), (Task.updated_at task); reflexivity.
Qed.

(** X15.  [getPendingSyncItems] returns the rows of the queue, each once,
    in the order of the texts of their [created_at]; where these are dates
    of years written with four digits, this is first in, first out: the
    items come in non-decreasing order of [created_at]. *)
Theorem pending_is_fifo d :
  (∀ i j a b, (i < j)%nat →
     Db.pending d !! i = Some a → Db.pending d !! j = Some b →
     ∃ ta tb,
       SyncQueueItem.created_at a = JsDate.Valid ta ∧
       SyncQueueItem.created_at b = JsDate.Valid tb ∧
       Iso.not_after ta tb = true ∧
       (Iso.four_digit_year ta → Iso.four_digit_year tb →
        JsDate.geb (SyncQueueItem.created_at b) (SyncQueueItem.created_at a)
          = true)) ∧
  NoDup (SyncQueueItem.id <$> Db.pending d) ∧
  length (Db.pending d) = size (sync_queue d) ∧
  ∀ k row, sync_queue d !! k = Some row → Db.rowToItem (k, row) ∈ Db.pending d.
Proof.
  split; [|split; [apply NoDup_pending_ids |
                   split; [apply pending_length |]]].
  - intros i j a b Hij Ha Hb. unfold Db.pending in Ha, Hb.
    rewrite list_lookup_fmap in Ha, Hb.
    destruct (merge_sort Db.created_before (map_to_list (sync_queue d)) !! i)
      as [ra|] eqn:Hra; [|discriminate].
    destruct (merge_sort Db.created_before (map_to_list (sync_queue d)) !! j)
      as [rb|] eqn:Hrb; [|discriminate].
    injection Ha as <-. injection Hb as <-.
    pose proof (StronglySorted_lookup_lt _ _ _ _ _ _
                  (StronglySorted_merge_sort _ _) Hij Hra Hrb) as Hle.
    unfold Db.created_before in Hle.
    eexists _, _. split; [reflexivity |]. split; [reflexivity |].
    split; [exact Hle |]. intros Hya Hyb. cbn.
    rewrite <- (not_after_leb _ _ Hya Hyb). exact Hle.
  - intros k row Hrow. apply elem_of_pending. simpl. eauto.
Qed.

(** X16.  [removeSyncQueueItem] takes the row with the given id out of the
    queue and nothing else; when no row has the id, the database is as it was. *)
Theorem remove_takes_one_row id w :
  ∃ w',
    Db.removeSyncQueueItem id w = (inr tt, w') ∧
    tasks (db w') = tasks (db w) ∧
    (sync_queue (db w) !! id = None → db w' = db w) ∧
    ∀ item, item ∈ Db.pending (db w') ↔
            item ∈ Db.pending (db w) ∧ SyncQueueItem.id item ≠ id.
Proof.
  eexists. split; [reflexivity |]. cbn [db tasks sync_queue].
  split; [reflexivity |]. split.
  - intros Hnone. rewrite (delete_id _ _ Hnone). destruct (db w). reflexivity.
  - intros item. rewrite !elem_of_pending. cbn [sync_queue]. split.
    + intros (row & Hrow & Hitem).
      destruct (decide (SyncQueueItem.id item = id)) as [Heq|Hne].
      * rewrite Heq, lookup_delete_eq in Hrow. discriminate.
      * rewrite lookup_delete_ne in Hrow by congruence. eauto.
    + intros [(row & Hrow & Hitem) Hne]. exists row.
      rewrite lookup_delete_ne by congruence. auto.
Qed.

(** ** Queries of the task service *)

Lemma elem_of_find filter d t :
  t ∈ uncurry Db.rowToTask <$>
        base.filter (λ kr, DbQuery.selects filter kr.2 = true)
          (map_to_list (tasks d)) ↔
  ∃ row, tasks d !! Task.id t = Some row ∧
         t = Db.rowToTask (Task.id t) row ∧
         DbQuery.selects filter row = true.
Proof.
  rewrite list_elem_of_fmap. split.
  - intros ([k row] & -> & Hin).
    apply list_elem_of_filter in Hin as [Hsel Hin].
    apply elem_of_map_to_list in Hin. simpl in *. eauto.
  - intros (row & Hrow & Ht & Hsel). exists (Task.id t, row).
    split; [exact Ht |]. apply list_elem_of_filter.
    split; [exact Hsel | apply elem_of_map_to_list, Hrow].
Qed.

Lemma NoDup_find filter d :
  NoDup (uncurry Db.rowToTask <$>
           base.filter (λ kr, DbQuery.selects filter kr.2 = true)
             (map_to_list (tasks d))).
Proof.
  apply NoDup_fmap_2_strong.
  - intros [k1 r1] [k2 r2] [_ H1]%list_elem_of_filter
      [_ H2]%list_elem_of_filter Heq.
    apply elem_of_map_to_list in H1, H2.
    assert (k1 = k2) as -> by (apply (f_equal Task.id) in Heq; exact Heq).
    rewrite H1 in H2. congruence.
  - apply NoDup_filter, NoDup_map_to_list.
Qed.

Lemma stored_row d t :
  stored d t ↔
  ∃ row, tasks d !! Task.id t = Some row ∧ t = Db.rowToTask (Task.id t) row.
Proof.
  unfold stored. destruct (tasks d !! Task.id t) as [row|]; simpl; split.
  - intros [= Ht]. eauto.
  - intros (row' & [= <-] & Ht). congruence.
  - discriminate.
  - intros (row' & Hrow & _). discriminate.
Qed.

(** X17.  [getAllTasks] lists, each once, exactly the tasks [getTask] finds:
    the stored tasks that are not soft-deleted. *)
Theorem getAllTasks_lists_what_getTask_finds w :
  ∃ listed,
    TaskService.getAllTasks w = (inr listed, w) ∧
    NoDup listed ∧
    ∀ t, t ∈ listed ↔
         TaskService.getTask (Task.id t) w = (inr (Some t), w).
Proof.
  eexists. split; [reflexivity |]. split; [apply NoDup_find |].
  intros t. rewrite elem_of_find.
  unfold TaskService.getTask. unfold mbind, M_bind. rewrite findById_run.
  split.
  - intros (row & Hrow & Ht & Hsel). rewrite Hrow.
    cbn [fmap option_fmap option_map]. cbv beta iota. rewrite <- Ht.
    simpl in Hsel. rewrite andb_true_r in Hsel.
    assert (Hlive : Task.is_deleted t = false)
      by (rewrite Ht; simpl; rewrite Hsel; reflexivity).
    rewrite Hlive. reflexivity.
  - destruct (tasks (db w) !! Task.id t) as [row|] eqn:Hrow; simpl;
      [|discriminate].
    destruct (negb (TaskRow.is_deleted row =? 0)) eqn:Hdel; [discriminate |].
    intros [= Ht]. exists row. split; [reflexivity |].
    split; [symmetry; exact Ht |]. simpl. rewrite andb_true_r.
    apply negb_false_iff, Hdel.
Qed.

(** X18.  [getTasksNeedingSync] lists, each once, exactly the stored tasks
    whose [sync_status] is pending or error, the soft-deleted ones included. *)
Theorem getTasksNeedingSync_lists_unsynced w :
  ∃ listed,
    TaskService.getTasksNeedingSync w = (inr listed, w) ∧
    NoDup listed ∧
    ∀ t, t ∈ listed ↔ stored (db w) t ∧ Task.sync_status t ≠ ss_synced.
Proof.
  eexists. split; [reflexivity |]. split; [apply NoDup_find |].
  intros t. rewrite elem_of_find, stored_row. split.
  - intros (row & Hrow & Ht & Hsel). split; [eauto |].
    rewrite Ht. simpl. intros Hs. revert Hsel.
    unfold DbQuery.selects. cbn [Filter.is_deleted Filter.or].
    rewrite Hs. vm_compute. discriminate.
  - intros [(row & Hrow & Ht) Hs]. exists row.
    split; [exact Hrow |]. split; [exact Ht |].
    rewrite Ht in Hs. simpl in Hs.
    unfold DbQuery.selects. cbn [Filter.is_deleted Filter.or].
    destruct (TaskRow.sync_status row);
      [| congruence |]; vm_compute; reflexivity.
Qed.

(** X19.  A condition of [$or] that is not a lone [sync_status] key is dropped
    without notice: a filter whose [$or] holds only such conditions selects
    every task, as no filter does. *)
Theorem find_drops_unusable_conditions conds w :
  Forall (λ cond, DbQuery.usable cond = None) conds →
  DbQuery.find (Some (Filter.mk None (Some conds))) w = DbQuery.find None w.
Proof.
  intros Hnone.
  assert (Hdrop : omap DbQuery.usable conds = []).
  { induction Hnone as [|cond rest Hcond _ IH]; [reflexivity |].
    simpl. rewrite Hcond. exact IH. }
  unfold DbQuery.find, DbQuery.selects. cbn [Filter.is_deleted Filter.or].
  rewrite Hdrop. reflexivity.
Qed.

(** X20.  The reconciler stores synced tasks only: a task that needs sync
    after a batch needed it before the batch, and is as it was. *)
Theorem batch_adds_no_task_needing_sync clock request w listed' t :
  (TaskService.getTasksNeedingSync
     (SyncService.handleBatchSync clock request w).2).1 = inr listed' →
  t ∈ listed' →
  ∃ listed,
    (TaskService.getTasksNeedingSync w).1 = inr listed ∧ t ∈ listed.
Proof.
  intros Hlisted Hin.
  set (unsynced := Some (Filter.mk None
         (Some [[("sync_status", "pending")]; [("sync_status", "error")]]))).
  assert (Hrun : ∀ w0,
    (TaskService.getTasksNeedingSync w0).1 =
    inr (uncurry Db.rowToTask <$>
           base.filter (λ kr, DbQuery.selects unsynced kr.2 = true)
             (map_to_list (tasks (db w0))))) by reflexivity.
  rewrite Hrun in Hlisted. apply (inj inr) in Hlisted. subst listed'.
  eexists. split; [apply Hrun |].
  apply elem_of_find. apply elem_of_find in Hin as (row & Hrow & Ht & Hsel).
  destruct (handleBatchSync_world clock request w) as (vs & w1 & Hloop & Hdb & _).
  rewrite Hdb in Hrow.
  destruct (process_items_writes _ _ _ _ _ _ Hloop)
    as (_ & _ & _ & _ & _ & Hsynced).
  destruct (Hsynced _ _ Hrow) as [Hbefore|Hs].
  - exists row. auto.
  - revert Hsel. unfold DbQuery.selects, unsynced.
    cbn [Filter.is_deleted Filter.or].
    rewrite Hs. vm_compute. discriminate.
Qed.

(** ** The task service *)

Ltac arun :=
  unfold mbind, mret, Async_bind, Async_ret, run, reject, lift, get_db,
    put_db, TaskService.uuidv4, SyncService.Date_now, M_bind, M_ret;
  cbn [world drawn db tasks sync_queue ticks wire fst snd].

Section TaskServiceRuns.

Variable clock : nat → Z.
Variable uuid : nat → string.

#[local] Abbreviation createAndQueueSyncItem :=
  (TaskService.createAndQueueSyncItem clock uuid).
#[local] Abbreviation createTask := (TaskService.createTask clock uuid).
#[local] Abbreviation updateTask := (TaskService.updateTask clock uuid).
#[local] Abbreviation deleteTask := (TaskService.deleteTask clock uuid).

(** The world once a row is put in the queue at the next clock reading. *)
Lemma enqueue_run taskId operation data w n :
  uuid n ≠ "" →
  sync_queue (db w) !! uuid n = None →
  createAndQueueSyncItem taskId operation data (mkEnv w n) =
    (inr tt,
     mkEnv
       (mkWorld
          (mkDatabase (tasks (db w))
             (<[uuid n :=
                 QueueRow.mk taskId operation (JSON_stringify data)
                   (clock (ticks w)) 0 None]>
                (sync_queue (db w))))
          (S (ticks w)) (wire w))
       (S n)).
Proof.
  intros Hid Hfree.
  unfold TaskService.createAndQueueSyncItem, TaskService.addToSyncQueue.
  arun. rewrite decide_False by exact Hid. arun.
  simpl. rewrite Hfree. reflexivity.
Qed.

Lemma enqueue_taken taskId operation data w n :
  uuid n ≠ "" →
  is_Some (sync_queue (db w) !! uuid n) →
  createAndQueueSyncItem taskId operation data (mkEnv w n) =
    (inl (SqliteError
            "SQLITE_CONSTRAINT: UNIQUE constraint failed: sync_queue.id"),
     mkEnv (mkWorld (db w) (S (ticks w)) (wire w)) (S n)).
Proof.
  intros Hid [taken Htaken].
  unfold TaskService.createAndQueueSyncItem, TaskService.addToSyncQueue.
  arun. rewrite decide_False by exact Hid. arun.
  simpl. rewrite Htaken. reflexivity.
Qed.

Lemma getTask_run id w :
  TaskService.getTask id w =
    (inr match Db.rowToTask id <$> tasks (db w) !! id with
         | Some task => if Task.is_deleted task then None else Some task
         | None => None
         end, w).
Proof.
  unfold TaskService.getTask. unfold mbind, M_bind. rewrite findById_run.
  destruct (Db.rowToTask id <$> tasks (db w) !! id) as [task|];
    [destruct (Task.is_deleted task) |]; reflexivity.
Qed.

(** A task read from the store can be saved again with a fresh
    [updated_at]. *)
Lemma stored_dates_valid id row :
  (∃ c, Task.created_at (Db.rowToTask id row) = JsDate.Valid c) ∧
  Task.last_synced_at (Db.rowToTask id row) ≠ Some JsDate.Invalid.
Proof.
  simpl. split; [eauto |].
  destruct (TaskRow.last_synced_at row); discriminate.
Qed.

Lemma deleteTask_run id w n row row' :
  tasks (db w) !! id = Some row →
  Task.is_deleted (Db.rowToTask id row) = false →
  uuid n ≠ "" →
  sync_queue (db w) !! uuid n = None →
  Db.save_params
    (TaskObject.of_task
       (TaskService.deletedTask (Db.rowToTask id row)
          (JsDate.Valid (clock (ticks w))))) = inr row' →
  deleteTask id (mkEnv w n) =
    (inr true,
     mkEnv
       (mkWorld
          (mkDatabase (<[id := row']> (tasks (db w)))
             (<[uuid n :=
                 QueueRow.mk id op_delete (JSON_stringify deletion)
                   (clock (S (ticks w))) 0 None]> (sync_queue (db w))))
          (S (S (ticks w))) (wire w))
       (S n)).
Proof.
  intros Hrow Hlive Hid Hfree Hsave.
  unfold TaskService.deleteTask.
  unfold mbind at 1, Async_bind. unfold run at 1. cbn [world drawn].
  rewrite findById_run, Hrow. cbn [fmap option_fmap option_map].
  rewrite Hlive.
  unfold mbind at 1, Async_bind. unfold run at 1. cbn [world drawn].
  unfold SyncService.Date_now at 1.
  unfold mbind at 1, Async_bind. unfold run at 1. cbn [world drawn].
  rewrite (save_run_ok _ _ _ Hsave).
  unfold mbind at 1, Async_bind.
  rewrite enqueue_run; [reflexivity | exact Hid | exact Hfree].
Qed.

Lemma updateTask_run id updates w n row row' :
  tasks (db w) !! id = Some row →
  Task.is_deleted (Db.rowToTask id row) = false →
  uuid n ≠ "" →
  sync_queue (db w) !! uuid n = None →
  Db.save_params
    (TaskService.updatedTask (Db.rowToTask id row) updates
       (JsDate.Valid (clock (ticks w)))) = inr row' →
  updateTask id updates (mkEnv w n) =
    (inr (Some (TaskService.updatedTask (Db.rowToTask id row) updates
                  (JsDate.Valid (clock (ticks w))))),
     mkEnv
       (mkWorld
          (mkDatabase (<[id := row']> (tasks (db w)))
             (<[uuid n :=
                 QueueRow.mk id op_update (JSON_stringify updates)
                   (clock (S (ticks w))) 0 None]> (sync_queue (db w))))
          (S (S (ticks w))) (wire w))
       (S n)).
Proof.
  intros Hrow Hlive Hid Hfree Hsave.
  unfold TaskService.updateTask.
  unfold mbind at 1, Async_bind. unfold run at 1. cbn [world drawn].
  rewrite findById_run, Hrow. cbn [fmap option_fmap option_map].
  rewrite Hlive.
  unfold mbind at 1, Async_bind. unfold run at 1. cbn [world drawn].
  unfold SyncService.Date_now at 1.
  unfold mbind at 1, Async_bind. unfold run at 1. cbn [world drawn].
  rewrite (save_run_ok _ _ _ Hsave).
  unfold mbind at 1, Async_bind.
  rewrite enqueue_run; [reflexivity | exact Hid | exact Hfree].
Qed.

Lemma createTask_run taskData w n :
  uuid (S n) ≠ "" →
  sync_queue (db w) !! uuid (S n) = None →
  ∃ row,
    Db.rowToTask (uuid n) row = newTask taskData (uuid n) (clock (ticks w)) ∧
    createTask taskData (mkEnv w n) =
      (inr (newTask taskData (uuid n) (clock (ticks w))),
       mkEnv
         (mkWorld
            (mkDatabase (<[uuid n := row]> (tasks (db w)))
               (<[uuid (S n) :=
                   QueueRow.mk (uuid n) op_create
                     (JSON_stringify
                        (task_as_data
                           (newTask taskData (uuid n) (clock (ticks w)))))
                     (clock (S (ticks w))) 0 None]> (sync_queue (db w))))
            (S (S (ticks w))) (wire w))
         (S (S n))).
Proof.
  intros Hid Hfree.
  destruct (save_params_valid
              (newTask taskData (uuid n) (clock (ticks w)))
              (clock (ticks w)) (clock (ticks w)))
    as (row & Hsave); [reflexivity | reflexivity | discriminate |].
  exists row. split.
  { exact (rowToTask_save_params _ _ Hsave). }
  unfold TaskService.createTask.
  unfold mbind at 1, Async_bind. unfold TaskService.uuidv4 at 1.
  cbn [world drawn].
  unfold mbind at 1, Async_bind. unfold run at 1. cbn [world drawn].
  unfold SyncService.Date_now at 1.
  change (JsDate.Valid (clock (ticks w))) with
    (Task.created_at (newTask taskData (uuid n) (clock (ticks w)))).
  unfold mbind at 1, Async_bind. unfold run at 1. cbn [world drawn].
  rewrite (save_run_ok _ _ _ Hsave).
  unfold mbind at 1, Async_bind.
  rewrite enqueue_run; [reflexivity | exact Hid | exact Hfree].
Qed.

Lemma getTask_found id w task :
  TaskService.getTask id w = (inr (Some task), w) →
  ∃ row, tasks (db w) !! id = Some row ∧ task = Db.rowToTask id row ∧
         Task.is_deleted (Db.rowToTask id row) = false.
Proof.
  rewrite getTask_run.
  destruct (tasks (db w) !! id) as [row|]; simpl; [|discriminate].
  destruct (negb (TaskRow.is_deleted row =? 0)) eqn:Hdel; [discriminate |].
  intros [= <-]. eauto.
Qed.

(** X21.  Whenever [getTask] finds no task under an id (none is stored, or the
    one stored is soft-deleted), [updateTask] returns null and [deleteTask]
    false, and neither reads the clock, draws a uuid or writes. *)
Theorem missing_task_is_left_alone id updates env :
  TaskService.getTask id (world env) = (inr None, world env) →
  updateTask id updates env = (inr None, env) ∧
  deleteTask id env = (inr false, env).
Proof.
  rewrite getTask_run. intros Hnone. destruct env as [w n]. cbn [world] in *.
  split;
    [unfold TaskService.updateTask | unfold TaskService.deleteTask];
    unfold mbind at 1, Async_bind; unfold run at 1; cbn [world drawn];
    rewrite findById_run;
    (destruct (Db.rowToTask id <$> tasks (db w) !! id) as [task|];
     [|reflexivity]);
    (destruct (Task.is_deleted task); [reflexivity | discriminate]).
Qed.

(** X22.  [deleteTask] is a soft delete.  For a task [getTask] finds, and a
    fresh uuid: the row stays in the store, flagged deleted, pending, with the
    reading of the clock as [updated_at] and its other fields kept;
    [getTask] no longer finds it; a delete for it, carrying
    [{ is_deleted: true }], is put in the queue under the uuid; no other
    task is touched. *)
Theorem deleteTask_soft_deletes id task env :
  TaskService.getTask id (world env) = (inr (Some task), world env) →
  uuid (drawn env) ≠ "" →
  sync_queue (db (world env)) !! uuid (drawn env) = None →
  ∃ env',
    deleteTask id env = (inr true, env') ∧
    TaskService.getTask id (world env') = (inr None, world env') ∧
    Db.findById id (world env') =
      (inr (Some (stored_form
                    (TaskService.deletedTask task
                       (JsDate.Valid (clock (ticks (world env))))))),
       world env') ∧
    sync_queue (db (world env')) =
      <[uuid (drawn env) :=
          QueueRow.mk id op_delete (JSON_stringify deletion)
            (clock (S (ticks (world env)))) 0 None]>
        (sync_queue (db (world env))) ∧
    ∀ k, k ≠ id →
         tasks (db (world env')) !! k = tasks (db (world env)) !! k.
Proof.
  destruct env as [w n]. cbn [world drawn]. intros Hfound Hid Hfree.
  destruct (getTask_found _ _ _ Hfound) as (row & Hrow & -> & Hlive).
  destruct (stored_dates_valid id row) as ((c & Hc) & Hs).
  destruct (save_params_valid
              (TaskService.deletedTask (Db.rowToTask id row)
                 (JsDate.Valid (clock (ticks w)))) c (clock (ticks w)))
    as (row' & Hsave); [exact Hc | reflexivity | exact Hs |].
  eexists. split; [apply (deleteTask_run _ _ _ _ _ Hrow Hlive Hid Hfree Hsave) |].
  cbn [world db tasks sync_queue].
  pose proof (rowToTask_save_params _ _ Hsave) as Hback.
  change (Task.id (TaskService.deletedTask (Db.rowToTask id row)
                     (JsDate.Valid (clock (ticks w))))) with id in Hback.
  split; [|split; [|split; [reflexivity |]]].
  - rewrite getTask_run. cbn [db tasks]. rewrite lookup_insert_eq.
    cbn [fmap option_fmap option_map]. rewrite Hback. reflexivity.
  - rewrite findById_run. cbn [db tasks]. rewrite lookup_insert_eq.
    cbn [fmap option_fmap option_map]. rewrite Hback. reflexivity.
  - intros k Hne. apply lookup_insert_ne. intros Heq. apply Hne.
    symmetry. exact Heq.
Qed.

(** X23.  Deletion is terminal for the task service: once [deleteTask] has
    succeeded, a further [deleteTask] or an [updateTask] of the task returns
    false or null and changes nothing. *)
Theorem deleted_task_cannot_be_changed id task updates env :
  TaskService.getTask id (world env) = (inr (Some task), world env) →
  uuid (drawn env) ≠ "" →
  sync_queue (db (world env)) !! uuid (drawn env) = None →
  (deleteTask id env).1 = inr true ∧
  deleteTask id (deleteTask id env).2 = (inr false, (deleteTask id env).2) ∧
  updateTask id updates (deleteTask id env).2 =
    (inr None, (deleteTask id env).2).
Proof.
  destruct env as [w n]. cbn [world drawn]. intros Hfound Hid Hfree.
  destruct (getTask_found _ _ _ Hfound) as (row & Hrow & -> & Hlive).
  destruct (stored_dates_valid id row) as ((c & Hc) & Hs).
  destruct (save_params_valid
              (TaskService.deletedTask (Db.rowToTask id row)
                 (JsDate.Valid (clock (ticks w)))) c (clock (ticks w)))
    as (row' & Hsave); [exact Hc | reflexivity | exact Hs |].
  rewrite (deleteTask_run _ _ _ _ _ Hrow Hlive Hid Hfree Hsave).
  cbn [fst snd]. split; [reflexivity |].
  pose proof (rowToTask_save_params _ _ Hsave) as Hback.
  change (Task.id (TaskService.deletedTask (Db.rowToTask id row)
                     (JsDate.Valid (clock (ticks w))))) with id in Hback.
  split;
    [unfold TaskService.deleteTask | unfold TaskService.updateTask];
    unfold mbind at 1, Async_bind; unfold run at 1; cbn [world drawn];
    rewrite findById_run; cbn [db tasks]; rewrite lookup_insert_eq;
    cbn [fmap option_fmap option_map]; rewrite Hback; reflexivity.
Qed.

(** X24.  The write of the task and the enqueue are two statements: when the
    enqueue is rejected (the uuid drawn is taken), [deleteTask] throws,
    and the task is nonetheless stored deleted, with nothing queued for
    it. *)
Theorem rejected_enqueue_keeps_task_write id task env :
  TaskService.getTask id (world env) = (inr (Some task), world env) →
  uuid (drawn env) ≠ "" →
  is_Some (sync_queue (db (world env)) !! uuid (drawn env)) →
  ∃ env',
    deleteTask id env =
      (inl (SqliteError
              "SQLITE_CONSTRAINT: UNIQUE constraint failed: sync_queue.id"),
       env') ∧
    TaskService.getTask id (world env') = (inr None, world env') ∧
    is_Some (tasks (db (world env')) !! id) ∧
    sync_queue (db (world env')) = sync_queue (db (world env)).
Proof.
  destruct env as [w n]. cbn [world drawn]. intros Hfound Hid Htaken.
  destruct (getTask_found _ _ _ Hfound) as (row & Hrow & -> & Hlive).
  destruct (stored_dates_valid id row) as ((c & Hc) & Hs).
  destruct (save_params_valid
              (TaskService.deletedTask (Db.rowToTask id row)
                 (JsDate.Valid (clock (ticks w)))) c (clock (ticks w)))
    as (row' & Hsave); [exact Hc | reflexivity | exact Hs |].
  pose proof (rowToTask_save_params _ _ Hsave) as Hback.
  change (Task.id (TaskService.deletedTask (Db.rowToTask id row)
                     (JsDate.Valid (clock (ticks w))))) with id in Hback.
  eexists. split.
  { unfold TaskService.deleteTask.
    unfold mbind at 1, Async_bind. unfold run at 1. cbn [world drawn].
    rewrite findById_run, Hrow. cbn [fmap option_fmap option_map].
    rewrite Hlive.
    unfold mbind at 1, Async_bind. unfold run at 1. cbn [world drawn].
    unfold SyncService.Date_now at 1.
    unfold mbind at 1, Async_bind. unfold run at 1. cbn [world drawn].
    rewrite (save_run_ok _ _ _ Hsave).
    unfold mbind at 1, Async_bind.
    rewrite enqueue_taken; [reflexivity | exact Hid | exact Htaken]. }
  unfold with_tasks. cbn [world db tasks sync_queue].
  split; [|split; [|reflexivity]].
  - rewrite getTask_run. cbn [db tasks]. rewrite lookup_insert_eq.
    cbn [fmap option_fmap option_map]. rewrite Hback. reflexivity.
  - rewrite lookup_insert_eq. eauto.
Qed.

(** X25.  The round trip of [createTask] and [getTask].  With a fresh uuid for
    the queue row, [createTask] returns a task under the first uuid drawn,
    pending, not deleted whatever the input says, created and updated at
    the same reading of the clock; [getTask] on its id gives the very task
    back; and a create for it is queued under the second uuid. *)
Theorem createTask_then_getTask taskData env :
  uuid (S (drawn env)) ≠ "" →
  sync_queue (db (world env)) !! uuid (S (drawn env)) = None →
  ∃ task env' queued_row,
    createTask taskData env = (inr task, env') ∧
    Task.id task = uuid (drawn env) ∧
    Task.title task = SyncService.or_string (TaskData.title taskData)
                        "New Task" ∧
    Task.is_deleted task = false ∧
    Task.sync_status task = ss_pending ∧
    Task.created_at task = JsDate.Valid (clock (ticks (world env))) ∧
    Task.updated_at task = Task.created_at task ∧
    TaskService.getTask (Task.id task) (world env') =
      (inr (Some task), world env') ∧
    sync_queue (db (world env')) !! uuid (S (drawn env)) = Some queued_row ∧
    QueueRow.task_id queued_row = Task.id task ∧
    QueueRow.operation queued_row = op_create ∧
    QueueRow.retry_count queued_row = 0.
Proof.
  destruct env as [w n]. cbn [world drawn]. intros Hid Hfree.
  destruct (createTask_run taskData w n Hid Hfree) as (row & Hback & Hrun).
  eexists _, _, _. split; [exact Hrun |].
  cbn [world db tasks sync_queue].
  repeat (split; [reflexivity |]).
  split.
  - rewrite getTask_run. cbn [db tasks newTask Task.id].
    rewrite lookup_insert_eq. cbn [fmap option_fmap option_map].
    rewrite Hback. reflexivity.
  - rewrite lookup_insert_eq. repeat split; reflexivity.
Qed.

(** X26.  [updateTask] keeps the identity of the task.  For a task [getTask]
    finds, updates that can be saved once laid over it (no [undefined] as
    title, nothing but a valid Date object or a falsy value as
    [last_synced_at]), and a fresh uuid: the task returned has the id and
    the [created_at] of the stored one, whatever the updates carry for
    them, the reading of the clock as [updated_at], and is pending; it is
    what [findById] then reads, and an update for it is queued under the
    uuid. *)
Theorem updateTask_keeps_identity id task updates env :
  TaskService.getTask id (world env) = (inr (Some task), world env) →
  storable updates →
  uuid (drawn env) ≠ "" →
  sync_queue (db (world env)) !! uuid (drawn env) = None →
  ∃ updated env' queued_row persisted,
    updateTask id updates env = (inr (Some updated), env') ∧
    TaskObject.id updated = id ∧
    TaskObject.created_at updated = Some (DateObject (Task.created_at task)) ∧
    TaskObject.updated_at updated =
      DateObject (JsDate.Valid (clock (ticks (world env)))) ∧
    TaskObject.sync_status updated = ss_pending ∧
    Db.findById id (world env') = (inr (Some persisted), world env') ∧
    stored_as updated persisted ∧
    sync_queue (db (world env')) !! uuid (drawn env) = Some queued_row ∧
    QueueRow.task_id queued_row = id ∧
    QueueRow.operation queued_row = op_update ∧
    QueueRow.retry_count queued_row = 0.
Proof.
  destruct env as [w n]. cbn [world drawn].
  intros Hfound [Htitle Hsynced] Hid Hfree.
  destruct (getTask_found _ _ _ Hfound) as (row & Hrow & -> & Hlive).
  assert (Hsave : ∃ row',
    Db.save_params
      (TaskService.updatedTask (Db.rowToTask id row) updates
         (JsDate.Valid (clock (ticks w)))) = inr row').
  { unfold Db.save_params, TaskService.updatedTask.
    cbn [TaskObject.created_at TaskObject.updated_at
         TaskObject.last_synced_at TaskObject.title Db.rowToTask
         Task.created_at Task.last_synced_at Task.title].
    destruct (TaskData.title updates); [| congruence |];
      destruct (TaskData.last_synced_at updates) as [| |[[]| |]];
      try contradiction;
      try destruct (TaskRow.last_synced_at row);
      simpl; eauto. }
  destruct Hsave as (row' & Hsave).
  pose proof (save_params_stored_as _ _ Hsave) as Hback.
  change (TaskObject.id (TaskService.updatedTask (Db.rowToTask id row) updates
                           (JsDate.Valid (clock (ticks w))))) with id in Hback.
  eexists _, _, _, (Db.rowToTask id row').
  split; [apply (updateTask_run _ _ _ _ _ _ Hrow Hlive Hid Hfree Hsave) |].
  cbn [world db tasks sync_queue].
  repeat (split; [reflexivity |]).
  split.
  { rewrite findById_run. cbn [db tasks]. rewrite lookup_insert_eq.
    reflexivity. }
  split; [exact Hback |].
  rewrite lookup_insert_eq. repeat split; reflexivity.
Qed.

(** X27.  What is queued is what the next [sync] posts: after
    [createAndQueueSyncItem(taskId, operation, data)] with a fresh uuid, the
    request
    the next [sync] posts holds an item under that uuid, for that task and
    operation, with retry count 0 and the reading of the clock at the
    enqueue as [created_at]. *)
Theorem queued_item_is_posted_by_sync taskId operation data env transport :
  uuid (drawn env) ≠ "" →
  sync_queue (db (world env)) !! uuid (drawn env) = None →
  ∃ env' item,
    createAndQueueSyncItem taskId operation data env = (inr tt, env') ∧
    wire (SyncService.sync clock transport (world env')).2 =
      wire (world env) ++ [sync_request clock (world env')] ∧
    item ∈ BatchSyncRequest.items (sync_request clock (world env')) ∧
    SyncQueueItem.id item = uuid (drawn env) ∧
    SyncQueueItem.task_id item = taskId ∧
    SyncQueueItem.operation item = operation ∧
    SyncQueueItem.retry_count item = 0 ∧
    SyncQueueItem.created_at item =
      JsDate.Valid (clock (ticks (world env))).
Proof.
  destruct env as [w n]. cbn [world drawn]. intros Hid Hfree.
  eexists _, (Db.rowToItem
                (uuid n, QueueRow.mk taskId operation (JSON_stringify data)
                           (clock (ticks w)) 0 None)).
  split; [apply (enqueue_run _ _ _ _ _ Hid Hfree) |].
  cbn [world].
  assert (Hin :
    Db.rowToItem (uuid n, QueueRow.mk taskId operation (JSON_stringify data)
                            (clock (ticks w)) 0 None) ∈
    Db.pending
      (mkDatabase (tasks (db w))
         (<[uuid n := QueueRow.mk taskId operation (JSON_stringify data)
                        (clock (ticks w)) 0 None]> (sync_queue (db w))))).
  { apply elem_of_pending. cbn [sync_queue Db.rowToItem SyncQueueItem.id fst].
    rewrite lookup_insert_eq. eauto. }
  split.
  { match goal with |- wire (SyncService.sync _ _ ?w1).2 = _ =>
      destruct (sync_posts_request clock transport w1) as [-> _] end.
    - cbn [db]. intros Hnil. rewrite Hnil in Hin.
      destruct (not_elem_of_nil _ Hin).
    - reflexivity. }
  split; [exact Hin |]. repeat split; reflexivity.
Qed.

(** X30.  A task made by [createTask] is not accepted by the reconciler.
    The create queued for it holds the task as JSON text, so the item that
    comes out of the queue carries its [created_at] as text; a reconciler
    whose store does not hold the task passes it on to [save], where
    [toISOString()] is called on it: the verdict is error, and nothing is
    stored. *)
Theorem created_task_is_rejected_by_server taskData env server_clock w :
  uuid (S (drawn env)) ≠ "" →
  sync_queue (db (world env)) !! uuid (S (drawn env)) = None →
  tasks (db w) !! uuid (drawn env) = None →
  ∃ task env' item,
    createTask taskData env = (inr task, env') ∧
    item ∈ Db.pending (db (world env')) ∧
    SyncQueueItem.id item = uuid (S (drawn env)) ∧
    SyncQueueItem.task_id item = Task.id task ∧
    SyncQueueItem.operation item = op_create ∧
    SyncService.process_item server_clock item w =
      (inr [verdict_error item
              "task.created_at.toISOString is not a function"], w).
Proof.
  destruct env as [e n]. cbn [world drawn]. intros Hid Hfree Habsent.
  destruct (createTask_run taskData e n Hid Hfree) as (row & Hback & Hrun).
  eexists _, _,
    (Db.rowToItem
       (uuid (S n),
        QueueRow.mk (uuid n) op_create
          (JSON_stringify
             (task_as_data (newTask taskData (uuid n) (clock (ticks e)))))
          (clock (S (ticks e))) 0 None)).
  split; [exact Hrun |]. cbn [world db sync_queue].
  split.
  { apply elem_of_pending.
    cbn [sync_queue Db.rowToItem SyncQueueItem.id fst].
    rewrite lookup_insert_eq. eauto. }
  split; [reflexivity |]. split; [reflexivity |]. split; [reflexivity |].
  unfold SyncService.process_item, try_catch, SyncService.reconcile.
  unfold mbind at 1, M_bind. rewrite findById_run.
  cbn [Db.rowToItem SyncQueueItem.task_id SyncQueueItem.operation
       SyncQueueItem.data fst snd QueueRow.task_id QueueRow.operation
       QueueRow.data].
  rewrite Habsent. reflexivity.
Qed.

End TaskServiceRuns.

(** X28.  A delete as [deleteTask] queues it, reconciled against a store that
    holds the task: whatever the timestamps, it is accepted, and the stored
    task becomes deleted and synced, its other fields, [updated_at]
    included, staying as they were. *)
Theorem queued_delete_reaches_server clock item w existing :
  server_copy w item = Some existing →
  SyncQueueItem.data item = deletion →
  ∃ w',
    SyncService.process_item clock item w = (inr [verdict_success item], w') ∧
    server_copy w' item =
      Some (stored_form
        {| Task.id := Task.id existing;
           Task.title := Task.title existing;
           Task.description := Task.description existing;
           Task.completed := Task.completed existing;
           Task.created_at := Task.created_at existing;
           Task.updated_at := Task.updated_at existing;
           Task.is_deleted := true;
           Task.sync_status := ss_synced;
           Task.server_id := Task.server_id existing;
           Task.last_synced_at := Task.last_synced_at existing |}).
Proof.
  intros Hpresent Hdata.
  destruct (server_copy_dates _ _ _ Hpresent) as (_ & (u & Hu) & _).
  assert (Hincoming :
    incoming_timestamp (SyncQueueItem.data item) existing =
    Task.updated_at existing) by (rewrite Hdata; reflexivity).
  assert (Hge :
    JsDate.geb (incoming_timestamp (SyncQueueItem.data item) existing)
               (Task.updated_at existing) = true)
    by (rewrite Hincoming, Hu; simpl; apply Z.leb_refl).
  assert (Hpers : persistable (SyncQueueItem.data item))
    by (rewrite Hdata; split; [discriminate | split; exact I]).
  destruct (merged_row _ _ _ Hpresent Hge Hpers) as (row & Hrow).
  eexists. split; [apply (process_item_accepts _ _ _ _ _ Hpresent Hge Hrow) |].
  unfold server_copy, with_tasks. cbn [db tasks].
  rewrite lookup_insert_eq. cbn [fmap option_fmap option_map]. f_equal.
  rewrite <- (server_copy_id _ _ _ Hpresent).
  rewrite Hdata in Hrow.
  exact (rowToTask_save_params
           {| Task.id := Task.id existing;
              Task.title := Task.title existing;
              Task.description := Task.description existing;
              Task.completed := Task.completed existing;
              Task.created_at := Task.created_at existing;
              Task.updated_at := Task.updated_at existing;
              Task.is_deleted := true;
              Task.sync_status := ss_synced;
              Task.server_id := Task.server_id existing;
              Task.last_synced_at := Task.last_synced_at existing |}
           row Hrow).
Qed.

(** ** The further properties at the scenarios *)

Import Desk.

Lemma reconciler_keeps_tasks_and_time_witness :
  ∃ row',
    tasks (db (SyncService.handleBatchSync clock batch server).2) !! "t1" =
      Some row' ∧
    TaskRow.updated_at milk ≤ TaskRow.updated_at row'.
Proof.
  apply (reconciler_keeps_tasks_and_time clock batch server "t1" milk).
  reflexivity.
Defined.

Lemma accepted_update_is_idempotent_witness :
  ∃ w',
    SyncService.process_item clock newer server =
      (inr [verdict_success newer], w') ∧
    SyncService.process_item clock newer w' =
      (inr [verdict_success newer], w').
Proof.
  apply (accepted_update_is_idempotent clock newer server
           (Db.rowToTask "t1" milk)).
  - reflexivity.
  - reflexivity.
  - split; [discriminate | split; exact I].
Defined.

Lemma update_without_timestamp_always_wins_witness :
  ∃ w' stored_task,
    SyncService.process_item clock undated server =
      (inr [verdict_success undated], w') ∧
    server_copy w' undated = Some stored_task ∧
    Task.updated_at stored_task = Task.updated_at (Db.rowToTask "t1" milk) ∧
    Task.sync_status stored_task = ss_synced.
Proof.
  apply (update_without_timestamp_always_wins clock undated server
           (Db.rowToTask "t1" milk)).
  - reflexivity.
  - reflexivity.
  - split; [discriminate | split; exact I].
Defined.

Lemma present_task_ignores_operation_witness :
  SyncService.process_item clock mislabelled server =
  SyncService.process_item clock newer server.
Proof.
  apply (present_task_ignores_operation clock newer mislabelled server).
  - exists milk. reflexivity.
  - reflexivity.
  - reflexivity.
Defined.

Lemma one_verdict_per_item_under_task_id_witness :
  ∃ resp w',
    SyncService.handleBatchSync clock batch server = (inr resp, w') ∧
    ProcessedItem.client_id <$> BatchSyncResponse.processed_items resp =
      SyncQueueItem.task_id <$> BatchSyncRequest.items batch ∧
    ProcessedItem.server_id <$> BatchSyncResponse.processed_items resp =
      SyncQueueItem.task_id <$> BatchSyncRequest.items batch.
Proof.
  apply (one_verdict_per_item_under_task_id clock batch 0 server).
  - reflexivity.
  - repeat (apply Forall_cons; split; [discriminate |]). apply Forall_nil.
    exact I.
Defined.

Lemma invalid_client_timestamp_throws_after_writes_witness :
  ∃ vs w1,
    SyncService.process_items clock (BatchSyncRequest.items undated_batch) []
      server = (inr vs, w1) ∧
    SyncService.handleBatchSync clock undated_batch server =
      (inl (RangeError "Invalid time value"), w1).
Proof.
  apply (invalid_client_timestamp_throws_after_writes clock undated_batch
           server).
  reflexivity.
Defined.

Lemma create_on_absent_persists_witness :
  ∃ w',
    SyncService.process_item clock fresh server =
      (inr [verdict_success fresh], w') ∧
    server_copy w' fresh =
      Some (stored_form
        (Task.mk "t9" "Buy oat milk" None false (JsDate.Valid 5000)
           (JsDate.Valid 3000) false ss_synced (Some "t9") None)) ∧
    (∀ id, id ≠ "t9" → tasks (db w') !! id = tasks (db server) !! id) ∧
    sync_queue (db w') = sync_queue (db server).
Proof.
  apply (create_on_absent_persists clock fresh server).
  - reflexivity.
  - reflexivity.
  - exact I.
  - exact I.
Defined.

Lemma sync_tallies_verdicts_witness :
  ∃ res w',
    SyncService.sync clock answered client = (inr res, w') ∧
    SyncResult.synced_items res = 1 ∧
    SyncResult.synced_items res + SyncResult.failed_items res = 2 ∧
    (SyncResult.success res = true ↔
     Forall resolved
       [ProcessedItem.mk "q1" "t1" st_success None None;
        ProcessedItem.mk "q2" "t2" st_error None (Some "boom")]) ∧
    SyncResult.errors res = [].
Proof.
  apply (sync_tallies_verdicts clock answered client
           (BatchSyncResponse.mk
              [ProcessedItem.mk "q1" "t1" st_success None None;
               ProcessedItem.mk "q2" "t2" st_error None (Some "boom")]
              [] (JsDate.Valid 700))).
  - vm_compute. discriminate.
  - reflexivity.
Defined.

Lemma failed_batch_is_posted_again_witness :
  wire (SyncService.sync clock answered
          (SyncService.sync clock offline client).2).2 =
    wire client ++
    [sync_request clock client;
     BatchSyncRequest.mk (Db.pending (db client)) (JsDate.Valid 5002)].
Proof.
  apply (failed_batch_is_posted_again clock offline answered client
           (AxiosError "Network Error")).
  - vm_compute. discriminate.
  - reflexivity.
Defined.

Lemma save_then_findById_witness :
  ∃ w',
    Db.save (TaskObject.of_task (Db.rowToTask "t1" oat_milk)) server =
      (inr tt, w') ∧
    Db.findById "t1" w' =
      (inr (Some (stored_form (Db.rowToTask "t1" oat_milk))), w') ∧
    (∀ id, id ≠ "t1" → tasks (db w') !! id = tasks (db server) !! id) ∧
    sync_queue (db w') = sync_queue (db server).
Proof.
  apply (save_then_findById (Db.rowToTask "t1" oat_milk) server 1000 3000).
  - reflexivity.
  - reflexivity.
  - discriminate.
Defined.

Lemma save_invalid_date_throws_witness :
  Db.save (TaskObject.of_task timeless) server =
    (inl (RangeError "Invalid time value"), server).
Proof.
  apply (save_invalid_date_throws timeless server).
  right. left. reflexivity.
Defined.

Lemma find_drops_unusable_conditions_witness :
  DbQuery.find (Some (Filter.mk None (Some conds))) server =
  DbQuery.find None server.
Proof.
  apply (find_drops_unusable_conditions conds server).
  repeat (apply Forall_cons; split; [reflexivity |]). apply Forall_nil.
  exact I.
Defined.

Lemma batch_adds_no_task_needing_sync_witness :
  ∃ listed,
    (TaskService.getTasksNeedingSync server).1 = inr listed ∧
    Db.rowToTask "t1" milk ∈ listed.
Proof.
  apply (batch_adds_no_task_needing_sync clock orphan_batch server
           [Db.rowToTask "t1" milk] (Db.rowToTask "t1" milk)).
  - vm_compute. reflexivity.
  - apply list_elem_of_here.
Defined.

Lemma missing_task_is_left_alone_witness :
  TaskService.updateTask clock uuid "t9" ticked desk = (inr None, desk) ∧
  TaskService.deleteTask clock uuid "t9" desk = (inr false, desk).
Proof.
  apply (missing_task_is_left_alone clock uuid "t9" ticked desk).
  reflexivity.
Defined.

Lemma deleteTask_soft_deletes_witness :
  ∃ env',
    TaskService.deleteTask clock uuid "t1" desk = (inr true, env') ∧
    TaskService.getTask "t1" (world env') = (inr None, world env') ∧
    Db.findById "t1" (world env') =
      (inr (Some (stored_form
                    (TaskService.deletedTask (Db.rowToTask "t1" milk)
                       (JsDate.Valid 5000)))),
       world env') ∧
    sync_queue (db (world env')) =
      <[uuid 0 := QueueRow.mk "t1" op_delete (JSON_stringify deletion) 5001 0
                    None]>
        (sync_queue (db (world desk))) ∧
    ∀ k, k ≠ "t1" →
         tasks (db (world env')) !! k = tasks (db (world desk)) !! k.
Proof.
  apply (deleteTask_soft_deletes clock uuid "t1" (Db.rowToTask "t1" milk)
           desk).
  - reflexivity.
  - discriminate.
  - reflexivity.
Defined.

Lemma deleted_task_cannot_be_changed_witness :
  (TaskService.deleteTask clock uuid "t1" desk).1 = inr true ∧
  TaskService.deleteTask clock uuid "t1"
    (TaskService.deleteTask clock uuid "t1" desk).2 =
    (inr false, (TaskService.deleteTask clock uuid "t1" desk).2) ∧
  TaskService.updateTask clock uuid "t1" ticked
    (TaskService.deleteTask clock uuid "t1" desk).2 =
    (inr None, (TaskService.deleteTask clock uuid "t1" desk).2).
Proof.
  apply (deleted_task_cannot_be_changed clock uuid "t1"
           (Db.rowToTask "t1" milk) ticked desk).
  - reflexivity.
  - discriminate.
  - reflexivity.
Defined.

Lemma rejected_enqueue_keeps_task_write_witness :
  ∃ env',
    TaskService.deleteTask clock uuid "t1" crowded =
      (inl (SqliteError
              "SQLITE_CONSTRAINT: UNIQUE constraint failed: sync_queue.id"),
       env') ∧
    TaskService.getTask "t1" (world env') = (inr None, world env') ∧
    is_Some (tasks (db (world env')) !! "t1") ∧
    sync_queue (db (world env')) = sync_queue (db (world crowded)).
Proof.
  apply (rejected_enqueue_keeps_task_write clock uuid "t1"
           (Db.rowToTask "t1" milk) crowded).
  - reflexivity.
  - discriminate.
  - exists (row "t1" 10). reflexivity.
Defined.

Lemma createTask_then_getTask_witness :
  ∃ task env' queued_row,
    TaskService.createTask clock uuid ticked desk = (inr task, env') ∧
    Task.id task = uuid 0 ∧
    Task.title task = "Buy oat milk" ∧
    Task.is_deleted task = false ∧
    Task.sync_status task = ss_pending ∧
    Task.created_at task = JsDate.Valid 5000 ∧
    Task.updated_at task = Task.created_at task ∧
    TaskService.getTask (Task.id task) (world env') =
      (inr (Some task), world env') ∧
    sync_queue (db (world env')) !! uuid 1 = Some queued_row ∧
    QueueRow.task_id queued_row = Task.id task ∧
    QueueRow.operation queued_row = op_create ∧
    QueueRow.retry_count queued_row = 0.
Proof.
  apply (createTask_then_getTask clock uuid ticked desk).
  - discriminate.
  - reflexivity.
Defined.

Lemma updateTask_keeps_identity_witness :
  ∃ updated env' queued_row persisted,
    TaskService.updateTask clock uuid "t1" ticked desk =
      (inr (Some updated), env') ∧
    TaskObject.id updated = "t1" ∧
    TaskObject.created_at updated = Some (DateObject (JsDate.Valid 1000)) ∧
    TaskObject.updated_at updated = DateObject (JsDate.Valid 5000) ∧
    TaskObject.sync_status updated = ss_pending ∧
    Db.findById "t1" (world env') = (inr (Some persisted), world env') ∧
    stored_as updated persisted ∧
    sync_queue (db (world env')) !! uuid 0 = Some queued_row ∧
    QueueRow.task_id queued_row = "t1" ∧
    QueueRow.operation queued_row = op_update ∧
    QueueRow.retry_count queued_row = 0.
Proof.
  apply (updateTask_keeps_identity clock uuid "t1" (Db.rowToTask "t1" milk)
           ticked desk).
  - reflexivity.
  - split; [discriminate | exact I].
  - discriminate.
  - reflexivity.
Defined.

Lemma queued_item_is_posted_by_sync_witness :
  ∃ env' item,
    TaskService.createAndQueueSyncItem clock uuid "t1" op_update ticked desk =
      (inr tt, env') ∧
    wire (SyncService.sync clock offline (world env')).2 =
      wire (world desk) ++ [sync_request clock (world env')] ∧
    item ∈ BatchSyncRequest.items (sync_request clock (world env')) ∧
    SyncQueueItem.id item = uuid 0 ∧
    SyncQueueItem.task_id item = "t1" ∧
    SyncQueueItem.operation item = op_update ∧
    SyncQueueItem.retry_count item = 0 ∧
    SyncQueueItem.created_at item = JsDate.Valid 5000.
Proof.
  apply (queued_item_is_posted_by_sync clock uuid "t1" op_update ticked desk
           offline).
  - discriminate.
  - reflexivity.
Defined.

Lemma queued_delete_reaches_server_witness :
  ∃ w',
    SyncService.process_item clock removal server =
      (inr [verdict_success removal], w') ∧
    server_copy w' removal =
      Some (stored_form
        (Task.mk "t1" "Buy milk" None false (JsDate.Valid 1000)
           (JsDate.Valid 2000) true ss_synced None None)).
Proof.
  apply (queued_delete_reaches_server clock removal server
           (Db.rowToTask "t1" milk)).
  - reflexivity.
  - reflexivity.
Defined.


(** The error [wired] meets is the one of calling [toISOString] on text. *)
Example wired_is_rejected :
  SyncService.process_item clock wired server =
    (inr [verdict_error wired
            "task.created_at.toISOString is not a function"], server).
Proof. reflexivity. Qed.

Lemma created_task_is_rejected_by_server_witness :
  ∃ task env' item,
    TaskService.createTask clock uuid ticked desk = (inr task, env') ∧
    item ∈ Db.pending (db (world env')) ∧
    SyncQueueItem.id item = uuid 1 ∧
    SyncQueueItem.task_id item = Task.id task ∧
    SyncQueueItem.operation item = op_create ∧
    SyncService.process_item clock item server =
      (inr [verdict_error item
              "task.created_at.toISOString is not a function"], server).
Proof.
  apply (created_task_is_rejected_by_server clock uuid ticked desk clock
           server).
  - discriminate.
  - reflexivity.
  - reflexivity.
Defined.

(** The texts of some dates: the epoch, a leap day, and the two ends of
    the years written with four digits, each with its neighbour. *)
Example iso_text_samples :
  Iso.text 0 = "1970-01-01T00:00:00.000Z" ∧
  Iso.text 951782400000 = "2000-02-29T00:00:00.000Z" ∧
  Iso.text 1730592000123 = "2024-11-03T00:00:00.123Z" ∧
  Iso.text 253402300799999 = "9999-12-31T23:59:59.999Z" ∧
  Iso.text 253402300800000 = "+010000-01-01T00:00:00.000Z" ∧
  Iso.text (-62167219200000) = "0000-01-01T00:00:00.000Z" ∧
  Iso.text (-62167219200001) = "-000001-12-31T23:59:59.999Z".
Proof. repeat split; vm_compute; reflexivity. Qed.

(** A queue row created in the year 10000 comes out before a row created
    in 1970: the text of its date begins with [+]. *)
Example pending_orders_texts :
  SyncQueueItem.id <$>
    Db.pending
      (mkDatabase ∅
         {[ "q1" := row "t1" 253402300800000; "q2" := row "t2" 0 ]}) =
  ["q1"; "q2"].
Proof. vm_compute. reflexivity. Qed.

(** The delete the task service queues is the same after JSON. *)
Example deletion_through_JSON : JSON_parse (JSON_stringify deletion) = deletion.
Proof. reflexivity. Qed.
